(** * AEGIS: vault contract and rebalancing agent

    A shallow embedding of
    - [contracts/aegis_position.py], the [AegisPosition] ARC4 contract, and
    - [agent/aegis_agent.py], the volatility model, the decision engine and
      one cycle of the monitoring loop,
    together with the properties of them that the specification states. *)

From Stdlib Require Import ZArith NArith QArith Reals Lra Lia Bool List String.
From Stdlib Require Import Floats.
From Stdlib Require Import Sorting.Sorted.
Import ListNotations.


(* ================================================================= *)
(** * The vault contract *)
(* ================================================================= *)

Module AegisPosition.

Local Open Scope N_scope.

(** An AVM [uint64].  The AVM does not wrap: [+] fails the program when the
    sum leaves the 64-bit range and [-] fails when the result would be
    negative, and a failed program rejects the whole transaction. *)
Definition UInt64 := N.

Definition UInt64_max : N := 2 ^ 64 - 1.

Definition Exec (A : Type) := option A.

Definition ret {A} (a : A) : Exec A := Some a.

Definition bind {A B} (m : Exec A) (k : A -> Exec B) : Exec B :=
  match m with
  | Some a => k a
  | None => None
  end.

Notation "x <- m ;; k" := (bind m (fun x => k))
  (at level 61, m at next level, right associativity).
Notation "m ;;; k" := (bind m (fun _ => k))
  (at level 61, right associativity).

(** [assert cond, "..."] *)
Definition assert_ (cond : bool) : Exec unit :=
  if cond then Some tt else None.

Definition u64_add (a b : UInt64) : Exec UInt64 :=
  if a + b <=? UInt64_max then Some (a + b) else None.

Definition u64_sub (a b : UInt64) : Exec UInt64 :=
  if b <=? a then Some (a - b) else None.

Definition Bytes := list Byte.byte.

(** An account is its 32-byte public key; [Account(b)] reads stored bytes
    back as an account and [==] compares the bytes. *)
Definition Account := Bytes.

Definition bytes_eqb (a b : Bytes) : bool :=
  if list_eq_dec Byte.byte_eq_dec a b then true else false.

(** What a method reads from [Txn] and [Global]. *)
Record Context := {
  sender : Account;               (* Txn.sender *)
  creator_address : Account;      (* Global.creator_address *)
  latest_timestamp : UInt64       (* Global.latest_timestamp *)
}.

(** The contract's global state. *)
Record State := {
  entry_price : UInt64;
  lower_bound : UInt64;
  upper_bound : UInt64;
  capital_usdc : UInt64;
  open_timestamp : UInt64;
  total_rebalances : UInt64;
  last_rebalance_timestamp : UInt64;
  deposited_algo : UInt64;
  deposited_usdc : UInt64;
  total_deposits : UInt64;
  total_withdrawals : UInt64;
  agent_address : Bytes;
  agent_authorized : UInt64;
  total_decisions : UInt64;
  last_decision_timestamp : UInt64;
  last_decision_action : UInt64
}.

Definition initialize : State :=
  {| entry_price := 0; lower_bound := 0; upper_bound := 0; capital_usdc := 0;
     open_timestamp := 0; total_rebalances := 0;
     last_rebalance_timestamp := 0;
     deposited_algo := 0; deposited_usdc := 0; total_deposits := 0;
     total_withdrawals := 0;
     agent_address := []; agent_authorized := 0;
     total_decisions := 0; last_decision_timestamp := 0;
     last_decision_action := 0 |}.

Definition set_position (ctx : Context) (entry lower upper capital : UInt64)
    (self : State) : Exec State :=
  assert_ (bytes_eqb (sender ctx) (creator_address ctx)) ;;;
  ret {| entry_price := entry;
         lower_bound := lower;
         upper_bound := upper;
         capital_usdc := capital;
         open_timestamp := latest_timestamp ctx;
         total_rebalances := total_rebalances self;
         last_rebalance_timestamp := last_rebalance_timestamp self;
         deposited_algo := deposited_algo self;
         deposited_usdc := deposited_usdc self;
         total_deposits := total_deposits self;
         total_withdrawals := total_withdrawals self;
         agent_address := agent_address self;
         agent_authorized := agent_authorized self;
         total_decisions := total_decisions self;
         last_decision_timestamp := last_decision_timestamp self;
         last_decision_action := last_decision_action self |}.

Definition set_agent (addr : Bytes) (flag : UInt64) (self : State) : State :=
  {| entry_price := entry_price self;
     lower_bound := lower_bound self;
     upper_bound := upper_bound self;
     capital_usdc := capital_usdc self;
     open_timestamp := open_timestamp self;
     total_rebalances := total_rebalances self;
     last_rebalance_timestamp := last_rebalance_timestamp self;
     deposited_algo := deposited_algo self;
     deposited_usdc := deposited_usdc self;
     total_deposits := total_deposits self;
     total_withdrawals := total_withdrawals self;
     agent_address := addr;
     agent_authorized := flag;
     total_decisions := total_decisions self;
     last_decision_timestamp := last_decision_timestamp self;
     last_decision_action := last_decision_action self |}.

Definition authorize_agent (ctx : Context) (agent : Account) (self : State)
    : Exec State :=
  assert_ (bytes_eqb (sender ctx) (creator_address ctx)) ;;;
  ret (set_agent agent 1 self).

Definition revoke_agent (ctx : Context) (self : State) : Exec State :=
  assert_ (bytes_eqb (sender ctx) (creator_address ctx)) ;;;
  ret (set_agent [] 0 self).

(** The test shared by [trigger_rebalance] and [log_decision]:
<<
    is_creator = Txn.sender == Global.creator_address
    is_agent = self.agent_authorized == UInt64(1)
    if is_agent:
        is_agent = Txn.sender == Account(self.agent_address)
    assert is_creator or is_agent
>> *)
Definition creator_or_agent (ctx : Context) (self : State) : bool :=
  let is_creator := bytes_eqb (sender ctx) (creator_address ctx) in
  let is_agent := agent_authorized self =? 1 in
  let is_agent :=
    if is_agent then bytes_eqb (sender ctx) (agent_address self)
    else is_agent in
  is_creator || is_agent.

Definition trigger_rebalance (ctx : Context) (new_lower new_upper : UInt64)
    (self : State) : Exec State :=
  assert_ (creator_or_agent ctx self) ;;;
  rebalances <- u64_add (total_rebalances self) 1 ;;
  decisions <- u64_add (total_decisions self) 1 ;;
  ret {| entry_price := entry_price self;
         lower_bound := new_lower;
         upper_bound := new_upper;
         capital_usdc := capital_usdc self;
         open_timestamp := open_timestamp self;
         total_rebalances := rebalances;
         last_rebalance_timestamp := latest_timestamp ctx;
         deposited_algo := deposited_algo self;
         deposited_usdc := deposited_usdc self;
         total_deposits := total_deposits self;
         total_withdrawals := total_withdrawals self;
         agent_address := agent_address self;
         agent_authorized := agent_authorized self;
         total_decisions := decisions;
         last_decision_timestamp := latest_timestamp ctx;
         last_decision_action := 1 |}.

Definition set_vault (algo usdc deposits withdrawals : UInt64) (self : State)
    : State :=
  {| entry_price := entry_price self;
     lower_bound := lower_bound self;
     upper_bound := upper_bound self;
     capital_usdc := capital_usdc self;
     open_timestamp := open_timestamp self;
     total_rebalances := total_rebalances self;
     last_rebalance_timestamp := last_rebalance_timestamp self;
     deposited_algo := algo;
     deposited_usdc := usdc;
     total_deposits := deposits;
     total_withdrawals := withdrawals;
     agent_address := agent_address self;
     agent_authorized := agent_authorized self;
     total_decisions := total_decisions self;
     last_decision_timestamp := last_decision_timestamp self;
     last_decision_action := last_decision_action self |}.

Definition deposit (ctx : Context) (algo_amount usdc_amount : UInt64)
    (self : State) : Exec State :=
  algo <- u64_add (deposited_algo self) algo_amount ;;
  usdc <- u64_add (deposited_usdc self) usdc_amount ;;
  deposits <- u64_add (total_deposits self) 1 ;;
  ret (set_vault algo usdc deposits (total_withdrawals self) self).

Definition withdraw (ctx : Context) (algo_amount usdc_amount : UInt64)
    (self : State) : Exec State :=
  assert_ (bytes_eqb (sender ctx) (creator_address ctx)) ;;;
  assert_ (algo_amount <=? deposited_algo self) ;;;
  assert_ (usdc_amount <=? deposited_usdc self) ;;;
  algo <- u64_sub (deposited_algo self) algo_amount ;;
  usdc <- u64_sub (deposited_usdc self) usdc_amount ;;
  withdrawals <- u64_add (total_withdrawals self) 1 ;;
  ret (set_vault algo usdc (total_deposits self) withdrawals self).

Definition log_decision (ctx : Context) (action : UInt64) (self : State)
    : Exec State :=
  assert_ (creator_or_agent ctx self) ;;;
  decisions <- u64_add (total_decisions self) 1 ;;
  ret {| entry_price := entry_price self;
         lower_bound := lower_bound self;
         upper_bound := upper_bound self;
         capital_usdc := capital_usdc self;
         open_timestamp := open_timestamp self;
         total_rebalances := total_rebalances self;
         last_rebalance_timestamp := last_rebalance_timestamp self;
         deposited_algo := deposited_algo self;
         deposited_usdc := deposited_usdc self;
         total_deposits := total_deposits self;
         total_withdrawals := total_withdrawals self;
         agent_address := agent_address self;
         agent_authorized := agent_authorized self;
         total_decisions := decisions;
         last_decision_timestamp := latest_timestamp ctx;
         last_decision_action := action |}.

(** An application call as the ledger sees it: the state the method leaves
    when it runs to completion, the state before the call when it fails. *)
Definition call (method : State -> Exec State) (before : State) : State :=
  match method before with
  | Some after => after
  | None => before
  end.

Definition succeeds (r : Exec State) : Prop := r <> None.

(** The three vault fields the withdrawal guard protects. *)
Definition vault_state (s : State) : UInt64 * UInt64 * UInt64 :=
  (deposited_algo s, deposited_usdc s, total_withdrawals s).

End AegisPosition.

(* ================================================================= *)
(** * The monitoring agent *)
(* ================================================================= *)

Module Agent.

(** ** Exceptions

    The agent's arithmetic raises in two places, and its group builder in a
    third; a step that raises ends the function it is in, and the cycle of
    the monitoring loop that called it. *)

Inductive Exception :=
| OverflowError       (* [x ** 2] beyond the range of [float] *)
| ValueError          (* [math.sqrt] of a negative number *)
| AttributeError.     (* a name that the module does not have *)

Inductive Raises (A : Type) :=
| Returns (a : A)
| Raised (e : Exception).

Arguments Returns {A} a.
Arguments Raised {A} e.

Definition bind {A B} (m : Raises A) (k : A -> Raises B) : Raises B :=
  match m with
  | Returns a => k a
  | Raised e => Raised e
  end.

Notation "x <~ m ;; k" := (bind m (fun x => k))
  (at level 61, m at next level, right associativity).

(** [[f(x) for x in l]], evaluated in order up to the first exception. *)
Fixpoint each {A B} (f : A -> Raises B) (l : list A) : Raises (list B) :=
  match l with
  | [] => Returns []
  | x :: rest => y <~ f x ;; ys <~ each f rest ;; Returns (y :: ys)
  end.

(** ** Numbers

    The agent computes with Python [float]s.  Its code is embedded once,
    over the operations it uses, and read in two ways: over IEEE binary64
    ([F64], which evaluates like the program does) and over the real
    numbers ([Exact], the arithmetic the specification reasons in).  A
    statement proved over every [Num] holds whatever the operations
    compute, rounding, overflow and the C library's [pow] included. *)

Class Num (num : Type) := {
  num_of_Z : Z -> num;               (* an int used as a float *)
  num_ratio : Z -> Z -> num;         (* a / b of two ints, b not 0 *)
  num_add : num -> num -> num;
  num_sub : num -> num -> num;
  num_mul : num -> num -> num;
  num_div : num -> num -> num;       (* x / y, y not 0 *)
  num_pow2 : num -> Raises num;      (* x ** 2 *)
  num_sqrt : num -> num;             (* math.sqrt of x >= 0 *)
  num_abs : num -> num;              (* abs *)
  num_ltb : num -> num -> bool;      (* < *)
  num_leb : num -> num -> bool;      (* <= *)
  num_int : num -> Z                 (* int(x): truncation towards zero *)
}.

Declare Scope num_scope.
Delimit Scope num_scope with num.
Notation "x + y" := (num_add x y) : num_scope.
Notation "x - y" := (num_sub x y) : num_scope.
Notation "x * y" := (num_mul x y) : num_scope.
Notation "x / y" := (num_div x y) : num_scope.
Notation "x <? y" := (num_ltb x y) : num_scope.
Notation "x <=? y" := (num_leb x y) : num_scope.
Notation "x >? y" := (num_ltb y x) (only parsing) : num_scope.

(** A decimal literal of the source, [0.82] as [lit 0.82]. *)
Definition lit {num} `{Num num} (q : Q) : num :=
  (num_of_Z (Qnum q) / num_of_Z (Zpos (Qden q)))%num.

(** [l[i:]] *)
Definition slice_from {A} (i : Z) (l : list A) : list A :=
  let n := Z.of_nat (List.length l) in
  let start := if (i <? 0)%Z then Z.max (n + i) 0 else Z.min i n in
  skipn (Z.to_nat start) l.

Inductive Action := HOLD | REBALANCE | ALERT | SKIP.

Definition Action_eqb (a b : Action) : bool :=
  match a, b with
  | HOLD, HOLD | REBALANCE, REBALANCE | ALERT, ALERT | SKIP, SKIP => true
  | _, _ => false
  end.

Section Engine.

Context {num : Type} {ops : Num num}.
Local Open Scope num_scope.

(** [min(a, b)] keeps [a] unless [b < a]. *)
Definition pymin (a b : num) : num := if b <? a then b else a.

(** [sum(l)] *)
Definition pysum (l : list num) : num := fold_left num_add l (num_of_Z 0).

(** [x ** 2] *)
Definition sq (x : num) : Raises num := num_pow2 x.

Definition len (l : list num) : num := num_of_Z (Z.of_nat (List.length l)).

(** *** config.py *)

Definition BUFFER_ZONE_PCT : num := lit 3.0.
Definition REBALANCE_COOLDOWN_SECONDS : Z := 1800.
Definition COST_BENEFIT_MULTIPLIER : num := lit 2.5.
Definition VOLATILITY_WINDOW : Z := 24.
Definition MIN_HOURS_IN_RANGE : num := num_of_Z 4.

(** *** Data layer *)

Record PositionState := {
  entry_price : num;
  lower_bound : num;
  upper_bound : num;
  capital_usdc : num;
  total_rebalances : Z;
  open_timestamp : Z
}.

(** The class defaults, which [read_position_state] returns when the chain
    cannot be read. *)
Definition PositionState_default : PositionState :=
  {| entry_price := lit 0.172; lower_bound := lit 0.140;
     upper_bound := lit 0.220; capital_usdc := lit 5000.0;
     total_rebalances := 0; open_timestamp := 0 |}.

(** The dict [fetch_pact_pool_state] returns. *)
Record PoolState := {
  current_price : num;
  liquidity : Z;
  fee_rate : num;
  tick_spacing : Z;
  sqrt_price : num
}.

(** [math.sqrt(price)] raises [ValueError] for a negative price, so that
    no dict is returned then. *)
Definition fetch_pact_pool_state (price : num) : Raises PoolState :=
  if price <? num_of_Z 0 then Raised ValueError
  else
    Returns {| current_price := price; liquidity := 125000;
               fee_rate := lit 0.003; tick_spacing := 10;
               sqrt_price := num_sqrt price |}.

Definition estimate_swap_cost_with (capital slippage_pct : num) : num :=
  let swap_amount := capital * lit 0.5 in
  let swap_fee := swap_amount * lit 0.003 in
  let slippage_cost := swap_amount * (slippage_pct / num_of_Z 100) in
  let gas_cost := lit 0.004 in
  swap_fee + slippage_cost + gas_cost.

(** [estimate_swap_cost(capital)], with the default [slippage_pct = 0.5]. *)
Definition estimate_swap_cost (capital : num) : num :=
  estimate_swap_cost_with capital (lit 0.5).

(** *** Volatility model *)

Record VolatilityModel := {
  window : Z;
  price_history : list num
}.

Definition VolatilityModel_init (window : Z) : VolatilityModel :=
  {| window := window; price_history := [] |}.

Definition update (self : VolatilityModel) (price : num) : VolatilityModel :=
  let history := price_history self ++ [price] in
  let max_samples := (window self * 90)%Z in
  if (max_samples <? Z.of_nat (List.length history))%Z
  then {| window := window self;
          price_history := slice_from (- max_samples) history |}
  else {| window := window self; price_history := history |}.

(** The samples the prediction looks at, [self.price_history[-90:]]. *)
Definition recent_samples (self : VolatilityModel) : list num :=
  slice_from (-90) (price_history self).

(** The values [predict_hours_in_range] binds to [mean], [variance],
    [std_dev] and [hourly_std].  The squares are computed one sample after
    the other; the first that raises ends the prediction. *)
Definition mean_of (recent : list num) : num := pysum recent / len recent.

Definition variance_of (recent : list num) : Raises num :=
  let mean := mean_of recent in
  squares <~ each (fun p => sq (p - mean)) recent ;;
  Returns (pysum squares / len recent).

Definition std_dev_of (recent : list num) : Raises num :=
  variance <~ variance_of recent ;;
  Returns (if variance >? num_of_Z 0 then num_sqrt variance else lit 0.001).

Definition hourly_std_of (recent : list num) : Raises num :=
  std_dev <~ std_dev_of recent ;;
  Returns (std_dev * num_sqrt (num_of_Z 90)).

(** The divisor of line 179 is not 0: an [hourly_std] that is not below
    0.0001 is at least that. *)
Definition predict_hours_in_range (self : VolatilityModel)
    (current lower upper : num) : Raises num :=
  if (Z.of_nat (List.length (price_history self)) <? 10)%Z
  then Returns (lit 12.0)
  else
    let recent := recent_samples self in
    hourly_std <~ hourly_std_of recent ;;
    let dist_lower := current - lower in
    let dist_upper := upper - current in
    let min_dist := pymin dist_lower dist_upper in
    if hourly_std <? lit 0.0001 then Returns (lit 48.0)
    else
      hours <~ sq (min_dist / hourly_std) ;;
      Returns (pymin hours (num_of_Z 168)).

(** *** Decision engine *)

(** The text of a reason: which f-string produced it, with the values it
    formats, and whatever was appended to it afterwards. *)
Inductive Message :=
| Cooldown (remaining : Z)
    (* "Cooldown: {remaining}s remaining (min 1800s between rebalances)" *)
| BufferZone (pct : num)
    (* "Buffer zone: price {pct:.1f}% from boundary (< 3.0% threshold)" *)
| Preemptive (hours net_benefit : num)
    (* "Preemptive: {hours:.1f}h to boundary, net +${net_benefit:.2f}" *)
| NearBoundary (hours : num)
    (* "Near boundary ({hours:.1f}h), but cost too high" *)
| InRange (hours daily_fee : num)
    (* "In range, ~{hours:.0f}h predicted, fees +${daily_fee:.2f}/day" *)
| OutOfRange (projected_weekly swap_cost : num)
    (* "Out of range. Projected +${weekly:.2f}/wk > cost ${cost:.2f}" *)
| CostTooHigh (swap_cost projected_weekly : num).
    (* "Out of range, but cost ${cost:.2f} > benefit ${weekly:.2f}" *)

Record Reason := {
  message : Message;
  appended : string
}.

(** The dict [evaluate] returns; the keys ["new_lower"] and ["new_upper"]
    are not always there. *)
Record Decision := {
  action : Action;
  reason : Reason;
  fee_projection : num;
  swap_cost : num;
  hours_in_range : num;
  confidence : num;
  new_lower : option num;
  new_upper : option num
}.

Record DecisionEngine := {
  vol_model : VolatilityModel;
  last_rebalance_time : num
}.

Definition DecisionEngine_init : DecisionEngine :=
  {| vol_model := VolatilityModel_init VOLATILITY_WINDOW;
     last_rebalance_time := lit 0.0 |}.

Definition in_range_of (price : num) (position : PositionState) : bool :=
  (lower_bound position <=? price) && (price <=? upper_bound position).

(** The condition of guard 1. *)
Definition cooldown_active (self : DecisionEngine) (now : num) : bool :=
  let since_last := now - last_rebalance_time self in
  (since_last <? num_of_Z REBALANCE_COOLDOWN_SECONDS)
  && (last_rebalance_time self >? num_of_Z 0).

Definition cooldown_remaining (self : DecisionEngine) (now : num) : Z :=
  let since_last := now - last_rebalance_time self in
  num_int (num_of_Z REBALANCE_COOLDOWN_SECONDS - since_last).

(** [abs(price - bound) / bound if bound > 0 else 999] *)
Definition boundary_distance (price bound : num) : num :=
  if bound >? num_of_Z 0 then num_abs (price - bound) / bound
  else num_of_Z 999.

Definition buffer_frac : num := BUFFER_ZONE_PCT / lit 100.0.

(** [evaluate] reads the clock at guard 1 ([now]) and once more when it
    emits REBALANCE ([stamp]).  It returns a decision or raises, and either
    way leaves the engine changed: the sample is in the window before
    anything can raise. *)
Definition evaluate (self : DecisionEngine) (now stamp : num)
    (price : num) (position : PositionState) (pool_state : PoolState)
    : Raises Decision * DecisionEngine :=
  let vol := update (vol_model self) price in
  let self := {| vol_model := vol;
                 last_rebalance_time := last_rebalance_time self |} in
  let in_range := in_range_of price position in
  let swap_cost := estimate_swap_cost (capital_usdc position) in
  if cooldown_active self now then
    (Returns
       {| action := SKIP;
          reason := {| message := Cooldown (cooldown_remaining self now);
                       appended := "" |};
          fee_projection := num_of_Z 0;
          swap_cost := swap_cost;
          hours_in_range := num_of_Z 0;
          confidence := lit 0.3;
          new_lower := None; new_upper := None |}, self)
  else
  let dist_lower := boundary_distance price (lower_bound position) in
  let dist_upper := boundary_distance price (upper_bound position) in
  if negb in_range && (pymin dist_lower dist_upper <? buffer_frac) then
    (Returns
       {| action := HOLD;
          reason := {| message :=
                         BufferZone
                           (pymin dist_lower dist_upper * num_of_Z 100);
                       appended := "" |};
          fee_projection := num_of_Z 0;
          swap_cost := swap_cost;
          hours_in_range := num_of_Z 0;
          confidence := lit 0.6;
          new_lower := None; new_upper := None |}, self)
  else
  let daily_fee :=
    capital_usdc position * fee_rate pool_state
    * (if in_range then lit 1.0 else lit 0.0) in
  let weekly_fee := daily_fee * num_of_Z 7 in
  match predict_hours_in_range vol price
          (lower_bound position) (upper_bound position) with
  | Raised e => (Raised e, self)
  | Returns hours_in_range =>
  if in_range then
    if hours_in_range <? MIN_HOURS_IN_RANGE then
      let net_benefit := weekly_fee - swap_cost in
      if net_benefit >? swap_cost * COST_BENEFIT_MULTIPLIER then
        (Returns
           {| action := REBALANCE;
              reason := {| message := Preemptive hours_in_range net_benefit;
                           appended := "" |};
              fee_projection := weekly_fee;
              swap_cost := swap_cost;
              hours_in_range := hours_in_range;
              confidence := lit 0.7;
              new_lower := None; new_upper := None |},
         {| vol_model := vol; last_rebalance_time := stamp |})
      else
        (Returns
           {| action := ALERT;
              reason := {| message := NearBoundary hours_in_range;
                           appended := "" |};
              fee_projection := weekly_fee;
              swap_cost := swap_cost;
              hours_in_range := hours_in_range;
              confidence := lit 0.5;
              new_lower := None; new_upper := None |}, self)
    else
      (Returns
         {| action := HOLD;
            reason := {| message := InRange hours_in_range daily_fee;
                         appended := "" |};
            fee_projection := weekly_fee;
            swap_cost := swap_cost;
            hours_in_range := hours_in_range;
            confidence := lit 0.9;
            new_lower := None; new_upper := None |}, self)
  else
    let new_lower := price * lit 0.82 in
    let new_upper := price * lit 1.22 in
    let projected_daily := capital_usdc position * fee_rate pool_state in
    let projected_weekly := projected_daily * num_of_Z 7 in
    if projected_weekly >? swap_cost * COST_BENEFIT_MULTIPLIER then
      (Returns
         {| action := REBALANCE;
            reason := {| message := OutOfRange projected_weekly swap_cost;
                         appended := "" |};
            fee_projection := projected_weekly;
            swap_cost := swap_cost;
            hours_in_range := num_of_Z 0;
            confidence := lit 0.85;
            new_lower := Some new_lower; new_upper := Some new_upper |},
       {| vol_model := vol; last_rebalance_time := stamp |})
    else
      (Returns
         {| action := SKIP;
            reason := {| message := CostTooHigh swap_cost projected_weekly;
                         appended := "" |};
            fee_projection := projected_weekly;
            swap_cost := swap_cost;
            hours_in_range := num_of_Z 0;
            confidence := lit 0.6;
            new_lower := None; new_upper := None |}, self)
  end.

(** *** Decision logger and one cycle of the monitoring loop *)

(** An entry of the decision log.  The four rounded figures and the ISO
    date that [DecisionLogger.log] also stores are copies of decision
    fields for display; the entry is kept to the fields the loop decides. *)
Record LogEntry := {
  log_timestamp : Z;
  log_price : num;
  log_action : Action;
  log_reason : Reason;
  log_tx_id : option string
}.

(** [DecisionLogger.log]: the entry is appended to [self.entries]. *)
Definition log (entries : list LogEntry) (time : num) (decision : Decision)
    (price : num) (tx_id : option string) : list LogEntry :=
  entries ++ [ {| log_timestamp := num_int time;
                  log_price := price;
                  log_action := action decision;
                  log_reason := reason decision;
                  log_tx_id := tx_id |} ].

(** What the collaborators answer during one cycle whose steps 1 and 2
    return.  ([read_position_state] always returns;
    [fetch_pact_pool_state] raises for a negative price, which ends the
    cycle before the engine is asked.) *)
Record Cycle := {
  position_read : PositionState;   (* read_position_state() *)
  pool_read : PoolState;           (* fetch_pact_pool_state() *)
  clock_guard : num;               (* time.time() at the cooldown guard *)
  clock_emit : num;                (* time.time() when REBALANCE is emitted *)
  submit_group : option string;    (* what submit_group would return *)
  clock_log : num                  (* time.time() in DecisionLogger.log *)
}.

(** [build_rebalance_group].  Lines 351 to 403 fetch the suggested
    parameters and build the two payments to self, the payment to the pool
    and the swap call.  Line 408 then looks the name
    [atomic_transaction_composer] up in [transaction], which line 32 binds
    to the module [algosdk.transaction]; that module has no such name (the
    composer lives in [algosdk.atomic_transaction_composer]), and the lookup
    raises [AttributeError].  No call gets past that line, whatever its
    arguments, so no group is ever returned. *)
Definition build_rebalance_group (new_lower new_upper : num)
    (position : PositionState) : Raises (list string) :=
  Raised AttributeError.

(** [if tx_id:] *)
Definition truthy (tx_id : option string) : bool :=
  match tx_id with
  | Some s => negb (String.eqb s "")
  | None => false
  end.

(** [decision["action"] = "SKIP"; decision["reason"] += " (reverted)"] *)
Definition mark_reverted (decision : Decision) : Decision :=
  {| action := SKIP;
     reason := {| message := message (reason decision);
                  appended := appended (reason decision) ++ " (reverted)" |};
     fee_projection := fee_projection decision;
     swap_cost := swap_cost decision;
     hours_in_range := hours_in_range decision;
     confidence := confidence decision;
     new_lower := new_lower decision;
     new_upper := new_upper decision |}.

(** [decision.get(key, default)] *)
Definition get_or (field : option num) (default : num) : num :=
  match field with
  | Some v => v
  | None => default
  end.

(** The bounds the loop hands to [build_rebalance_group]. *)
Definition bounds_for (decision : Decision) (price : num) : num * num :=
  (get_or (new_lower decision) (price * lit 0.82),
   get_or (new_upper decision) (price * lit 1.22)).

Record LoopState := {
  engine : DecisionEngine;
  entries : list LogEntry
}.

(** The body of the [while True] loop of [monitoring_loop], steps 3 to 5.
    Besides the state it leaves, it tells which bounds went to the group
    builder, if any.  An exception inside the [try] ends the cycle before
    step 5: nothing is logged, and what the engine has changed by then
    stays changed. *)
Definition monitoring_cycle (dry_run : bool) (st : LoopState) (c : Cycle)
    : LoopState * option (num * num) :=
  let position := position_read c in
  let pool_state := pool_read c in
  let price := current_price pool_state in
  let '(result, engine') :=
    evaluate (engine st) (clock_guard c) (clock_emit c)
             price position pool_state in
  match result with
  | Raised _ => ({| engine := engine'; entries := entries st |}, None)
  | Returns decision =>
      if Action_eqb (action decision) REBALANCE && negb dry_run then
        let bounds := bounds_for decision price in
        match build_rebalance_group (fst bounds) (snd bounds) position with
        | Raised _ =>
            ({| engine := engine'; entries := entries st |}, Some bounds)
        | Returns signed =>
            let tx_id := submit_group c in
            let decision := if truthy tx_id then decision
                            else mark_reverted decision in
            ({| engine := engine';
                entries :=
                  log (entries st) (clock_log c) decision price tx_id |},
             Some bounds)
        end
      else
        ({| engine := engine';
            entries := log (entries st) (clock_log c) decision price None |},
         None)
  end.

End Engine.

Arguments PositionState num : clear implicits.
Arguments PoolState num : clear implicits.
Arguments VolatilityModel num : clear implicits.
Arguments DecisionEngine num : clear implicits.
Arguments Decision num : clear implicits.
Arguments Message num : clear implicits.
Arguments Reason num : clear implicits.
Arguments LogEntry num : clear implicits.
Arguments Cycle num : clear implicits.
Arguments LoopState num : clear implicits.

(** ** IEEE binary64 *)

(** An int as a [float]: the nearest double, ties to even. *)
Definition Z_to_float (z : Z) : float :=
  SF2Prim (binary_normalize prec emax z 0 false).

(** [a / b] of two ints: the double nearest to the quotient, whatever the
    size of [a] and [b]. *)
Definition float_ratio (a b : Z) : float :=
  let exactly (z : Z) : spec_float :=
    match z with
    | Z0 => S754_zero false
    | Zpos p => S754_finite false p 0
    | Zneg p => S754_finite true p 0
    end in
  SF2Prim (SFdiv prec emax (exactly a) (exactly b)).

(** [x ** 2].  CPython hands a finite [x] to the C library's [pow] and
    raises [OverflowError] when the result is infinite; an infinite [x]
    gives infinity and a nan gives nan.  The square is taken correctly
    rounded here, which the C library meets up to an error in the last
    place. *)
Definition float_pow2 (x : float) : Raises float :=
  let square := (x * x)%float in
  if is_infinity square && negb (is_infinity x) then Raised OverflowError
  else Returns square.

(** [int(x)] of a finite [x]: its integer part, exactly.  On nan and the
    infinities Python raises; the agent applies [int] to clock readings
    and to differences of them only. *)
Definition float_int (x : float) : Z :=
  match Prim2SF x with
  | S754_finite negative m e =>
      let magnitude := Z.shiftl (Zpos m) e in
      if negative then (- magnitude)%Z else magnitude
  | _ => 0%Z
  end.

(** Binary64 with [pow2] for [x ** 2].  The format fixes every operation
    but the power, which is the C library's. *)
Definition F64_with (pow2 : float -> Raises float) : Num float := {|
  num_of_Z := Z_to_float;
  num_ratio := float_ratio;
  num_add := PrimFloat.add;
  num_sub := PrimFloat.sub;
  num_mul := PrimFloat.mul;
  num_div := PrimFloat.div;
  num_pow2 := pow2;
  num_sqrt := PrimFloat.sqrt;
  num_abs := PrimFloat.abs;
  num_ltb := PrimFloat.ltb;
  num_leb := PrimFloat.leb;
  num_int := float_int
|}.

#[export] Instance F64 : Num float := F64_with float_pow2.

(** ** Exact arithmetic *)

Definition Rltb (x y : R) : bool := if Rlt_dec x y then true else false.

Definition Rleb (x y : R) : bool := if Rle_dec x y then true else false.

Definition Rint (x : R) : Z :=
  if Rle_dec 0 x then Int_part x else (- Int_part (- x))%Z.

#[export] Instance Exact : Num R := {|
  num_of_Z := IZR;
  num_ratio := fun a b => (IZR a / IZR b)%R;
  num_add := Rplus;
  num_sub := Rminus;
  num_mul := Rmult;
  num_div := Rdiv;
  num_pow2 := fun x => Returns (x * x)%R;
  num_sqrt := R_sqrt.sqrt;
  num_abs := Rabs;
  num_ltb := Rltb;
  num_leb := Rleb;
  num_int := Rint
|}.

End Agent.

(** ** Doubles as the format specifies them *)

Module Binary64.

Local Open Scope Z_scope.

(** The double for the integer [q], of at most 54 bits, at the exponent
    [E]: zero, [q * 2 ^ E], or for [q = 2 ^ 53] the same number written with
    53 bits; infinity beyond the largest exponent. *)
Definition rounded (q E : Z) : spec_float :=
  if q =? 0 then S754_zero false
  else if q <? 2 ^ 53
       then if E <=? 971 then S754_finite false (Z.to_pos q) E
            else S754_infinity false
       else if E + 1 <=? 971
            then S754_finite false 4503599627370496 (E + 1)
            else S754_infinity false.

End Binary64.

(* ================================================================= *)
(** * Sample inputs and the specification's sentences *)
(* ================================================================= *)

Module VaultSamples.

Import AegisPosition.
Local Open Scope N_scope.

Definition creator : Account := repeat Byte.x01 32.
Definition agent : Account := repeat Byte.x02 32.
Definition stranger : Account := repeat Byte.x03 32.

Definition as_creator : Context :=
  {| sender := creator; creator_address := creator;
     latest_timestamp := 1762000000 |}.

Definition as_agent : Context :=
  {| sender := agent; creator_address := creator;
     latest_timestamp := 1762000040 |}.

Definition as_stranger : Context :=
  {| sender := stranger; creator_address := creator;
     latest_timestamp := 1762000080 |}.

(** A vault after [authorize_agent(agent)] and one deposit. *)
Definition funded : State :=
  call (deposit as_creator 5000000 2000000)
    (call (authorize_agent as_creator agent) initialize).

(** A vault whose first deposit recorded the largest [uint64]. *)
Definition saturated : State :=
  call (deposit as_stranger UInt64_max 0) initialize.

(** A vault whose counters have run up to the last [uint64]. *)
Definition worn_out : State :=
  {| entry_price := 172; lower_bound := 140; upper_bound := 220;
     capital_usdc := 500000; open_timestamp := 1762000000;
     total_rebalances := UInt64_max;
     last_rebalance_timestamp := 1762000000;
     deposited_algo := 5000000; deposited_usdc := 2000000;
     total_deposits := 1; total_withdrawals := UInt64_max;
     agent_address := agent; agent_authorized := 1;
     total_decisions := UInt64_max;
     last_decision_timestamp := 1762000000;
     last_decision_action := 1 |}.

End VaultSamples.

Module VaultSpec.

Import AegisPosition.
Local Open Scope N_scope.

(** [withdraw] succeeds exactly for the creator asking for no more than is
    deposited. *)
Definition withdraw_succeeds_iff : Prop :=
  forall ctx algo_amount usdc_amount s,
    succeeds (withdraw ctx algo_amount usdc_amount s) <->
    sender ctx = creator_address ctx
    /\ algo_amount <= deposited_algo s
    /\ usdc_amount <= deposited_usdc s.

(** The caller is the creator, or the agent on record. *)
Definition creator_or_agent_caller (ctx : Context) (s : State) : Prop :=
  sender ctx = creator_address ctx
  \/ (agent_authorized s = 1 /\ sender ctx = agent_address s).

(** What a successful [trigger_rebalance] leaves. *)
Definition rebalanced (new_lower new_upper : UInt64) (s s' : State) : Prop :=
  lower_bound s' = new_lower
  /\ upper_bound s' = new_upper
  /\ total_rebalances s' = total_rebalances s + 1
  /\ total_decisions s' = total_decisions s + 1
  /\ last_decision_action s' = 1.

(** [trigger_rebalance] succeeds for every authorised caller and every
    pair of bounds. *)
Definition trigger_rebalance_always_succeeds : Prop :=
  forall ctx new_lower new_upper s,
    creator_or_agent_caller ctx s ->
    exists s',
      trigger_rebalance ctx new_lower new_upper s = Some s'
      /\ rebalanced new_lower new_upper s s'.

(** What a successful [deposit] leaves. *)
Definition deposited (algo_amount usdc_amount : UInt64) (s s' : State)
    : Prop :=
  deposited_algo s' = deposited_algo s + algo_amount
  /\ deposited_usdc s' = deposited_usdc s + usdc_amount
  /\ total_deposits s' = total_deposits s + 1.

(** [deposit] succeeds for every sender. *)
Definition deposit_always_succeeds : Prop :=
  forall ctx algo_amount usdc_amount s,
    exists s',
      deposit ctx algo_amount usdc_amount s = Some s'
      /\ deposited algo_amount usdc_amount s s'.

End VaultSpec.

Module AgentSamples.

Import Agent.

Section Inputs.

Context {num : Type} {ops : Num num}.

(** The dict [fetch_pact_pool_state] returns when the price is [price]. *)
Definition pool_at (price : num) : PoolState num :=
  {| current_price := price; liquidity := 125000; fee_rate := lit 0.003;
     tick_spacing := 10; sqrt_price := num_sqrt price |}.

(** An engine that has not rebalanced yet and has seen no price. *)
Definition fresh : DecisionEngine num := DecisionEngine_init.

(** The engine [stamp] seconds into the epoch, right after a REBALANCE. *)
Definition rebalanced_at (stamp : Z) : DecisionEngine num :=
  {| vol_model := VolatilityModel_init VOLATILITY_WINDOW;
     last_rebalance_time := num_of_Z stamp |}.

(** Nine samples swinging across most of the default range. *)
Definition swinging : list num :=
  [lit 0.15; lit 0.2; lit 0.15; lit 0.2; lit 0.15; lit 0.2; lit 0.15;
   lit 0.2; lit 0.15].

Definition after_swings : DecisionEngine num :=
  {| vol_model := {| window := VOLATILITY_WINDOW; price_history := swinging |};
     last_rebalance_time := lit 0.0 |}.




(** One cycle at [price] against the default position, on a network
    that would confirm a group. *)
Definition cycle_at (price : num) : Cycle num :=
  {| position_read := PositionState_default;
     pool_read := pool_at price;
     clock_guard := num_of_Z 1762000000;
     clock_emit := num_of_Z 1762000001;
     submit_group := Some "TXID"%string;
     clock_log := num_of_Z 1762000005 |}.

End Inputs.

End AgentSamples.

Module AgentSpec.

Import Agent.

Section Sentences.

Context {num : Type} {ops : Num num}.
Local Open Scope num_scope.

(** "newBounds present iff action = REBALANCE", with
    "newLowerBound < newUpperBound, both strictly positive given positive
    price input", of every decision [evaluate] returns. *)
Definition rebalance_iff_new_bounds : Prop :=
  forall self now stamp price position pool_state d,
    fst (evaluate self now stamp price position pool_state) = Returns d ->
    (action d = REBALANCE ->
     exists lo hi,
       new_lower d = Some lo /\ new_upper d = Some hi
       /\ (lo <? hi) = true
       /\ ((price >? num_of_Z 0) = true ->
           (lo >? num_of_Z 0) = true /\ (hi >? num_of_Z 0) = true))
    /\ (action d <> REBALANCE -> new_lower d = None /\ new_upper d = None).

(** The range boundary nearer to [price]. *)
Definition nearest_bound (price : num) (position : PositionState num) : num :=
  if num_abs (price - lower_bound position)
     <=? num_abs (price - upper_bound position)
  then lower_bound position else upper_bound position.

(** "|price - nearestBound| / nearestBound" *)
Definition nearest_bound_distance (price : num)
    (position : PositionState num) : num :=
  num_abs (price - nearest_bound price position)
  / nearest_bound price position.

Definition buffer_zone_reason (r : Reason num) : Prop :=
  exists pct, message r = BufferZone pct.

(** "... < bufferZonePct/100, regardless of in/out-of-range, evaluate
    returns HOLD with a buffer-zone reason" (when no cooldown is active). *)
Definition buffer_zone_regardless : Prop :=
  forall self now stamp price position pool_state,
    cooldown_active self now = false ->
    (nearest_bound_distance price position <? BUFFER_ZONE_PCT / num_of_Z 100)
      = true ->
    exists d,
      fst (evaluate self now stamp price position pool_state) = Returns d
      /\ action d = HOLD /\ buffer_zone_reason (reason d).

(** "When the price is outside [lowerBound, upperBound], beyond the buffer
    zone, and no cooldown is active, evaluate emits REBALANCE exactly when
    projectedWeekly exceeds swapCost x costBenefitMultiplier, and emits SKIP
    otherwise." *)
Definition out_of_range_decides : Prop :=
  forall self now stamp price position pool_state,
    cooldown_active self now = false ->
    in_range_of price position = false ->
    (pymin (boundary_distance price (lower_bound position))
           (boundary_distance price (upper_bound position))
     <? buffer_frac) = false ->
    exists d,
      fst (evaluate self now stamp price position pool_state) = Returns d
      /\ (action d = REBALANCE \/ action d = SKIP).

(** "Side effects: only lastRebalanceAt mutation, and only on REBALANCE":
    the sample window stays as it was. *)
Definition evaluate_keeps_window : Prop :=
  forall self now stamp price position pool_state,
    let r := evaluate self now stamp price position pool_state in
    vol_model (snd r) = vol_model self
    /\ (forall d, fst r = Returns d -> action d <> REBALANCE ->
        last_rebalance_time (snd r) = last_rebalance_time self).



End Sentences.

End AgentSpec.

(* ================================================================= *)
(** * The vault contract as the ledger drives it *)
(* ================================================================= *)

Module VaultLedger.

Import AegisPosition.
Local Open Scope N_scope.

(** An application call: the method and its ABI arguments. *)
Inductive Call :=
| SetPosition (entry lower upper capital : UInt64)
| AuthorizeAgent (agent : Account)
| RevokeAgent
| TriggerRebalance (new_lower new_upper : UInt64)
| Deposit (algo_amount usdc_amount : UInt64)
| Withdraw (algo_amount usdc_amount : UInt64)
| LogDecision (action : UInt64).

(** The ARC-4 router: the method a call reaches. *)
Definition route (ctx : Context) (c : Call) : State -> Exec State :=
  match c with
  | SetPosition entry lower upper capital =>
      set_position ctx entry lower upper capital
  | AuthorizeAgent agent => authorize_agent ctx agent
  | RevokeAgent => revoke_agent ctx
  | TriggerRebalance new_lower new_upper =>
      trigger_rebalance ctx new_lower new_upper
  | Deposit algo_amount usdc_amount => deposit ctx algo_amount usdc_amount
  | Withdraw algo_amount usdc_amount => withdraw ctx algo_amount usdc_amount
  | LogDecision action => log_decision ctx action
  end.

(** A transaction as the application sees it, and a sequence of them
    applied in order; a rejected one leaves the state alone. *)
Definition Transaction : Type := Context * Call.

Definition apply (s : State) (tx : Transaction) : State :=
  call (route (fst tx) (snd tx)) s.

Definition replay (txs : list Transaction) (s : State) : State :=
  fold_left apply txs s.

(** [get_position], read-only. *)
Definition get_position (self : State)
    : UInt64 * UInt64 * UInt64 * UInt64 * UInt64 * UInt64 * UInt64 :=
  (entry_price self, lower_bound self, upper_bound self, capital_usdc self,
   open_timestamp self, total_rebalances self, last_rebalance_timestamp self).

(** [get_vault_state], read-only. *)
Definition get_vault_state (self : State)
    : UInt64 * UInt64 * UInt64 * UInt64 * UInt64 * UInt64 * UInt64 * UInt64 :=
  (deposited_algo self, deposited_usdc self, total_deposits self,
   total_withdrawals self, agent_authorized self, total_decisions self,
   last_decision_timestamp self, last_decision_action self).

(** The same application: every transaction names the same creator. *)
Definition of_application (creator : Account) (txs : list Transaction)
    : Prop :=
  Forall (fun tx => creator_address (fst tx) = creator) txs.

(** No transaction is signed by the creator. *)
Definition none_by (creator : Account) (txs : list Transaction) : Prop :=
  Forall (fun tx => sender (fst tx) <> creator) txs.

(** What the state records consistently at all times. *)
Definition consistent (s : State) : Prop :=
  total_rebalances s <= total_decisions s
  /\ total_decisions s <= UInt64_max
  /\ deposited_algo s <= UInt64_max
  /\ deposited_usdc s <= UInt64_max
  /\ total_deposits s <= UInt64_max
  /\ total_withdrawals s <= UInt64_max
  /\ (agent_authorized s = 1
      \/ (agent_authorized s = 0 /\ agent_address s = [])).

(** What a transaction not signed by the creator can do to the state: add
    to the two balances, and move the range and the decision record. *)
Definition at_most_deposited (s s' : State) : Prop :=
  deposited_algo s <= deposited_algo s'
  /\ deposited_usdc s <= deposited_usdc s'
  /\ total_withdrawals s' = total_withdrawals s
  /\ agent_address s' = agent_address s
  /\ agent_authorized s' = agent_authorized s
  /\ entry_price s' = entry_price s
  /\ capital_usdc s' = capital_usdc s
  /\ open_timestamp s' = open_timestamp s.

End VaultLedger.

(* ================================================================= *)
(** * The agent's readers, its loop and its group arguments *)
(* ================================================================= *)

Module AgentIO.

Import Agent.
Local Open Scope string_scope.

(** An entry of ["global-state"] as algod returns it, the key already
    base64-decoded: [kv["key"]], [kv["value"]["type"]] (1 bytes, 2 uint),
    [kv["value"]["uint"]] and [kv["value"]["bytes"]]. *)
Record StateEntry := {
  entry_key : string;
  entry_type : Z;
  entry_uint : Z;
  entry_bytes : AegisPosition.Bytes
}.

(** A Python dict with string keys: the latest assignment to a key is the
    one [get] finds. *)
Definition Dict (V : Type) : Type := list (string * V).

Definition dict_set {V} (key : string) (value : V) (d : Dict V) : Dict V :=
  (key, value) :: d.

(** [d.get(key, default)] *)
Fixpoint dict_get {V} (key : string) (default : V) (d : Dict V) : V :=
  match d with
  | [] => default
  | (k, v) :: rest => if String.eqb k key then v else dict_get key default rest
  end.

(** The loop of [read_position_state]:
    [state[key] = value.get("uint", 0) if value["type"] == 2 else 0]. *)
Definition decode_uints (global_state : list StateEntry) : Dict Z :=
  fold_left
    (fun state kv =>
       dict_set (entry_key kv)
                (if (entry_type kv =? 2)%Z then entry_uint kv else 0%Z)
                state)
    global_state [].

(** [self.entries[-n:]] of [DecisionLogger.get_recent(n)]. *)
Definition get_recent {E} (entries : list E) (n : Z) : list E :=
  slice_from (- n) entries.

(** The global state of the contract as algod lists it: one entry per
    state attribute, under the attribute's name. *)
Definition chain_view (s : AegisPosition.State) : list StateEntry :=
  let uint key (n : N) :=
    {| entry_key := key; entry_type := 2; entry_uint := Z.of_N n;
       entry_bytes := [] |} in
  [ uint "entry_price" (AegisPosition.entry_price s);
    uint "lower_bound" (AegisPosition.lower_bound s);
    uint "upper_bound" (AegisPosition.upper_bound s);
    uint "capital_usdc" (AegisPosition.capital_usdc s);
    uint "open_timestamp" (AegisPosition.open_timestamp s);
    uint "total_rebalances" (AegisPosition.total_rebalances s);
    uint "last_rebalance_timestamp"
         (AegisPosition.last_rebalance_timestamp s);
    uint "deposited_algo" (AegisPosition.deposited_algo s);
    uint "deposited_usdc" (AegisPosition.deposited_usdc s);
    uint "total_deposits" (AegisPosition.total_deposits s);
    uint "total_withdrawals" (AegisPosition.total_withdrawals s);
    {| entry_key := "agent_address"; entry_type := 1; entry_uint := 0;
       entry_bytes := AegisPosition.agent_address s |};
    uint "agent_authorized" (AegisPosition.agent_authorized s);
    uint "total_decisions" (AegisPosition.total_decisions s);
    uint "last_decision_timestamp"
         (AegisPosition.last_decision_timestamp s);
    uint "last_decision_action" (AegisPosition.last_decision_action s) ].

Section Readers.

Context {num : Type} {ops : Num num}.
Local Open Scope num_scope.

(** [read_position_state]: [None] stands for a read that raised, which
    leaves the position at its class defaults. *)
Definition read_position_state (global_state : option (list StateEntry))
    : PositionState num :=
  match global_state with
  | None => PositionState_default
  | Some global_state =>
      let state := decode_uints global_state in
      {| entry_price := num_ratio (dict_get "entry_price" 172%Z state) 1000;
         lower_bound := num_ratio (dict_get "lower_bound" 140%Z state) 1000;
         upper_bound := num_ratio (dict_get "upper_bound" 220%Z state) 1000;
         capital_usdc :=
           num_ratio (dict_get "capital_usdc" 500000%Z state) 100;
         total_rebalances := dict_get "total_rebalances" 0%Z state;
         open_timestamp := dict_get "open_timestamp" 0%Z state |}
  end.

(** The prices fed to a model one [update] at a time. *)
Definition feed (v : VolatilityModel num) (prices : list num)
    : VolatilityModel num :=
  fold_left update prices v.

(** The decision a cycle of [monitoring_loop] starts from: step 3,
    [engine.evaluate(price, position, pool_state)], on what steps 1 and 2
    read. *)
Definition decided (st : LoopState num) (c : Cycle num)
    : Raises (Decision num) * DecisionEngine num :=
  evaluate (engine st) (clock_guard c) (clock_emit c)
    (current_price (pool_read c)) (position_read c) (pool_read c).

(** The [while True] loop of [monitoring_loop] over as many cycles as the
    list holds: the state it reaches and, in order, the bounds of every
    group it asked the builder for. *)
Definition monitoring_step (dry_run : bool)
    (acc : LoopState num * list (num * num)) (c : Cycle num)
    : LoopState num * list (num * num) :=
  let '(st, asked) := acc in
  let '(st', bounds) := monitoring_cycle dry_run st c in
  (st', (asked ++ match bounds with Some b => [b] | None => [] end)%list).

Definition monitoring_run (dry_run : bool) (st : LoopState num)
    (cycles : list (Cycle num)) : LoopState num * list (num * num) :=
  fold_left (monitoring_step dry_run) cycles (st, []).

End Readers.

End AgentIO.

Module LoopSamples.

Import Agent AgentSamples.
Local Open Scope string_scope.

Section Inputs.

Context {num : Type} {ops : Num num}.

(** [POLL_INTERVAL_SECONDS] of config.py. *)
Definition POLL_INTERVAL_SECONDS : Z := 40.

(** Cycles one poll interval apart from [start] on, one per price, on a
    network that would confirm every group. *)
Fixpoint polling (start : Z) (prices : list num) : list (Cycle num) :=
  match prices with
  | [] => []
  | price :: rest =>
      {| position_read := PositionState_default;
         pool_read := pool_at price;
         clock_guard := num_of_Z start;
         clock_emit := num_of_Z start;
         submit_group := Some "TXID";
         clock_log := num_of_Z start |}
      :: polling (start + POLL_INTERVAL_SECONDS) rest
  end.

End Inputs.

End LoopSamples.

(* ================================================================= *)
(** * The TEAL deployment *)
(* ================================================================= *)

(** ** [hashlib.new("sha512_256", ...)]

    SHA-512/256 as FIPS 180-4 defines it, on 64-bit words kept in [N]. *)

Module Hashlib.

Local Open Scope N_scope.

Definition mask : N := 0xffffffffffffffff.

Definition add64 (a b : N) : N := N.land (a + b) mask.

Definition rotr (n x : N) : N :=
  N.land (N.lor (N.shiftr x n) (N.shiftl x (64 - n))) mask.

Definition Ch (x y z : N) : N :=
  N.lxor (N.land x y) (N.land (N.lxor x mask) z).

Definition Maj (x y z : N) : N :=
  N.lxor (N.lxor (N.land x y) (N.land x z)) (N.land y z).

Definition Sigma0 (x : N) : N :=
  N.lxor (N.lxor (rotr 28 x) (rotr 34 x)) (rotr 39 x).

Definition Sigma1 (x : N) : N :=
  N.lxor (N.lxor (rotr 14 x) (rotr 18 x)) (rotr 41 x).

Definition sigma0 (x : N) : N :=
  N.lxor (N.lxor (rotr 1 x) (rotr 8 x)) (N.shiftr x 7).

Definition sigma1 (x : N) : N :=
  N.lxor (N.lxor (rotr 19 x) (rotr 61 x)) (N.shiftr x 6).

Definition K : list N :=
  [
   0x428a2f98d728ae22; 0x7137449123ef65cd; 0xb5c0fbcfec4d3b2f; 0xe9b5dba58189dbbc;
   0x3956c25bf348b538; 0x59f111f1b605d019; 0x923f82a4af194f9b; 0xab1c5ed5da6d8118;
   0xd807aa98a3030242; 0x12835b0145706fbe; 0x243185be4ee4b28c; 0x550c7dc3d5ffb4e2;
   0x72be5d74f27b896f; 0x80deb1fe3b1696b1; 0x9bdc06a725c71235; 0xc19bf174cf692694;
   0xe49b69c19ef14ad2; 0xefbe4786384f25e3; 0x0fc19dc68b8cd5b5; 0x240ca1cc77ac9c65;
   0x2de92c6f592b0275; 0x4a7484aa6ea6e483; 0x5cb0a9dcbd41fbd4; 0x76f988da831153b5;
   0x983e5152ee66dfab; 0xa831c66d2db43210; 0xb00327c898fb213f; 0xbf597fc7beef0ee4;
   0xc6e00bf33da88fc2; 0xd5a79147930aa725; 0x06ca6351e003826f; 0x142929670a0e6e70;
   0x27b70a8546d22ffc; 0x2e1b21385c26c926; 0x4d2c6dfc5ac42aed; 0x53380d139d95b3df;
   0x650a73548baf63de; 0x766a0abb3c77b2a8; 0x81c2c92e47edaee6; 0x92722c851482353b;
   0xa2bfe8a14cf10364; 0xa81a664bbc423001; 0xc24b8b70d0f89791; 0xc76c51a30654be30;
   0xd192e819d6ef5218; 0xd69906245565a910; 0xf40e35855771202a; 0x106aa07032bbd1b8;
   0x19a4c116b8d2d0c8; 0x1e376c085141ab53; 0x2748774cdf8eeb99; 0x34b0bcb5e19b48a8;
   0x391c0cb3c5c95a63; 0x4ed8aa4ae3418acb; 0x5b9cca4f7763e373; 0x682e6ff3d6b2b8a3;
   0x748f82ee5defb2fc; 0x78a5636f43172f60; 0x84c87814a1f0ab72; 0x8cc702081a6439ec;
   0x90befffa23631e28; 0xa4506cebde82bde9; 0xbef9a3f7b2c67915; 0xc67178f2e372532b;
   0xca273eceea26619c; 0xd186b8c721c0c207; 0xeada7dd6cde0eb1e; 0xf57d4f7fee6ed178;
   0x06f067aa72176fba; 0x0a637dc5a2c898a6; 0x113f9804bef90dae; 0x1b710b35131c471b;
   0x28db77f523047d84; 0x32caab7b40c72493; 0x3c9ebe0a15c9bebc; 0x431d67c49c100d4c;
   0x4cc5d4becb3e42b6; 0x597f299cfc657e2a; 0x5fcb6fab3ad6faec; 0x6c44198c4a475817 ].

(** The initial hash value of SHA-512/256. *)
Definition H0 : list N :=
  [ 0x22312194fc2bf72c; 0x9f555fa3c84c64c2; 0x2393b86b6f53b151;
    0x963877195940eabd; 0x96283ee2a88effe3; 0xbe5e1e2553863992;
    0x2b0199fc2c85b8aa; 0x0eb72ddc81c52ca2 ].

(** The [width] low bytes of [n], most significant first. *)
Fixpoint be_bytes (width : nat) (n : N) : list N :=
  match width with
  | O => []
  | S width' => be_bytes width' (n / 256) ++ [n mod 256]
  end.

Definition be_word (bytes : list N) : N :=
  fold_left (fun acc b => acc * 256 + b) bytes 0.

Definition pad (message : list N) : list N :=
  let used := ((List.length message + 17) mod 128)%nat in
  let zeros := ((128 - used) mod 128)%nat in
  message ++ [0x80] ++ repeat 0 zeros
  ++ be_bytes 16 (N.of_nat (List.length message) * 8).

Fixpoint chunks {A} (size count : nat) (l : list A) : list (list A) :=
  match count with
  | O => []
  | S count' => firstn size l :: chunks size count' (skipn size l)
  end.

(** The message schedule, latest word first while it is built. *)
Fixpoint extend (rounds : nat) (w : list N) : list N :=
  match rounds with
  | O => w
  | S rounds' =>
      extend rounds'
        (add64 (add64 (add64 (sigma1 (nth 1 w 0)) (nth 6 w 0))
                      (sigma0 (nth 14 w 0)))
               (nth 15 w 0)
         :: w)
  end.

Definition schedule (block : list N) : list N :=
  rev (extend 64 (rev (map be_word (chunks 8 16 block)))).

Definition Registers : Type := N * N * N * N * N * N * N * N.

Definition round (r : Registers) (kw : N * N) : Registers :=
  let '(a, b, c, d, e, f, g, h) := r in
  let T1 :=
    add64 (add64 (add64 (add64 h (Sigma1 e)) (Ch e f g)) (fst kw)) (snd kw) in
  let T2 := add64 (Sigma0 a) (Maj a b c) in
  (add64 T1 T2, a, b, c, add64 d T1, e, f, g).

Definition compress (H : Registers) (block : list N) : Registers :=
  let '(a, b, c, d, e, f, g, h) :=
    fold_left round (combine K (schedule block)) H in
  let '(a0, b0, c0, d0, e0, f0, g0, h0) := H in
  (add64 a0 a, add64 b0 b, add64 c0 c, add64 d0 d,
   add64 e0 e, add64 f0 f, add64 g0 g, add64 h0 h).

Definition to_byte (n : N) : Byte.byte :=
  match Byte.of_N n with
  | Some b => b
  | None => Byte.x00
  end.

(** [hashlib.new("sha512_256", message).digest()] *)
Definition sha512_256 (message : list Byte.byte) : list Byte.byte :=
  let padded := pad (map Byte.to_N message) in
  let blocks := chunks 128 (List.length padded / 128)%nat padded in
  let initial : Registers :=
    (nth 0 H0 0, nth 1 H0 0, nth 2 H0 0, nth 3 H0 0,
     nth 4 H0 0, nth 5 H0 0, nth 6 H0 0, nth 7 H0 0) in
  let '(a, b, c, d, _, _, _, _) := fold_left compress blocks initial in
  map to_byte (be_bytes 8 a ++ be_bytes 8 b ++ be_bytes 8 c ++ be_bytes 8 d).

End Hashlib.

(** ** contracts/deploy_teal.py *)

Module Teal.

Import AegisPosition.
Local Open Scope N_scope.

(** [method_selector(sig)]: [h[:4]] of the digest of [sig.encode()]. *)
Definition method_selector (sig : string) : Bytes :=
  firstn 4 (Hashlib.sha512_256 (list_byte_of_string sig)).

Definition SEL_INITIALIZE : Bytes := method_selector "initialize()void".

Definition SEL_SET_POSITION : Bytes :=
  method_selector "set_position(uint64,uint64,uint64,uint64)void".

Definition SEL_AUTHORIZE : Bytes :=
  method_selector "authorize_agent(account)void".

Definition SEL_REBALANCE : Bytes :=
  method_selector "trigger_rebalance(uint64,uint64)void".

Definition SEL_DEPOSIT : Bytes := method_selector "deposit(uint64,uint64)void".

Definition SEL_LOG_DECISION : Bytes :=
  method_selector "log_decision(uint64)void".

(** [struct.pack(">Q", n)], which raises outside the 64-bit range. *)
Definition encode_uint64 (n : N) : option Bytes :=
  if n <? 2 ^ 64 then Some (map Hashlib.to_byte (Hashlib.be_bytes 8 n))
  else None.

(** *** The AVM, as far as [APPROVAL_TEAL] uses it *)

Inductive TxnField := ApplicationID | Sender.

Inductive TxnArrayField := ApplicationArgs.

Inductive GlobalField := CreatorAddress | LatestTimestamp.

Inductive Op :=
| txn (field : TxnField)
| txna (field : TxnArrayField) (index : nat)
| global (field : GlobalField)
| method (signature : string)
| byte (text : string)
| int (n : N)
| eq_                              (* == *)
| add_                             (* + *)
| sub_                             (* - *)
| btoi
| assert_
| return_
| bz (target : string)
| bnz (target : string)
| b (target : string)
| label (name : string)            (* name: *)
| app_global_get
| app_global_put.

Inductive Value :=
| Uint (n : N)
| Slice (bytes : Bytes).

(** The application's global state, in the order the keys were first
    written. *)
Definition Globals : Type := list (Bytes * Value).

Fixpoint key_eqb (a b : Bytes) : bool :=
  match a, b with
  | [], [] => true
  | x :: a', y :: b' => Byte.eqb x y && key_eqb a' b'
  | _, _ => false
  end.

Fixpoint get (key : Bytes) (g : Globals) : option Value :=
  match g with
  | [] => None
  | (k, v) :: rest => if key_eqb k key then Some v else get key rest
  end.

Fixpoint put (key : Bytes) (v : Value) (g : Globals) : Globals :=
  match g with
  | [] => [(key, v)]
  | (k, old) :: rest =>
      if key_eqb k key then (key, v) :: rest else (k, old) :: put key v rest
  end.

(** A key holds at most 64 bytes, a key and its byte value at most 128. *)
Definition fits (key : Bytes) (v : Value) : bool :=
  (List.length key <=? 64)%nat
  && match v with
     | Uint _ => true
     | Slice bytes => (List.length key + List.length bytes <=? 128)%nat
     end.

(** [btoi]: up to eight bytes, big-endian. *)
Definition uint_of_bytes (bytes : Bytes) : option N :=
  if (List.length bytes <=? 8)%nat
  then Some (Hashlib.be_word (map Byte.to_N bytes))
  else None.

(** What an application call brings.  Of the actions a call can complete
    with, the three that concern the application itself; the others are
    about the caller's local state, of which this application has none. *)
Inductive OnComplete :=
| NoOp
| UpdateApplication (approval : list Op)
| DeleteApplication.

Record Txn := {
  caller : Context;            (* Sender, CreatorAddress, LatestTimestamp *)
  app_id : N;                  (* ApplicationID, 0 while creating *)
  app_args : list Bytes;       (* ApplicationArgs *)
  on_completion : OnComplete
}.

Inductive Step :=
| Next (stack : list Value) (g : Globals)
| Jump (target : string) (stack : list Value) (g : Globals)
| Halt (approved : bool) (g : Globals)
| Panic.

Definition step (tx : Txn) (op : Op) (stack : list Value) (g : Globals)
    : Step :=
  match op, stack with
  | txn ApplicationID, _ => Next (Uint (app_id tx) :: stack) g
  | txn Sender, _ => Next (Slice (sender (caller tx)) :: stack) g
  | txna ApplicationArgs index, _ =>
      match nth_error (app_args tx) index with
      | Some arg => Next (Slice arg :: stack) g
      | None => Panic
      end
  | global CreatorAddress, _ =>
      Next (Slice (creator_address (caller tx)) :: stack) g
  | global LatestTimestamp, _ =>
      Next (Uint (latest_timestamp (caller tx)) :: stack) g
  | method signature, _ => Next (Slice (method_selector signature) :: stack) g
  | byte text, _ => Next (Slice (list_byte_of_string text) :: stack) g
  | int n, _ => Next (Uint n :: stack) g
  | eq_, Uint y :: Uint x :: rest =>
      Next (Uint (if x =? y then 1 else 0) :: rest) g
  | eq_, Slice y :: Slice x :: rest =>
      Next (Uint (if bytes_eqb x y then 1 else 0) :: rest) g
  | add_, Uint y :: Uint x :: rest =>
      match u64_add x y with
      | Some sum => Next (Uint sum :: rest) g
      | None => Panic
      end
  | sub_, Uint y :: Uint x :: rest =>
      match u64_sub x y with
      | Some difference => Next (Uint difference :: rest) g
      | None => Panic
      end
  | btoi, Slice bytes :: rest =>
      match uint_of_bytes bytes with
      | Some n => Next (Uint n :: rest) g
      | None => Panic
      end
  | assert_, Uint n :: rest => if n =? 0 then Panic else Next rest g
  | return_, Uint n :: rest => Halt (negb (n =? 0)) g
  | bz target, Uint n :: rest =>
      if n =? 0 then Jump target rest g else Next rest g
  | bnz target, Uint n :: rest =>
      if n =? 0 then Next rest g else Jump target rest g
  | b target, _ => Jump target stack g
  | label _, _ => Next stack g
  | app_global_get, Slice key :: rest =>
      Next (match get key g with
            | Some v => v
            | None => Uint 0
            end :: rest) g
  | app_global_put, v :: Slice key :: rest =>
      if fits key v then Next rest (put key v g) else Panic
  | _, _ => Panic
  end.

(** Run [program] from its first instruction; [seeking] is the label a
    branch taken is on its way to.  Branches are followed forwards, which
    is where all of [APPROVAL_TEAL]'s labels are.  The result is the global
    state of an approved call. *)
Fixpoint exec (program : list Op) (seeking : option string) (tx : Txn)
    (stack : list Value) (g : Globals) : option Globals :=
  match program with
  | [] =>
      match seeking, stack with
      | None, [Uint n] => if n =? 0 then None else Some g
      | _, _ => None
      end
  | op :: rest =>
      match seeking with
      | Some target =>
          match op with
          | label name =>
              if String.eqb name target then exec rest None tx stack g
              else exec rest seeking tx stack g
          | _ => exec rest seeking tx stack g
          end
      | None =>
          match step tx op stack g with
          | Next stack' g' => exec rest None tx stack' g'
          | Jump target stack' g' => exec rest (Some target) tx stack' g'
          | Halt approved g' => if approved then Some g' else None
          | Panic => None
          end
      end
  end.

(** Every branch of [program] has its label further down. *)
Fixpoint branches_forward (program : list Op) : bool :=
  match program with
  | [] => true
  | op :: rest =>
      match op with
      | bz target | bnz target | b target =>
          existsb (fun o => match o with
                            | label name => String.eqb name target
                            | _ => false
                            end) rest
      | _ => true
      end && branches_forward rest
  end.

(** [APPROVAL_TEAL], [#pragma version 9], line by line. *)
Definition APPROVAL_TEAL : list Op :=
  [
    txn ApplicationID; bz "handle_create";
    txna ApplicationArgs 0; method "initialize()void"; eq_;
    bnz "route_initialize";
    txna ApplicationArgs 0;
    method "set_position(uint64,uint64,uint64,uint64)void"; eq_;
    bnz "route_set_position";
    txna ApplicationArgs 0; method "authorize_agent(account)void"; eq_;
    bnz "route_authorize_agent";
    txna ApplicationArgs 0; method "revoke_agent()void"; eq_;
    bnz "route_revoke_agent";
    txna ApplicationArgs 0;
    method "trigger_rebalance(uint64,uint64)void"; eq_;
    bnz "route_trigger_rebalance";
    txna ApplicationArgs 0; method "deposit(uint64,uint64)void"; eq_;
    bnz "route_deposit";
    txna ApplicationArgs 0; method "withdraw(uint64,uint64)void"; eq_;
    bnz "route_withdraw";
    txna ApplicationArgs 0; method "log_decision(uint64)void"; eq_;
    bnz "route_log_decision";
    int 1; return_;

    (* handle_create *)
  label "handle_create";
    txna ApplicationArgs 0; method "initialize()void"; eq_; assert_;
    b "route_initialize";

    (* initialize *)
  label "route_initialize";
    byte "entry_price"; int 0; app_global_put;
    byte "lower_bound"; int 0; app_global_put;
    byte "upper_bound"; int 0; app_global_put;
    byte "capital_usdc"; int 0; app_global_put;
    byte "open_timestamp"; int 0; app_global_put;
    byte "total_rebalances"; int 0; app_global_put;
    byte "last_rebalance_ts"; int 0; app_global_put;
    byte "deposited_algo"; int 0; app_global_put;
    byte "deposited_usdc"; int 0; app_global_put;
    byte "total_deposits"; int 0; app_global_put;
    byte "total_withdrawals"; int 0; app_global_put;
    byte "agent_address"; byte ""; app_global_put;
    byte "agent_authorized"; int 0; app_global_put;
    byte "total_decisions"; int 0; app_global_put;
    byte "last_decision_ts"; int 0; app_global_put;
    byte "last_decision_action"; int 0; app_global_put;
    int 1; return_;

    (* set_position *)
  label "route_set_position";
    txn Sender; global CreatorAddress; eq_; assert_;
    byte "entry_price"; txna ApplicationArgs 1; btoi; app_global_put;
    byte "lower_bound"; txna ApplicationArgs 2; btoi; app_global_put;
    byte "upper_bound"; txna ApplicationArgs 3; btoi; app_global_put;
    byte "capital_usdc"; txna ApplicationArgs 4; btoi; app_global_put;
    byte "open_timestamp"; global LatestTimestamp; app_global_put;
    int 1; return_;

    (* authorize_agent *)
  label "route_authorize_agent";
    txn Sender; global CreatorAddress; eq_; assert_;
    byte "agent_address"; txna ApplicationArgs 1; app_global_put;
    byte "agent_authorized"; int 1; app_global_put;
    int 1; return_;

    (* revoke_agent *)
  label "route_revoke_agent";
    txn Sender; global CreatorAddress; eq_; assert_;
    byte "agent_address"; byte ""; app_global_put;
    byte "agent_authorized"; int 0; app_global_put;
    int 1; return_;

    (* trigger_rebalance *)
  label "route_trigger_rebalance";
    txn Sender; global CreatorAddress; eq_; bnz "rebalance_authorized";
    byte "agent_authorized"; app_global_get; int 1; eq_; assert_;
    txn Sender; byte "agent_address"; app_global_get; eq_; assert_;
  label "rebalance_authorized";
    byte "lower_bound"; txna ApplicationArgs 1; btoi; app_global_put;
    byte "upper_bound"; txna ApplicationArgs 2; btoi; app_global_put;
    byte "total_rebalances"; byte "total_rebalances"; app_global_get;
    int 1; add_; app_global_put;
    byte "last_rebalance_ts"; global LatestTimestamp; app_global_put;
    byte "total_decisions"; byte "total_decisions"; app_global_get;
    int 1; add_; app_global_put;
    byte "last_decision_ts"; global LatestTimestamp; app_global_put;
    byte "last_decision_action"; int 1; app_global_put;
    int 1; return_;

    (* deposit *)
  label "route_deposit";
    byte "deposited_algo"; byte "deposited_algo"; app_global_get;
    txna ApplicationArgs 1; btoi; add_; app_global_put;
    byte "deposited_usdc"; byte "deposited_usdc"; app_global_get;
    txna ApplicationArgs 2; btoi; add_; app_global_put;
    byte "total_deposits"; byte "total_deposits"; app_global_get;
    int 1; add_; app_global_put;
    int 1; return_;

    (* withdraw *)
  label "route_withdraw";
    txn Sender; global CreatorAddress; eq_; assert_;
    byte "deposited_algo"; byte "deposited_algo"; app_global_get;
    txna ApplicationArgs 1; btoi; sub_; app_global_put;
    byte "deposited_usdc"; byte "deposited_usdc"; app_global_get;
    txna ApplicationArgs 2; btoi; sub_; app_global_put;
    byte "total_withdrawals"; byte "total_withdrawals"; app_global_get;
    int 1; add_; app_global_put;
    int 1; return_;

    (* log_decision *)
  label "route_log_decision";
    txn Sender; global CreatorAddress; eq_; bnz "log_authorized";
    byte "agent_authorized"; app_global_get; int 1; eq_; assert_;
    txn Sender; byte "agent_address"; app_global_get; eq_; assert_;
  label "log_authorized";
    byte "total_decisions"; byte "total_decisions"; app_global_get;
    int 1; add_; app_global_put;
    byte "last_decision_ts"; global LatestTimestamp; app_global_put;
    byte "last_decision_action"; txna ApplicationArgs 1; btoi;
    app_global_put;
    int 1; return_
  ].

(** [CLEAR_TEAL] *)
Definition CLEAR_TEAL : list Op := [ int 1 ].

(** [StateSchema(num_uints=16, num_byte_slices=2)] of the create
    transaction: a call that leaves more of either kind fails. *)
Definition within_schema (g : Globals) : bool :=
  (List.length (filter (fun kv => match snd kv with
                                  | Uint _ => true
                                  | Slice _ => false
                                  end) g) <=? 16)%nat
  && (List.length (filter (fun kv => match snd kv with
                                     | Uint _ => false
                                     | Slice _ => true
                                     end) g) <=? 2)%nat.

(** The approval program on one call: the global state it leaves, if it
    approves. *)
Definition approve (program : list Op) (tx : Txn) (g : Globals)
    : option Globals :=
  match exec program None tx [] g with
  | Some g' => if within_schema g' then Some g' else None
  | None => None
  end.

(** The application on the ledger. *)
Record Application := {
  approval_program : list Op;
  global_state : Globals
}.

Inductive Outcome :=
| Rejected
| Kept (app : Application)
| Deleted.

(** An application call to an existing application. *)
Definition app_call (tx : Txn) (app : Application) : Outcome :=
  match approve (approval_program app) tx (global_state app) with
  | None => Rejected
  | Some g =>
      match on_completion tx with
      | NoOp => Kept {| approval_program := approval_program app;
                        global_state := g |}
      | UpdateApplication program =>
          Kept {| approval_program := program; global_state := g |}
      | DeleteApplication => Deleted
      end
  end.

(** [ApplicationCreateTxn(..., approval_program=..., app_args=...)]: the
    program runs with [ApplicationID] 0 on an empty state. *)
Definition app_create (program : list Op) (deployer : Account)
    (timestamp : UInt64) (args : list Bytes) : option Application :=
  match approve program
          {| caller := {| sender := deployer; creator_address := deployer;
                          latest_timestamp := timestamp |};
             app_id := 0; app_args := args; on_completion := NoOp |} []
  with
  | Some g => Some {| approval_program := program; global_state := g |}
  | None => None
  end.

(** *** The state of [AegisPosition] under the TEAL program's keys *)

Definition key (name : string) : Bytes := list_byte_of_string name.

Definition entry (name : string) (v : Value) : Bytes * Value :=
  (key name, v).

Definition store (s : State) : Globals :=
  [ entry "entry_price" (Uint (entry_price s));
    entry "lower_bound" (Uint (lower_bound s));
    entry "upper_bound" (Uint (upper_bound s));
    entry "capital_usdc" (Uint (capital_usdc s));
    entry "open_timestamp" (Uint (open_timestamp s));
    entry "total_rebalances" (Uint (total_rebalances s));
    entry "last_rebalance_ts" (Uint (last_rebalance_timestamp s));
    entry "deposited_algo" (Uint (deposited_algo s));
    entry "deposited_usdc" (Uint (deposited_usdc s));
    entry "total_deposits" (Uint (total_deposits s));
    entry "total_withdrawals" (Uint (total_withdrawals s));
    entry "agent_address" (Slice (agent_address s));
    entry "agent_authorized" (Uint (agent_authorized s));
    entry "total_decisions" (Uint (total_decisions s));
    entry "last_decision_ts" (Uint (last_decision_timestamp s));
    entry "last_decision_action" (Uint (last_decision_action s)) ].

(** *** The program, method by method

    What the program does to a stored state once the application exists,
    told with the methods of [AegisPosition]: the first argument selects
    the method, the others are read with [btoi] where the method takes a
    [uint64], and a first argument that is none of the eight selectors is
    waved through. *)
Definition called (selector : Bytes) (signature : string) : bool :=
  bytes_eqb selector (method_selector signature).

Definition routed (tx : Txn) (s : State) : option State :=
  let ctx := caller tx in
  let uint (index : nat) : option UInt64 :=
    match nth_error (app_args tx) index with
    | Some arg => uint_of_bytes arg
    | None => None
    end in
  match app_args tx with
  | [] => None
  | selector :: _ =>
      if called selector "initialize()void" then Some initialize
      else if called selector "set_position(uint64,uint64,uint64,uint64)void"
      then
        entry <- uint 1%nat ;; lower <- uint 2%nat ;;
        upper <- uint 3%nat ;; capital <- uint 4%nat ;;
        set_position ctx entry lower upper capital s
      else if called selector "authorize_agent(account)void" then
        match nth_error (app_args tx) 1 with
        | Some agent =>
            if fits (key "agent_address") (Slice agent)
            then authorize_agent ctx agent s
            else None
        | None => None
        end
      else if called selector "revoke_agent()void" then revoke_agent ctx s
      else if called selector "trigger_rebalance(uint64,uint64)void" then
        new_lower <- uint 1%nat ;; new_upper <- uint 2%nat ;;
        trigger_rebalance ctx new_lower new_upper s
      else if called selector "deposit(uint64,uint64)void" then
        algo_amount <- uint 1%nat ;; usdc_amount <- uint 2%nat ;;
        deposit ctx algo_amount usdc_amount s
      else if called selector "withdraw(uint64,uint64)void" then
        algo_amount <- uint 1%nat ;; usdc_amount <- uint 2%nat ;;
        withdraw ctx algo_amount usdc_amount s
      else if called selector "log_decision(uint64)void" then
        action <- uint 1%nat ;; log_decision ctx action s
      else Some s
  end.

(** *** Calls as [main] builds them:
    [app_args=[SEL_..., encode_uint64(...), ...]] *)

Definition signature (c : VaultLedger.Call) : string :=
  match c with
  | VaultLedger.SetPosition _ _ _ _ =>
      "set_position(uint64,uint64,uint64,uint64)void"
  | VaultLedger.AuthorizeAgent _ => "authorize_agent(account)void"
  | VaultLedger.RevokeAgent => "revoke_agent()void"
  | VaultLedger.TriggerRebalance _ _ => "trigger_rebalance(uint64,uint64)void"
  | VaultLedger.Deposit _ _ => "deposit(uint64,uint64)void"
  | VaultLedger.Withdraw _ _ => "withdraw(uint64,uint64)void"
  | VaultLedger.LogDecision _ => "log_decision(uint64)void"
  end.

Fixpoint encode_all (numbers : list N) : option (list Bytes) :=
  match numbers with
  | [] => Some []
  | n :: rest =>
      match encode_uint64 n, encode_all rest with
      | Some bytes, Some others => Some (bytes :: others)
      | _, _ => None
      end
  end.

(** The arguments after the selector; the agent goes as its address, which
    is what the program stores and compares senders with. *)
Definition arguments (c : VaultLedger.Call) : option (list Bytes) :=
  match c with
  | VaultLedger.SetPosition entry lower upper capital =>
      encode_all [entry; lower; upper; capital]
  | VaultLedger.AuthorizeAgent agent => Some [agent]
  | VaultLedger.RevokeAgent => Some []
  | VaultLedger.TriggerRebalance new_lower new_upper =>
      encode_all [new_lower; new_upper]
  | VaultLedger.Deposit algo_amount usdc_amount =>
      encode_all [algo_amount; usdc_amount]
  | VaultLedger.Withdraw algo_amount usdc_amount =>
      encode_all [algo_amount; usdc_amount]
  | VaultLedger.LogDecision action => encode_all [action]
  end.

Definition no_op (ctx : Context) (id : N) (args : list Bytes) : Txn :=
  {| caller := ctx; app_id := id; app_args := args; on_completion := NoOp |}.

(** The eight signatures the program routes on. *)
Definition signatures : list string :=
  ([ "initialize()void";
    "set_position(uint64,uint64,uint64,uint64)void";
    "authorize_agent(account)void";
    "revoke_agent()void";
    "trigger_rebalance(uint64,uint64)void";
    "deposit(uint64,uint64)void";
    "withdraw(uint64,uint64)void";
    "log_decision(uint64)void" ])%string.

(** The global state after a sequence of calls, for as long as the program
    is [APPROVAL_TEAL]: a rejected call leaves the state alone. *)
Definition after_call (g : Globals) (tx : Txn) : Globals :=
  match approve APPROVAL_TEAL tx g with
  | Some g' => g'
  | None => g
  end.

Definition after_calls (txs : list Txn) (g : Globals) : Globals :=
  fold_left after_call txs g.

(** The ["global-state"] list algod returns for a state. *)
Definition algod_view (g : Globals) : list AgentIO.StateEntry :=
  map (fun kv =>
         {| AgentIO.entry_key := string_of_list_byte (fst kv);
            AgentIO.entry_type := match snd kv with
                                  | Slice _ => 1%Z
                                  | Uint _ => 2%Z
                                  end;
            AgentIO.entry_uint := match snd kv with
                                  | Uint n => Z.of_N n
                                  | Slice _ => 0%Z
                                  end;
            AgentIO.entry_bytes := match snd kv with
                                   | Slice bytes => bytes
                                   | Uint _ => []
                                   end |}) g.

End Teal.

(* ================================================================= *)
(** * The API server *)
(* ================================================================= *)

Module Backend.

Import Agent AgentIO.
Local Open Scope string_scope.

(** A value of the dict [read_global_state] builds: the decoded bytes of
    an entry of type 1, the [uint] of any other. *)
Inductive Stored :=
| Raw (bytes : AegisPosition.Bytes)
| Int (n : Z).

(** [read_global_state(app_id)]; [None] stands for a read that raised,
    which gives the empty dict. *)
Definition read_global_state (global_state : option (list StateEntry))
    : Dict Stored :=
  match global_state with
  | None => []
  | Some global_state =>
      fold_left
        (fun state kv =>
           dict_set (entry_key kv)
                    (if (entry_type kv =? 1)%Z then Raw (entry_bytes kv)
                     else Int (entry_uint kv))
                    state)
        global_state []
  end.

(** [state.get(key, 0)] where a number is expected; byte values are not
    numbers, and none of the deployed programs stores one under a key read
    this way. *)
Definition number (key : string) (state : Dict Stored) : option Z :=
  match dict_get key (Int 0) state with
  | Int n => Some n
  | Raw _ => None
  end.

Section Endpoints.

Context {num : Type} {ops : Num num}.
Local Open Scope num_scope.

Record PositionResponse := {
  entry_price : num;
  lower_bound : num;
  upper_bound : num;
  capital_usdc : num;
  open_timestamp : Z;
  total_rebalances : Z;
  last_rebalance_timestamp : Z;
  deposited_algo : num;
  deposited_usdc : num;
  total_deposits : Z;
  total_withdrawals : Z;
  agent_authorized : bool;
  total_decisions : Z;
  last_decision_timestamp : Z;
  last_decision_action : Z;
  app_id : Z
}.

Local Notation "x <- m ;; k" :=
  (match m with
   | Some x => k
   | None => None
   end) (at level 61, m at next level, right associativity).

(** [GET /api/position] *)
Definition get_position (APP_ID : Z)
    (global_state : option (list StateEntry)) : option PositionResponse :=
  let state := read_global_state global_state in
  match state with
  | [] =>
      Some {| entry_price := num_of_Z 0; lower_bound := num_of_Z 0;
              upper_bound := num_of_Z 0; capital_usdc := num_of_Z 0;
              open_timestamp := 0; total_rebalances := 0;
              last_rebalance_timestamp := 0;
              deposited_algo := num_of_Z 0; deposited_usdc := num_of_Z 0;
              total_deposits := 0; total_withdrawals := 0;
              agent_authorized := false;
              total_decisions := 0; last_decision_timestamp := 0;
              last_decision_action := 0; app_id := APP_ID |}
  | _ :: _ =>
      entry <- number "entry_price" state ;;
      lower <- number "lower_bound" state ;;
      upper <- number "upper_bound" state ;;
      capital <- number "capital_usdc" state ;;
      opened <- number "open_timestamp" state ;;
      rebalances <- number "total_rebalances" state ;;
      last_rebalance <- number "last_rebalance_timestamp" state ;;
      algo <- number "deposited_algo" state ;;
      usdc <- number "deposited_usdc" state ;;
      deposits <- number "total_deposits" state ;;
      withdrawals <- number "total_withdrawals" state ;;
      decisions <- number "total_decisions" state ;;
      last_decision <- number "last_decision_timestamp" state ;;
      last_action <- number "last_decision_action" state ;;
      Some {| entry_price := num_ratio entry 1000;
              lower_bound := num_ratio lower 1000;
              upper_bound := num_ratio upper 1000;
              capital_usdc := num_ratio capital 100;
              open_timestamp := opened;
              total_rebalances := rebalances;
              last_rebalance_timestamp := last_rebalance;
              deposited_algo := num_of_Z algo / lit 1e6;
              deposited_usdc := num_of_Z usdc / lit 1e6;
              total_deposits := deposits;
              total_withdrawals := withdrawals;
              agent_authorized :=
                match dict_get "agent_authorized" (Int 0) state with
                | Int 1 => true
                | _ => false
                end;
              total_decisions := decisions;
              last_decision_timestamp := last_decision;
              last_decision_action := last_action;
              app_id := APP_ID |}
  end.

(** A decision as the agent's log file and the [decisions] table hold it,
    with the keys the endpoint reads. *)
Record Row := {
  row_timestamp : Z;
  row_action : string;
  row_price : num;
  row_reason : string;
  row_tx_id : option string
}.

(** [DecisionEntry] *)
Record DecisionEntry := {
  timestamp : Z;
  action : string;
  price : option num;
  reason : string;
  result : string;
  tx_id : option string
}.

(** The dict both loops of [get_decision_log] append for a row [d]. *)
Definition of_row (d : Row) : DecisionEntry :=
  {| timestamp := row_timestamp d;
     action := row_action d;
     price := Some (row_price d);
     reason := row_reason d;
     result := if truthy (row_tx_id d) then "Executed" else "Evaluated";
     tx_id := row_tx_id d |}.

(** [any(c["timestamp"] == ts for c in combined)] *)
Definition seen (ts : Z) (combined : list DecisionEntry) : bool :=
  existsb (fun c => (timestamp c =? ts)%Z) combined.

(** The loop over the rows Supabase returns. *)
Definition add_rows (combined : list DecisionEntry) (rows : list Row)
    : list DecisionEntry :=
  fold_left
    (fun combined d =>
       if seen (row_timestamp d) combined then combined
       else (combined ++ [of_row d])%list)
    rows combined.

(** [action_map.get(last_action, "UNKNOWN")] *)
Definition action_map (last_action : Stored) : string :=
  match last_action with
  | Int 0 => "HOLD"
  | Int 1 => "REBALANCE"
  | Int 2 => "ALERT"
  | Int 3 => "SKIP"
  | _ => "UNKNOWN"
  end.

Definition on_chain_record (last_ts : Z) (last_action : Stored)
    : DecisionEntry :=
  {| timestamp := last_ts;
     action := action_map last_action;
     price := None;
     reason := "On-chain decision record";
     result := "Executed";
     tx_id := None |}.

(** [combined.sort(key=lambda e: e.get("timestamp", 0), reverse=True)]:
    newest first, entries of one timestamp in the order they had. *)
Fixpoint insert_desc (e : DecisionEntry) (sorted : list DecisionEntry)
    : list DecisionEntry :=
  match sorted with
  | [] => [e]
  | x :: rest =>
      if (timestamp x <? timestamp e)%Z then e :: x :: rest
      else x :: insert_desc e rest
  end.

Definition sort_desc (l : list DecisionEntry) : list DecisionEntry :=
  fold_left (fun sorted e => insert_desc e sorted) l [].

(** The list [get_decision_log] has built when it sorts: the agent's log,
    the Supabase rows with a timestamp not seen yet (if there is a client
    and the query succeeds), and the on-chain record.  [None]: comparing a
    byte value with 0 raises. *)
Definition combined_log (agent_decisions : list Row)
    (supabase : option (list Row))
    (global_state : option (list StateEntry))
    : option (list DecisionEntry) :=
  let combined := map of_row agent_decisions in
  let combined :=
    match supabase with
    | Some rows => add_rows combined rows
    | None => combined
    end in
  let state := read_global_state global_state in
  match state with
  | [] => Some combined
  | _ :: _ =>
      match dict_get "last_decision_timestamp" (Int 0) state with
      | Raw _ => None
      | Int last_ts =>
          let last_action := dict_get "last_decision_action" (Int 0) state in
          if (0 <? last_ts)%Z && negb (seen last_ts combined)
          then Some (combined ++ [on_chain_record last_ts last_action])%list
          else Some combined
      end
  end.

(** [GET /api/decision-log] *)
Definition get_decision_log (agent_decisions : list Row)
    (supabase : option (list Row))
    (global_state : option (list StateEntry))
    : option (list DecisionEntry) :=
  combined <- combined_log agent_decisions supabase global_state ;;
  Some (firstn 50 (sort_desc combined)).

End Endpoints.

Arguments PositionResponse num : clear implicits.
Arguments Row num : clear implicits.
Arguments DecisionEntry num : clear implicits.

End Backend.

(* ================================================================= *)
(** * The vault contract: properties *)
(* ================================================================= *)

Section Vault.

Import AegisPosition VaultSamples VaultSpec.
Local Open Scope N_scope.

Lemma bytes_eqb_eq (a b : Bytes) : bytes_eqb a b = true <-> a = b.
Proof.
  unfold bytes_eqb.
  destruct (list_eq_dec Byte.byte_eq_dec a b) as [E | E]; split; intro H;
    try reflexivity; try assumption; try discriminate.
  contradiction.
Qed.

Lemma bytes_eqb_neq (a b : Bytes) : bytes_eqb a b = false <-> a <> b.
Proof.
  unfold bytes_eqb.
  destruct (list_eq_dec Byte.byte_eq_dec a b) as [E | E]; split; intro H;
    try reflexivity; try assumption; try discriminate.
  contradiction.
Qed.

Lemma u64_add_some (a b : UInt64) :
  a + b <= UInt64_max -> u64_add a b = Some (a + b).
Proof.
  intro H. unfold u64_add.
  destruct (N.leb_spec (a + b) UInt64_max); [reflexivity | lia].
Qed.

Lemma u64_add_none (a b : UInt64) :
  UInt64_max < a + b -> u64_add a b = None.
Proof.
  intro H. unfold u64_add.
  destruct (N.leb_spec (a + b) UInt64_max); [lia | reflexivity].
Qed.

Lemma u64_add_inv (a b c : UInt64) :
  u64_add a b = Some c -> c = a + b /\ a + b <= UInt64_max.
Proof.
  unfold u64_add.
  destruct (N.leb_spec (a + b) UInt64_max) as [L | L]; intro H;
    inversion H; auto.
Qed.

Lemma u64_sub_some (a b : UInt64) : b <= a -> u64_sub a b = Some (a - b).
Proof.
  intro H. unfold u64_sub.
  destruct (N.leb_spec b a); [reflexivity | lia].
Qed.

Lemma creator_or_agent_iff (ctx : Context) (s : State) :
  creator_or_agent ctx s = true <-> creator_or_agent_caller ctx s.
Proof.
  unfold creator_or_agent, creator_or_agent_caller.
  rewrite orb_true_iff, bytes_eqb_eq.
  destruct (N.eqb_spec (agent_authorized s) 1) as [E | E].
  - rewrite bytes_eqb_eq. tauto.
  - split; intros [H | H]; auto; [discriminate | tauto].
Qed.

(** What [withdraw] does when its three assertions hold. *)
Lemma withdraw_passed (ctx : Context) (algo_amount usdc_amount : UInt64)
    (s : State) :
  sender ctx = creator_address ctx ->
  algo_amount <= deposited_algo s ->
  usdc_amount <= deposited_usdc s ->
  withdraw ctx algo_amount usdc_amount s =
  bind (u64_add (total_withdrawals s) 1) (fun withdrawals =>
    ret (set_vault (deposited_algo s - algo_amount)
                   (deposited_usdc s - usdc_amount)
                   (total_deposits s) withdrawals s)).
Proof.
  intros Hc Ha Hu. unfold withdraw.
  apply bytes_eqb_eq in Hc. rewrite Hc.
  apply N.leb_le in Ha, Hu. rewrite Ha, Hu. cbn.
  apply N.leb_le in Ha, Hu.
  rewrite (u64_sub_some _ _ Ha), (u64_sub_some _ _ Hu). reflexivity.
Qed.

(** What makes [withdraw] fail. *)
Lemma withdraw_rejected (ctx : Context) (algo_amount usdc_amount : UInt64)
    (s : State) :
  sender ctx <> creator_address ctx
  \/ deposited_algo s < algo_amount
  \/ deposited_usdc s < usdc_amount ->
  withdraw ctx algo_amount usdc_amount s = None.
Proof.
  unfold withdraw. intros [H | [H | H]].
  - apply bytes_eqb_neq in H. rewrite H. reflexivity.
  - destruct (bytes_eqb _ _); [| reflexivity]. cbn.
    apply N.leb_gt in H. rewrite H. reflexivity.
  - destruct (bytes_eqb _ _); [| reflexivity]. cbn.
    destruct (_ <=? deposited_algo s); [| reflexivity]. cbn.
    apply N.leb_gt in H. rewrite H. reflexivity.
Qed.

(** C1, as stated, fails: on a vault whose withdrawal counter holds the last
    uint64 the creator's [withdraw(0, 0)] meets the three conditions and is
    still rejected, because the counter's increment overflows. *)
Lemma withdraw_counter_overflow : ~ withdraw_succeeds_iff.
Proof.
  intro H.
  destruct (H as_creator 0 0 worn_out) as [_ back].
  apply back; [| vm_compute; reflexivity].
  repeat split; vm_compute; discriminate.
Qed.

(** C1 (amended): [withdraw(algo_amount, usdc_amount)] succeeds if and only
    if the sender is the creator, [algo_amount <= deposited_algo],
    [usdc_amount <= deposited_usdc] and the withdrawal counter is below the
    largest uint64.  A sender other than the creator, the authorised agent
    among them, always fails; a failing call leaves the state, and so the
    vault fields, as they were; a successful one subtracts the amounts and
    counts one withdrawal. *)
Theorem withdraw_only_creator (ctx : Context)
    (algo_amount usdc_amount : UInt64) (s : State) :
  (succeeds (withdraw ctx algo_amount usdc_amount s) <->
   sender ctx = creator_address ctx
   /\ algo_amount <= deposited_algo s
   /\ usdc_amount <= deposited_usdc s
   /\ total_withdrawals s < UInt64_max)
  /\ (agent_authorized s = 1 -> sender ctx = agent_address s ->
      sender ctx <> creator_address ctx ->
      withdraw ctx algo_amount usdc_amount s = None)
  /\ (withdraw ctx algo_amount usdc_amount s = None ->
      call (withdraw ctx algo_amount usdc_amount) s = s
      /\ vault_state (call (withdraw ctx algo_amount usdc_amount) s)
         = vault_state s)
  /\ (forall s', withdraw ctx algo_amount usdc_amount s = Some s' ->
      call (withdraw ctx algo_amount usdc_amount) s = s'
      /\ vault_state s' = (deposited_algo s - algo_amount,
                           deposited_usdc s - usdc_amount,
                           total_withdrawals s + 1)).
Proof.
  split; [| split; [| split]].
  - unfold succeeds. split.
    + intro Hs.
      destruct (list_eq_dec Byte.byte_eq_dec (sender ctx) (creator_address ctx))
        as [Hc | Hc];
        [| exfalso; apply Hs, withdraw_rejected; auto].
      destruct (N.le_gt_cases algo_amount (deposited_algo s)) as [Ha | Ha];
        [| exfalso; apply Hs, withdraw_rejected; auto].
      destruct (N.le_gt_cases usdc_amount (deposited_usdc s)) as [Hu | Hu];
        [| exfalso; apply Hs, withdraw_rejected; auto].
      repeat split; try assumption.
      rewrite (withdraw_passed ctx _ _ s Hc Ha Hu) in Hs.
      destruct (N.lt_ge_cases (total_withdrawals s) UInt64_max) as [Hw | Hw];
        [assumption |].
      exfalso. apply Hs. rewrite u64_add_none; [reflexivity | lia].
    + intros (Hc & Ha & Hu & Hw).
      rewrite (withdraw_passed ctx _ _ s Hc Ha Hu), u64_add_some by lia.
      discriminate.
  - intros _ _ Hc. apply withdraw_rejected. auto.
  - intro Hn. unfold call. rewrite Hn. split; reflexivity.
  - intros s' Hs. unfold call. rewrite Hs. split; [reflexivity |].
    destruct (list_eq_dec Byte.byte_eq_dec (sender ctx) (creator_address ctx))
      as [Hc | Hc];
      [| rewrite withdraw_rejected in Hs by auto; discriminate].
    destruct (N.le_gt_cases algo_amount (deposited_algo s)) as [Ha | Ha];
      [| rewrite withdraw_rejected in Hs by auto; discriminate].
    destruct (N.le_gt_cases usdc_amount (deposited_usdc s)) as [Hu | Hu];
      [| rewrite withdraw_rejected in Hs by auto; discriminate].
    rewrite (withdraw_passed ctx _ _ s Hc Ha Hu) in Hs.
    destruct (u64_add (total_withdrawals s) 1) as [w |] eqn:Hw;
      [| discriminate].
    apply u64_add_inv in Hw. destruct Hw as [-> _].
    cbn in Hs. inversion Hs. reflexivity.
Qed.

(** The creator takes part of the deposit out; the agent cannot. *)
Lemma withdraw_only_creator_witness :
  succeeds (withdraw as_creator 1000000 500000 funded)
  /\ withdraw as_agent 1000000 500000 funded = None
  /\ vault_state (call (withdraw as_agent 1000000 500000) funded)
     = (5000000, 2000000, 0).
Proof.
  destruct (withdraw_only_creator as_creator 1000000 500000 funded)
    as (Hiff & _).
  destruct (withdraw_only_creator as_agent 1000000 500000 funded)
    as (_ & Hagent & Hfail & _).
  assert (Hn : withdraw as_agent 1000000 500000 funded = None).
  { apply Hagent; vm_compute; [reflexivity | reflexivity | discriminate]. }
  split; [| split].
  - apply Hiff. repeat split; vm_compute; (reflexivity || discriminate).
  - exact Hn.
  - destruct (Hfail Hn) as [_ Hv]. rewrite Hv. reflexivity.
Defined.

(** C9, as stated, fails: with the rebalance counter at the last uint64 the
    creator's (and the agent's) [trigger_rebalance] is rejected, because
    the counter's increment overflows. *)
Lemma trigger_rebalance_counter_overflow :
  ~ trigger_rebalance_always_succeeds.
Proof.
  intro H.
  destruct (H as_creator 150 240 worn_out) as (s' & Hs & _).
  - left. reflexivity.
  - vm_compute in Hs. discriminate.
Qed.

(** C9 (amended): for the creator and for the authorised agent, and for
    every pair of arguments (also [new_lower >= new_upper], also zero),
    [trigger_rebalance] succeeds whenever [total_rebalances] and
    [total_decisions] are below the largest uint64: it stores
    [lower_bound = new_lower] and [upper_bound = new_upper] without looking
    at their order or sign, adds exactly 1 to both counters and sets
    [last_decision_action] to 1.  The contract does not enforce
    [lower_bound < upper_bound]. *)
Theorem trigger_rebalance_stores_any_bounds (ctx : Context)
    (new_lower new_upper : UInt64) (s : State) :
  creator_or_agent_caller ctx s ->
  total_rebalances s < UInt64_max ->
  total_decisions s < UInt64_max ->
  exists s',
    trigger_rebalance ctx new_lower new_upper s = Some s'
    /\ call (trigger_rebalance ctx new_lower new_upper) s = s'
    /\ rebalanced new_lower new_upper s s'.
Proof.
  intros Hauth Hr Hd.
  apply creator_or_agent_iff in Hauth.
  unfold call, trigger_rebalance. rewrite Hauth. cbn.
  rewrite !u64_add_some by lia. cbn.
  eexists. split; [reflexivity |]. split; [reflexivity |].
  unfold rebalanced. cbn. repeat split.
Qed.

(** The agent stores an inverted range with a zero upper bound. *)
Lemma trigger_rebalance_stores_any_bounds_witness :
  exists s',
    trigger_rebalance as_agent 300 0 funded = Some s'
    /\ lower_bound s' = 300 /\ upper_bound s' = 0
    /\ ~ lower_bound s' < upper_bound s'.
Proof.
  destruct (trigger_rebalance_stores_any_bounds as_agent 300 0 funded)
    as (s' & Hs & _ & Hl & Hu & _).
  - right. split; reflexivity.
  - vm_compute. reflexivity.
  - vm_compute. reflexivity.
  - exists s'. rewrite Hl, Hu. repeat split; try assumption. lia.
Defined.

(** C10, as stated, fails: once a deposit has recorded the largest uint64,
    the next [deposit(1, 0)] is rejected, whoever sends it, because the sum
    overflows. *)
Lemma deposit_sum_overflow : ~ deposit_always_succeeds.
Proof.
  intro H.
  destruct (H as_creator 1 0 saturated) as (s' & Hs & _).
  vm_compute in Hs. discriminate.
Qed.

(** C10 (amended): [deposit(algo_amount, usdc_amount)] performs no
    authorisation check: its result does not depend on the sender, and for
    every sender, also one that is neither the creator nor the agent, it
    succeeds exactly when the two sums and the deposit counter stay within
    uint64; it then adds the amounts to [deposited_algo] and
    [deposited_usdc] and adds exactly 1 to [total_deposits]. *)
Theorem deposit_open_to_all (ctx : Context)
    (algo_amount usdc_amount : UInt64) (s : State) :
  (forall ctx', deposit ctx' algo_amount usdc_amount s
                = deposit ctx algo_amount usdc_amount s)
  /\ (succeeds (deposit ctx algo_amount usdc_amount s) <->
      deposited_algo s + algo_amount <= UInt64_max
      /\ deposited_usdc s + usdc_amount <= UInt64_max
      /\ total_deposits s < UInt64_max)
  /\ (forall s', deposit ctx algo_amount usdc_amount s = Some s' ->
      call (deposit ctx algo_amount usdc_amount) s = s'
      /\ deposited algo_amount usdc_amount s s').
Proof.
  split; [reflexivity |]. split.
  - unfold succeeds, deposit. split.
    + intro Hs.
      destruct (u64_add (deposited_algo s) algo_amount) as [a |] eqn:Ha;
        [| exfalso; apply Hs; reflexivity].
      destruct (u64_add (deposited_usdc s) usdc_amount) as [u |] eqn:Hu;
        [| exfalso; apply Hs; reflexivity].
      destruct (u64_add (total_deposits s) 1) as [d |] eqn:Hd;
        [| exfalso; apply Hs; reflexivity].
      apply u64_add_inv in Ha, Hu, Hd. lia.
    + intros (Ha & Hu & Hd).
      rewrite !u64_add_some by lia. discriminate.
  - intros s' Hs. unfold call. rewrite Hs. split; [reflexivity |].
    unfold deposit in Hs.
    destruct (u64_add (deposited_algo s) algo_amount) as [a |] eqn:Ha;
      [| discriminate].
    destruct (u64_add (deposited_usdc s) usdc_amount) as [u |] eqn:Hu;
      [| discriminate].
    destruct (u64_add (total_deposits s) 1) as [d |] eqn:Hd;
      [| discriminate].
    apply u64_add_inv in Ha, Hu, Hd.
    destruct Ha as [-> _], Hu as [-> _], Hd as [-> _].
    cbn in Hs. inversion Hs. unfold deposited. cbn. repeat split.
Qed.

(** A stranger's deposit into the funded vault is recorded. *)
Lemma deposit_open_to_all_witness :
  succeeds (deposit as_stranger 7 9 funded)
  /\ vault_state (call (deposit as_stranger 7 9) funded)
     = (5000007, 2000009, 0)
  /\ total_deposits (call (deposit as_stranger 7 9) funded) = 2.
Proof.
  destruct (deposit_open_to_all as_stranger 7 9 funded) as (_ & Hiff & _).
  split; [| split; reflexivity].
  apply Hiff. repeat split; vm_compute; (reflexivity || discriminate).
Defined.

End Vault.

(* ================================================================= *)
(** * Binary64: the two products of [evaluate] *)
(* ================================================================= *)

Section Binary64Facts.

Import Agent Binary64.
Local Open Scope Z_scope.

Lemma fexp_binary64 (k : Z) : fexp prec emax k = Z.max (k - 53) (-1074).
Proof. reflexivity. Qed.

Lemma digits2_bounds (p : positive) :
  2 ^ (Zpos (digits2_pos p) - 1) <= Zpos p < 2 ^ Zpos (digits2_pos p).
Proof.
  induction p as [p IH | p IH |]; cbn [digits2_pos];
    [rewrite Pos2Z.inj_succ; change (Zpos p~1) with (2 * Zpos p + 1)
    | rewrite Pos2Z.inj_succ; change (Zpos p~0) with (2 * Zpos p)
    | cbn; lia].
  all: set (d := Zpos (digits2_pos p)) in *;
    assert (Hd : 1 <= d) by (subst d; lia);
    replace (Z.succ d - 1) with (Z.succ (d - 1)) by lia;
    rewrite !Z.pow_succ_r by lia;
    replace (2 ^ d) with (2 * 2 ^ (d - 1)) in *
      by (rewrite <- Z.pow_succ_r by lia; f_equal; lia);
    lia.
Qed.

Lemma digits2_unique (p : positive) (d : Z) :
  2 ^ (d - 1) <= Zpos p < 2 ^ d -> Zpos (digits2_pos p) = d.
Proof.
  intros [Hlo Hhi]. pose proof (digits2_bounds p) as [Hlo' Hhi'].
  set (d' := Zpos (digits2_pos p)) in *.
  assert (Hd' : 1 <= d') by (subst d'; lia).
  assert (Hd : 1 <= d).
  { destruct (Z_lt_le_dec d 1) as [H | H]; [| exact H].
    exfalso. assert (2 ^ d <= 1).
    { destruct (Z.eq_dec d 0) as [-> | N]; [cbn; lia |].
      rewrite Z.pow_neg_r by lia. lia. }
    lia. }
  destruct (Z.lt_trichotomy d' d) as [H | [H | H]]; [| exact H |]; exfalso.
  - assert (2 ^ d' <= 2 ^ (d - 1)) by (apply Z.pow_le_mono_r; lia). lia.
  - assert (2 ^ d <= 2 ^ (d' - 1)) by (apply Z.pow_le_mono_r; lia). lia.
Qed.

Lemma digits2_le (p : positive) (d : Z) :
  Zpos p < 2 ^ d -> Zpos (digits2_pos p) <= d.
Proof.
  intro Hhi. pose proof (digits2_bounds p) as [Hlo' _].
  set (d' := Zpos (digits2_pos p)) in *.
  destruct (Z_le_gt_dec d' d) as [H | H]; [exact H |]. exfalso.
  assert (0 <= d).
  { destruct (Z_lt_le_dec d 0) as [N | N]; [| exact N].
    rewrite Z.pow_neg_r in Hhi by lia. lia. }
  assert (2 ^ d <= 2 ^ (d' - 1)) by (apply Z.pow_le_mono_r; lia). lia.
Qed.

Lemma shr_1_m (mrs : shr_record) :
  0 <= shr_m mrs -> shr_m (shr_1 mrs) = shr_m mrs / 2.
Proof.
  destruct mrs as [m r s]. cbn [shr_m]. intro Hm.
  destruct m as [| p | p]; [reflexivity | | lia].
  destruct p as [p | p |]; cbn [shr_1 shr_m].
  - change (Zpos p~1) with (2 * Zpos p + 1).
    apply Z.div_unique with 1; lia.
  - change (Zpos p~0) with (2 * Zpos p).
    apply Z.div_unique with 0; lia.
  - reflexivity.
Qed.

Lemma iter_pos_shr_m (n : positive) (mrs : shr_record) :
  0 <= shr_m mrs ->
  shr_m (iter_pos shr_1 n mrs) = shr_m mrs / 2 ^ Zpos n.
Proof.
  revert mrs. induction n as [n IH | n IH |]; intros mrs Hm; cbn [iter_pos].
  - assert (H1 : 0 <= shr_m (shr_1 mrs)).
    { rewrite shr_1_m by exact Hm. apply Z.div_pos; lia. }
    assert (H2 : 0 <= shr_m (iter_pos shr_1 n (shr_1 mrs))).
    { rewrite IH by exact H1. apply Z.div_pos; [exact H1 | lia]. }
    rewrite IH by exact H2. rewrite IH by exact H1.
    rewrite shr_1_m by exact Hm.
    rewrite !Z.div_div by lia. f_equal.
    change (Zpos n~1) with (2 * Zpos n + 1).
    replace (2 * Zpos n + 1) with (1 + Zpos n + Zpos n) by lia.
    rewrite !Z.pow_add_r by lia. change (2 ^ 1) with 2. ring.
  - assert (H2 : 0 <= shr_m (iter_pos shr_1 n mrs)).
    { rewrite IH by exact Hm. apply Z.div_pos; [exact Hm | lia]. }
    rewrite IH by exact H2. rewrite IH by exact Hm.
    rewrite !Z.div_div by lia. f_equal.
    change (Zpos n~0) with (2 * Zpos n).
    replace (2 * Zpos n) with (Zpos n + Zpos n) by lia.
    rewrite !Z.pow_add_r by lia. ring.
  - rewrite shr_1_m by exact Hm. reflexivity.
Qed.

Lemma round_nearest_even_bounds (q : Z) (l : location) :
  q <= round_nearest_even q l <= q + 1.
Proof.
  destruct l as [| []]; cbn; try lia. destruct (Z.even q); lia.
Qed.

(** What rounding makes of the integer [P] scaled by [2 ^ ex] when its
    [n] lowest bits have to go: the quotient or the next integer, at the
    exponent [E] that the format gives a number of this size, or one up when
    the quotient rounds to a power of two. *)
Lemma binary_round_shifted (P : positive) (ex E : Z) (n : positive) :
  fexp prec emax (Zdigits2 (Zpos P) + ex) = E ->
  E - ex = Zpos n ->
  Zpos P < 2 ^ (53 + Zpos n) ->
  exists q : Z,
    Zpos P / 2 ^ Zpos n <= q <= Zpos P / 2 ^ Zpos n + 1
    /\ binary_round_aux prec emax false (Zpos P) ex loc_Exact = rounded q E.
Proof.
  intros HE Hn HP. unfold rounded.
  assert (HEmin : -1074 <= E) by (rewrite fexp_binary64 in HE; lia).
  unfold binary_round_aux, shr_fexp at 1. rewrite HE, Hn.
  cbn [shr shr_record_of_loc].
  set (mrs := iter_pos shr_1 n _).
  assert (Hm : shr_m mrs = Zpos P / 2 ^ Zpos n).
  { subst mrs. rewrite iter_pos_shr_m; cbn [shr_m]; [reflexivity | lia]. }
  pose proof (round_nearest_even_bounds (shr_m mrs) (loc_of_shr_record mrs))
    as Hq.
  set (q := round_nearest_even (shr_m mrs) (loc_of_shr_record mrs)) in *.
  rewrite Hm in Hq. exists q. split; [exact Hq |].
  assert (Hlt : Zpos P / 2 ^ Zpos n < 2 ^ 53).
  { apply Z.div_lt_upper_bound; [lia |].
    rewrite <- Z.pow_add_r by lia. rewrite Z.add_comm. exact HP. }
  assert (Hnn : 0 <= Zpos P / 2 ^ Zpos n) by (apply Z.div_pos; lia).
  replace (ex + Zpos n) with E by lia.
  unfold shr_fexp. rewrite fexp_binary64.
  destruct (Z.eqb_spec q 0) as [Hz | Hz].
  { rewrite Hz. cbn [Zdigits2 shr_record_of_loc].
    destruct (Z.max (0 + E - 53) (-1074) - E) eqn:Hs; cbn [shr shr_m];
      try reflexivity; lia. }
  destruct (Z.ltb_spec q (2 ^ 53)) as [Hs | Hs].
  - destruct q as [| p | p]; [lia | | lia].
    cbn [Zdigits2 shr_record_of_loc Z.to_pos].
    pose proof (digits2_le p 53 Hs) as Hd.
    destruct (Z.max (Zpos (digits2_pos p) + E - 53) (-1074) - E) eqn:Hsh;
      cbn [shr shr_m fst snd]; try reflexivity; lia.
  - assert (Hq53 : q = 2 ^ 53) by lia.
    rewrite Hq53. cbn [Z.pow Z.pow_pos Pos.iter Z.mul Pos.mul Zdigits2
                        digits2_pos Pos.succ shr_record_of_loc].
    replace (Z.max (54 + E - 53) (-1074) - E) with 1 by lia.
    cbn. reflexivity.
Qed.

Lemma fexp_of_bounds (P : positive) (ex d : Z) :
  2 ^ (d - 1) <= Zpos P < 2 ^ d ->
  fexp prec emax (Zdigits2 (Zpos P) + ex) = Z.max (d + ex - 53) (-1074).
Proof.
  intro H. cbn [Zdigits2]. rewrite (digits2_unique P d H).
  apply fexp_binary64.
Qed.

Lemma fexp_of_small (P : positive) (ex d : Z) :
  Zpos P < 2 ^ d -> d + ex - 53 <= -1074 ->
  fexp prec emax (Zdigits2 (Zpos P) + ex) = -1074.
Proof.
  intros H Hd. cbn [Zdigits2]. pose proof (digits2_le P d H).
  rewrite fexp_binary64. lia.
Qed.

Lemma SFltb_finite (m1 m2 : positive) (e1 e2 : Z) :
  e1 < e2 \/ (e1 = e2 /\ Zpos m1 < Zpos m2) ->
  SFltb (S754_finite false m1 e1) (S754_finite false m2 e2) = true.
Proof.
  intros [H | [-> H]]; unfold SFltb, SFcompare.
  - apply Z.compare_lt_iff in H. rewrite H. reflexivity.
  - rewrite Z.compare_refl.
    assert (C : Pos.compare_cont Eq m1 m2 = Lt)
      by (apply Pos.compare_lt_iff; lia).
    rewrite C. reflexivity.
Qed.

(** The doubles that this is about: finite, and at least three times the
    smallest positive one. *)
Lemma price_as_binary (price : float) :
  (0x3p-1074 <=? price)%float = true ->
  (price <? infinity)%float = true ->
  exists (m : positive) (e : Z),
    Prim2SF price = S754_finite false m e
    /\ e <= 971
    /\ ((-1073 <= e /\ 2 ^ 52 <= Zpos m < 2 ^ 53)
        \/ (e = -1074 /\ 3 <= Zpos m < 2 ^ 53)).
Proof.
  intros Hlo Hhi. rewrite leb_spec in Hlo. rewrite ltb_spec in Hhi.
  pose proof (Prim2SF_valid price) as Hv.
  replace (Prim2SF 0x3p-1074) with (S754_finite false 3 (-1074)) in Hlo
    by (vm_compute; reflexivity).
  replace (Prim2SF infinity) with (S754_infinity false) in Hhi
    by (vm_compute; reflexivity).
  destruct (Prim2SF price) as [s | s | | s m e];
    [destruct s; discriminate Hlo
    | destruct s; [discriminate Hlo | discriminate Hhi]
    | discriminate Hlo
    | destruct s; [discriminate Hlo |]].
  exists m, e. split; [reflexivity |].
  cbn [valid_binary] in Hv. unfold bounded, canonical_mantissa in Hv.
  apply andb_true_iff in Hv as [Hc He].
  apply Z.eqb_eq in Hc. apply Z.leb_le in He.
  rewrite fexp_binary64 in Hc. change (emax - prec) with 971 in He.
  pose proof (digits2_bounds m) as Hd.
  split; [exact He |].
  unfold SFleb, SFcompare in Hlo.
  destruct (Z.compare_spec (-1074) e) as [E | L | G];
    [| | discriminate Hlo].
  - right. split; [lia |]. subst e.
    assert (3 <= Zpos m).
    { destruct (Pos.compare_cont Eq 3 m) eqn:C; try discriminate Hlo;
        change (Pos.compare_cont Eq 3 m) with (Pos.compare 3 m) in C.
      - apply Pos.compare_eq in C. lia.
      - change (3 < m)%positive in C. lia. }
    split; [assumption |].
    assert (Zpos (digits2_pos m) <= 53) by lia.
    assert (2 ^ Zpos (digits2_pos m) <= 2 ^ 53)
      by (apply Z.pow_le_mono_r; lia).
    lia.
  - left. split; [lia |].
    assert (Hdm : Zpos (digits2_pos m) = 53) by lia.
    rewrite Hdm in Hd. exact Hd.
Qed.

Lemma rounded_positive (q E : Z) :
  0 < q <= 2 ^ 53 -> SFltb (S754_zero false) (rounded q E) = true.
Proof.
  intro Hq. unfold rounded.
  destruct (Z.eqb_spec q 0); [lia |].
  destruct (q <? 2 ^ 53); [destruct (E <=? 971) | destruct (E + 1 <=? 971)];
    reflexivity.
Qed.

(** Two such doubles compare as the numbers they stand for; the first must
    not be infinite. *)
Lemma rounded_lt (q1 E1 q2 E2 : Z) :
  0 < q1 <= 2 ^ 53 -> 0 < q2 <= 2 ^ 53 ->
  E1 + (if q1 <? 2 ^ 53 then 0 else 1) <= 971 ->
  E1 <= E2 ->
  q1 < q2 * 2 ^ (E2 - E1) ->
  SFltb (rounded q1 E1) (rounded q2 E2) = true.
Proof.
  intros H1 H2 Hfin HE Hord. unfold rounded.
  assert (Hk : E1 = E2 -> q1 < q2).
  { intro E. replace (E2 - E1) with 0 in Hord by lia. cbn in Hord. lia. }
  assert (Hk1 : E1 + 1 = E2 -> q1 < q2 * 2).
  { intro E. replace (E2 - E1) with 1 in Hord by lia. exact Hord. }
  destruct (Z.eqb_spec q1 0); [lia |]. destruct (Z.eqb_spec q2 0); [lia |].
  destruct (Z.ltb_spec q1 (2 ^ 53)) as [L1 | L1];
    destruct (Z.ltb_spec q2 (2 ^ 53)) as [L2 | L2].
  - destruct (Z.leb_spec E1 971); [| lia].
    destruct (Z.leb_spec E2 971); [| reflexivity].
    apply SFltb_finite. rewrite !Z2Pos.id by lia. lia.
  - destruct (Z.leb_spec E1 971); [| lia].
    destruct (Z.leb_spec (E2 + 1) 971); [| reflexivity].
    apply SFltb_finite. lia.
  - destruct (Z.leb_spec (E1 + 1) 971); [| lia].
    destruct (Z.leb_spec E2 971); [| reflexivity].
    apply SFltb_finite. rewrite !Z2Pos.id by lia.
    change (Zpos 4503599627370496) with (2 ^ 52).
    assert (q1 = 2 ^ 53) by lia.
    change (2 ^ 53) with (2 * 2 ^ 52) in *. lia.
  - destruct (Z.leb_spec (E1 + 1) 971); [| lia].
    destruct (Z.leb_spec (E2 + 1) 971); [| reflexivity].
    apply SFltb_finite. assert (q1 = 2 ^ 53) by lia. lia.
Qed.

Lemma factor_082 :
  Prim2SF (lit (num := float) 0.82%Q)
  = S754_finite false 7385903388887613 (-53).
Proof. vm_compute. reflexivity. Qed.

Lemma factor_122 :
  Prim2SF (lit (num := float) 1.22%Q)
  = S754_finite false 5494391545392005 (-52).
Proof. vm_compute. reflexivity. Qed.

(** The product of a double [m * 2 ^ e] with a 53-bit factor
    [c * 2 ^ ec], when [n] bits have to go. *)
Lemma product_rounded (m c : positive) (e ec E : Z) (n : positive) :
  fexp prec emax (Zdigits2 (Zpos (m * c)) + (e + ec)) = E ->
  E - (e + ec) = Zpos n ->
  Zpos m * Zpos c < 2 ^ (53 + Zpos n) ->
  exists q : Z,
    Zpos m * Zpos c / 2 ^ Zpos n <= q <= Zpos m * Zpos c / 2 ^ Zpos n + 1
    /\ SFmul prec emax (S754_finite false m e) (S754_finite false c ec)
       = rounded q E.
Proof.
  intros HE Hn HP. unfold SFmul. cbn [xorb].
  rewrite <- Pos2Z.inj_mul in *.
  apply binary_round_shifted; assumption.
Qed.

Ltac powers :=
  change (2 ^ 52) with 4503599627370496 in *;
  change (2 ^ 53) with 9007199254740992 in *;
  change (2 ^ (53 + 52)) with 40564819207303340847894502572032 in *;
  change (2 ^ (53 + 53)) with 81129638414606681695789005144064 in *;
  change (2 ^ (105 - 1)) with 20282409603651670423947251286016 in *;
  change (2 ^ (106 - 1)) with 40564819207303340847894502572032 in *;
  change (2 ^ 105) with 40564819207303340847894502572032 in *;
  change (2 ^ 106) with 81129638414606681695789005144064 in *.

(** In binary64 the two new bounds of a finite price of at least three
    times the smallest positive double ([0x3p-1074], about 1.5e-323) are
    positive and apart. *)
Lemma new_bounds_binary64 (price : float) :
  (0x3p-1074 <=? price)%float = true ->
  (price <? infinity)%float = true ->
  (num_of_Z 0 <? price * lit 0.82%Q)%num = true
  /\ (price * lit 0.82%Q <? price * lit 1.22%Q)%num = true.
Proof.
  intros Hlo Hhi.
  destruct (price_as_binary price Hlo Hhi) as (m & e & Ex & He & Hcase).
  destruct Hcase as [[Hen Hm] | [-> Hm]].
  - (* a normal price *)
    cbn [num_ltb num_mul num_of_Z F64 F64_with].
    rewrite !ltb_spec, !mul_spec, Ex, factor_082, factor_122.
    replace (Prim2SF (Z_to_float 0)) with (S754_zero false)
      by (vm_compute; reflexivity).
    unfold SF64mul. powers.
    assert (exists q1 E1,
              (0 < q1 <= 9007199254740992)
              /\ E1 + (if q1 <? 2 ^ 53 then 0 else 1) <= 971
              /\ ((E1 = e - 1
                   /\ Zpos m * 7385903388887613 / 4503599627370496 <= q1
                      <= Zpos m * 7385903388887613 / 4503599627370496 + 1)
                  \/ (E1 = e
                      /\ Zpos m * 7385903388887613 / 9007199254740992 <= q1
                         <= Zpos m * 7385903388887613 / 9007199254740992 + 1))
              /\ SFmul prec emax (S754_finite false m e)
                   (S754_finite false 7385903388887613 (-53))
                 = rounded q1 E1) as (q1 & E1 & Hq1 & Hf1 & Hc1 & R1).
    { destruct (Z_lt_le_dec (Zpos m * 7385903388887613)
                  40564819207303340847894502572032) as [L | L].
      - destruct (product_rounded m 7385903388887613 e (-53) (e - 1) 52)
          as (q & Hq & R).
        + rewrite (fexp_of_bounds _ _ 105); [lia |].
          rewrite Pos2Z.inj_mul. powers. lia.
        + lia.
        + powers. exact L.
        + powers. exists q, (e - 1). split; [| split; [| split]].
          * Z.to_euclidean_division_equations. lia.
          * destruct (q <? _); lia.
          * left. split; [reflexivity | exact Hq].
          * exact R.
      - destruct (product_rounded m 7385903388887613 e (-53) e 53)
          as (q & Hq & R).
        + rewrite (fexp_of_bounds _ _ 106); [lia |].
          rewrite Pos2Z.inj_mul. powers. lia.
        + lia.
        + powers. lia.
        + powers. exists q, e.
          assert (Hlt : q < 9007199254740992)
            by (Z.to_euclidean_division_equations; lia).
          split; [| split; [| split]].
          * Z.to_euclidean_division_equations. lia.
          * apply Z.ltb_lt in Hlt. rewrite Hlt. lia.
          * right. split; [reflexivity | exact Hq].
          * exact R. }
    assert (exists q2 E2,
              (0 < q2 <= 9007199254740992)
              /\ ((E2 = e
                   /\ Zpos m * 5494391545392005 / 4503599627370496 <= q2)
                  \/ (E2 = e + 1
                      /\ Zpos m * 5494391545392005 / 9007199254740992 <= q2))
              /\ SFmul prec emax (S754_finite false m e)
                   (S754_finite false 5494391545392005 (-52))
                 = rounded q2 E2) as (q2 & E2 & Hq2 & Hc2 & R2).
    { destruct (Z_lt_le_dec (Zpos m * 5494391545392005)
                  40564819207303340847894502572032) as [L | L].
      - destruct (product_rounded m 5494391545392005 e (-52) e 52)
          as (q & Hq & R).
        + rewrite (fexp_of_bounds _ _ 105); [lia |].
          rewrite Pos2Z.inj_mul. powers. lia.
        + lia.
        + powers. exact L.
        + powers. exists q, e. split; [| split].
          * Z.to_euclidean_division_equations. lia.
          * left. split; [reflexivity | apply Hq].
          * exact R.
      - destruct (product_rounded m 5494391545392005 e (-52) (e + 1) 53)
          as (q & Hq & R).
        + rewrite (fexp_of_bounds _ _ 106); [lia |].
          rewrite Pos2Z.inj_mul. powers. lia.
        + lia.
        + powers. lia.
        + powers. exists q, (e + 1). split; [| split].
          * Z.to_euclidean_division_equations. lia.
          * right. split; [reflexivity | apply Hq].
          * exact R. }
    rewrite R1, R2. split.
    + apply rounded_positive. exact Hq1.
    + apply rounded_lt; try assumption.
      * destruct Hc1 as [[-> _] | [-> _]], Hc2 as [[-> _] | [-> _]]; lia.
      * destruct Hc1 as [[-> B1] | [-> B1]],
                 Hc2 as [[-> B2] | [-> B2]].
        -- replace (e - (e - 1)) with 1 by lia. change (2 ^ 1) with 2.
           Z.to_euclidean_division_equations. lia.
        -- replace (e + 1 - (e - 1)) with 2 by lia. change (2 ^ 2) with 4.
           Z.to_euclidean_division_equations. lia.
        -- replace (e - e) with 0 by lia. change (2 ^ 0) with 1.
           Z.to_euclidean_division_equations. lia.
        -- replace (e + 1 - e) with 1 by lia. change (2 ^ 1) with 2.
           Z.to_euclidean_division_equations. lia.
  - (* a price in the lowest binade or below it *)
    destruct (Z_lt_le_dec (Zpos m) 6) as [Hsmall | Hbig].
    { assert (Hp : price = SF2Prim (S754_finite false m (-1074)))
        by (rewrite <- Ex; symmetry; apply SF2Prim_Prim2SF).
      assert (Hm3 : m = 3%positive \/ m = 4%positive \/ m = 5%positive)
        by lia.
      destruct Hm3 as [-> | [-> | ->]]; rewrite Hp; vm_compute;
        split; reflexivity. }
    cbn [num_ltb num_mul num_of_Z F64 F64_with].
    rewrite !ltb_spec, !mul_spec, Ex, factor_082, factor_122.
    replace (Prim2SF (Z_to_float 0)) with (S754_zero false)
      by (vm_compute; reflexivity).
    unfold SF64mul. powers.
    destruct (product_rounded m 7385903388887613 (-1074) (-53) (-1074) 53)
      as (q1 & Hq1 & R1).
    { apply (fexp_of_small _ _ 106); [| lia].
      rewrite Pos2Z.inj_mul. powers. lia. }
    { lia. }
    { powers. lia. }
    assert (exists q2 E2,
              (0 < q2 <= 9007199254740992)
              /\ ((E2 = -1074
                   /\ Zpos m * 5494391545392005 / 4503599627370496 <= q2)
                  \/ (E2 = -1073
                      /\ Zpos m * 5494391545392005 / 9007199254740992 <= q2))
              /\ SFmul prec emax (S754_finite false m (-1074))
                   (S754_finite false 5494391545392005 (-52))
                 = rounded q2 E2) as (q2 & E2 & Hq2 & Hc2 & R2).
    { destruct (Z_lt_le_dec (Zpos m * 5494391545392005)
                  40564819207303340847894502572032) as [L | L].
      - destruct (product_rounded m 5494391545392005 (-1074) (-52)
                    (-1074) 52) as (q & Hq & R).
        + apply (fexp_of_small _ _ 105); [| lia].
          rewrite Pos2Z.inj_mul. powers. exact L.
        + lia.
        + powers. exact L.
        + powers. exists q, (-1074). split; [| split].
          * Z.to_euclidean_division_equations. lia.
          * left. split; [reflexivity | apply Hq].
          * exact R.
      - destruct (product_rounded m 5494391545392005 (-1074) (-52)
                    (-1073) 53) as (q & Hq & R).
        + rewrite (fexp_of_bounds _ _ 106); [lia |].
          rewrite Pos2Z.inj_mul. powers. lia.
        + lia.
        + powers. lia.
        + powers. exists q, (-1073). split; [| split].
          * Z.to_euclidean_division_equations. lia.
          * right. split; [reflexivity | apply Hq].
          * exact R. }
    powers.
    assert (Hq1' : 0 < q1 < 9007199254740992)
      by (Z.to_euclidean_division_equations; lia).
    rewrite R1, R2. split.
    + apply rounded_positive. powers. lia.
    + apply rounded_lt; powers;
        [lia | assumption | | destruct Hc2 as [[-> _] | [-> _]]; lia |].
      * replace (q1 <? 9007199254740992) with true
          by (symmetry; apply Z.ltb_lt; lia).
        lia.
      * destruct Hc2 as [[-> B2] | [-> B2]].
        -- change (2 ^ (-1074 - -1074)) with 1.
           Z.to_euclidean_division_equations. lia.
        -- change (2 ^ (-1073 - -1074)) with 2.
           Z.to_euclidean_division_equations. lia.
Qed.

End Binary64Facts.

(* ================================================================= *)
(** * The decision engine: how [evaluate] branches *)
(* ================================================================= *)

Section Branches.

Import Agent.
Context {num : Type} {ops : Num num}.
Local Open Scope num_scope.

Variables (self : DecisionEngine num) (now stamp price : num).
Variables (position : PositionState num) (pool_state : PoolState num).

(** The engine once [self.vol_model.update(price)] has run. *)
Let seen : DecisionEngine num :=
  {| vol_model := update (vol_model self) price;
     last_rebalance_time := last_rebalance_time self |}.

Let stamped : DecisionEngine num :=
  {| vol_model := update (vol_model self) price;
     last_rebalance_time := stamp |}.

Let cost : num := estimate_swap_cost (capital_usdc position).

Let nearest : num :=
  pymin (boundary_distance price (lower_bound position))
        (boundary_distance price (upper_bound position)).

Let projected_weekly : num :=
  capital_usdc position * fee_rate pool_state * num_of_Z 7.

Let daily_fee : num :=
  capital_usdc position * fee_rate pool_state * lit 1.0.

Let weekly_fee : num := daily_fee * num_of_Z 7.

(** The call of line 250. *)
Let prediction : Raises num :=
  predict_hours_in_range (update (vol_model self) price) price
    (lower_bound position) (upper_bound position).

Lemma evaluate_cooling :
  cooldown_active self now = true ->
  evaluate self now stamp price position pool_state =
  (Returns
     {| action := SKIP;
        reason := {| message := Cooldown (cooldown_remaining self now);
                     appended := "" |};
        fee_projection := num_of_Z 0;
        swap_cost := cost;
        hours_in_range := num_of_Z 0;
        confidence := lit 0.3;
        new_lower := None; new_upper := None |}, seen).
Proof.
  intro H. unfold evaluate.
  change (cooldown_active _ now) with (cooldown_active self now).
  rewrite H. reflexivity.
Qed.

Lemma evaluate_buffered :
  cooldown_active self now = false ->
  in_range_of price position = false ->
  (nearest <? buffer_frac) = true ->
  evaluate self now stamp price position pool_state =
  (Returns
     {| action := HOLD;
        reason := {| message := BufferZone (nearest * num_of_Z 100);
                     appended := "" |};
        fee_projection := num_of_Z 0;
        swap_cost := cost;
        hours_in_range := num_of_Z 0;
        confidence := lit 0.6;
        new_lower := None; new_upper := None |}, seen).
Proof.
  intros Hc Hr Hb. unfold evaluate.
  change (cooldown_active _ now) with (cooldown_active self now).
  rewrite Hc, Hr. cbn [negb andb]. fold nearest. rewrite Hb. reflexivity.
Qed.

(** Past the two guards [evaluate] asks for the prediction, inside the
    range and outside it, and raises what the prediction raises. *)
Lemma evaluate_raising (e : Exception) :
  cooldown_active self now = false ->
  negb (in_range_of price position) && (nearest <? buffer_frac) = false ->
  prediction = Raised e ->
  evaluate self now stamp price position pool_state = (Raised e, seen).
Proof.
  intros Hc Hb Hp. unfold evaluate.
  change (cooldown_active _ now) with (cooldown_active self now).
  rewrite Hc. fold nearest. rewrite Hb.
  unfold prediction in Hp. rewrite Hp. reflexivity.
Qed.

Lemma evaluate_outside (hours : num) :
  cooldown_active self now = false ->
  in_range_of price position = false ->
  (nearest <? buffer_frac) = false ->
  prediction = Returns hours ->
  evaluate self now stamp price position pool_state =
  if projected_weekly >? cost * COST_BENEFIT_MULTIPLIER then
    (Returns
       {| action := REBALANCE;
          reason := {| message := OutOfRange projected_weekly cost;
                       appended := "" |};
          fee_projection := projected_weekly;
          swap_cost := cost;
          hours_in_range := num_of_Z 0;
          confidence := lit 0.85;
          new_lower := Some (price * lit 0.82);
          new_upper := Some (price * lit 1.22) |}, stamped)
  else
    (Returns
       {| action := SKIP;
          reason := {| message := CostTooHigh cost projected_weekly;
                       appended := "" |};
          fee_projection := projected_weekly;
          swap_cost := cost;
          hours_in_range := num_of_Z 0;
          confidence := lit 0.6;
          new_lower := None; new_upper := None |}, seen).
Proof.
  intros Hc Hr Hb Hp. unfold evaluate.
  change (cooldown_active _ now) with (cooldown_active self now).
  rewrite Hc, Hr. cbn [negb andb]. fold nearest. rewrite Hb.
  unfold prediction in Hp. rewrite Hp.
  fold cost projected_weekly.
  destruct (projected_weekly >? cost * COST_BENEFIT_MULTIPLIER); reflexivity.
Qed.

Lemma evaluate_in_range (hours : num) :
  cooldown_active self now = false ->
  in_range_of price position = true ->
  prediction = Returns hours ->
  evaluate self now stamp price position pool_state =
  if hours <? MIN_HOURS_IN_RANGE then
    if weekly_fee - cost >? cost * COST_BENEFIT_MULTIPLIER then
      (Returns
         {| action := REBALANCE;
            reason := {| message := Preemptive hours (weekly_fee - cost);
                         appended := EmptyString |};
            fee_projection := weekly_fee;
            swap_cost := cost;
            hours_in_range := hours;
            confidence := lit 0.7;
            new_lower := None; new_upper := None |}, stamped)
    else
      (Returns
         {| action := ALERT;
            reason := {| message := NearBoundary hours;
                         appended := EmptyString |};
            fee_projection := weekly_fee;
            swap_cost := cost;
            hours_in_range := hours;
            confidence := lit 0.5;
            new_lower := None; new_upper := None |}, seen)
  else
    (Returns
       {| action := HOLD;
          reason := {| message := InRange hours daily_fee;
                       appended := EmptyString |};
          fee_projection := weekly_fee;
          swap_cost := cost;
          hours_in_range := hours;
          confidence := lit 0.9;
          new_lower := None; new_upper := None |}, seen).
Proof.
  intros Hc Hr Hp. unfold evaluate.
  change (cooldown_active _ now) with (cooldown_active self now).
  rewrite Hc, Hr. cbn [negb andb].
  unfold prediction in Hp. rewrite Hp. reflexivity.
Qed.

(** With fewer than ten samples after the update the prediction is the
    fixed 12 hours, and nothing is squared. *)
Lemma prediction_cold_start :
  (List.length (price_history (vol_model self)) < 9)%nat ->
  prediction = Returns (lit 12.0).
Proof.
  intro Hn. unfold prediction, predict_hours_in_range.
  replace (_ <? 10)%Z with true; [reflexivity |].
  symmetry. apply Z.ltb_lt.
  unfold update. destruct (_ <? _)%Z; cbn [price_history].
  - unfold slice_from. rewrite length_skipn, length_app. cbn. lia.
  - rewrite length_app. cbn. lia.
Qed.

(** What a call can come to: it raises, leaving the engine with the sample
    and its old timestamp; or it returns REBALANCE, with or without new
    bounds, and the timestamp is [stamp]; or it returns another action,
    without new bounds, and the timestamp is the old one.  The reason is as
    formatted. *)
Lemma evaluate_outcome :
  let r := evaluate self now stamp price position pool_state in
  (exists e,
     r = (Raised e, seen)
     /\ cooldown_active self now = false
     /\ negb (in_range_of price position) && (nearest <? buffer_frac) = false
     /\ prediction = Raised e)
  \/ (exists d,
        r = (Returns d, stamped)
        /\ action d = REBALANCE
        /\ appended (reason d) = EmptyString
        /\ if in_range_of price position
           then new_lower d = None /\ new_upper d = None
           else new_lower d = Some (price * lit 0.82)
                /\ new_upper d = Some (price * lit 1.22))
  \/ (exists d,
        r = (Returns d, seen)
        /\ action d <> REBALANCE
        /\ appended (reason d) = EmptyString
        /\ new_lower d = None /\ new_upper d = None).
Proof.
  cbn zeta.
  assert (other : forall d,
             action d <> REBALANCE -> appended (reason d) = EmptyString ->
             new_lower d = None -> new_upper d = None ->
             forall r, r = (Returns d, seen) ->
             (exists e,
                r = (Raised e, seen)
                /\ cooldown_active self now = false
                /\ negb (in_range_of price position)
                   && (nearest <? buffer_frac) = false
                /\ prediction = Raised e)
             \/ (exists d,
                   r = (Returns d, stamped)
                   /\ action d = REBALANCE
                   /\ appended (reason d) = EmptyString
                   /\ if in_range_of price position
                      then new_lower d = None /\ new_upper d = None
                      else new_lower d = Some (price * lit 0.82)
                           /\ new_upper d = Some (price * lit 1.22))
             \/ (exists d,
                   r = (Returns d, seen)
                   /\ action d <> REBALANCE
                   /\ appended (reason d) = EmptyString
                   /\ new_lower d = None /\ new_upper d = None)).
  { intros d Hn Hp Hl Hu r E. right. right. exists d. auto. }
  destruct (cooldown_active self now) eqn:Hc.
  { eapply other; [| | | | apply (evaluate_cooling Hc)];
      try reflexivity; discriminate. }
  destruct (negb (in_range_of price position) && (nearest <? buffer_frac))
    eqn:Hb.
  { apply andb_true_iff in Hb as [Hr Hb]. apply negb_true_iff in Hr.
    eapply other; [| | | | apply (evaluate_buffered Hc Hr Hb)];
      try reflexivity; discriminate. }
  destruct prediction as [hours | e] eqn:Hp.
  2: { left. exists e. rewrite (evaluate_raising e Hc Hb Hp). auto. }
  destruct (in_range_of price position) eqn:Hr.
  - rewrite (evaluate_in_range hours Hc Hr Hp).
    destruct (hours <? MIN_HOURS_IN_RANGE);
      [destruct (weekly_fee - cost >? cost * COST_BENEFIT_MULTIPLIER) |].
    + right. left. eexists. split; [reflexivity |]. cbn. auto.
    + eapply other; [| | | | reflexivity]; try reflexivity; discriminate.
    + eapply other; [| | | | reflexivity]; try reflexivity; discriminate.
  - cbn [negb andb] in Hb. rewrite (evaluate_outside hours Hc Hr Hb Hp).
    destruct (projected_weekly >? cost * COST_BENEFIT_MULTIPLIER).
    + right. left. eexists. split; [reflexivity |]. cbn. auto.
    + eapply other; [| | | | reflexivity]; try reflexivity; discriminate.
Qed.

(** Whatever the branch: the engine comes back with the price appended to
    the window and with its timestamp either kept or set to [stamp], the
    latter with a returned REBALANCE and only then. *)
Lemma evaluate_engine :
  let r := evaluate self now stamp price position pool_state in
  (exists d, fst r = Returns d /\ action d = REBALANCE /\ snd r = stamped)
  \/ ((forall d, fst r = Returns d -> action d <> REBALANCE)
      /\ snd r = seen).
Proof.
  cbn zeta.
  destruct evaluate_outcome
    as [(e & E & _) | [(d & E & Ha & _) | (d & E & Hn & _)]];
    cbn zeta in E; rewrite E; cbn [fst snd].
  - right. split; [intros d F; discriminate F | reflexivity].
  - left. exists d. repeat split. exact Ha.
  - right. split; [| reflexivity].
    intros d' F. injection F as <-. exact Hn.
Qed.

(** Which decisions carry new bounds. *)
Lemma evaluate_new_bounds (d : Decision num) :
  fst (evaluate self now stamp price position pool_state) = Returns d ->
  (action d <> REBALANCE -> new_lower d = None /\ new_upper d = None)
  /\ (action d = REBALANCE -> in_range_of price position = false ->
      new_lower d = Some (price * lit 0.82)
      /\ new_upper d = Some (price * lit 1.22))
  /\ (action d = REBALANCE ->
      bounds_for d price = (price * lit 0.82, price * lit 1.22)).
Proof.
  destruct evaluate_outcome
    as [(e & E & _) | [(d' & E & Ha & _ & Hb) | (d' & E & Hn & _ & Hl & Hu)]];
    cbn zeta in E; rewrite E; cbn [fst]; intro F;
    [discriminate F | |]; injection F as <-.
  - split; [intro N; contradiction |].
    destruct (in_range_of price position); destruct Hb as [Hl Hu].
    + split; [discriminate |]. intros _. unfold bounds_for.
      rewrite Hl, Hu. reflexivity.
    + split; [auto |]. intros _. unfold bounds_for.
      rewrite Hl, Hu. reflexivity.
  - split; [auto |]. split; intro Ha; contradiction.
Qed.

(** [evaluate] itself appends nothing to the reason it formats. *)
Lemma evaluate_reason_plain (d : Decision num) :
  fst (evaluate self now stamp price position pool_state) = Returns d ->
  appended (reason d) = EmptyString.
Proof.
  destruct evaluate_outcome
    as [(e & E & _) | [(d' & E & _ & Hp & _) | (d' & E & _ & Hp & _)]];
    cbn zeta in E; rewrite E; cbn [fst]; intro F;
    [discriminate F | |]; injection F as <-; exact Hp.
Qed.

End Branches.

(* ================================================================= *)
(** * Exact arithmetic: the comparisons *)
(* ================================================================= *)

Section ExactFacts.

Import Agent.
Local Open Scope R_scope.

Lemma Rltb_lt (x y : R) : Rltb x y = true <-> x < y.
Proof.
  unfold Rltb. destruct (Rlt_dec x y); split; intro H;
    try reflexivity; try assumption; try discriminate; contradiction.
Qed.

Lemma Rltb_ge (x y : R) : Rltb x y = false <-> y <= x.
Proof.
  unfold Rltb. destruct (Rlt_dec x y); split; intro H;
    try reflexivity; try discriminate; lra.
Qed.

Lemma Rleb_le (x y : R) : Rleb x y = true <-> x <= y.
Proof.
  unfold Rleb. destruct (Rle_dec x y); split; intro H;
    try reflexivity; try assumption; try discriminate; contradiction.
Qed.

Lemma Rleb_gt (x y : R) : Rleb x y = false <-> y < x.
Proof.
  unfold Rleb. destruct (Rle_dec x y); split; intro H;
    try reflexivity; try discriminate; lra.
Qed.



(** With positive bounds, the relative distance to the nearer bound is one
    of the two distances the buffer guard takes the minimum of. *)
Lemma nearest_bound_distance_exact (price : R) (position : PositionState R) :
  0 < lower_bound position -> 0 < upper_bound position ->
  AgentSpec.nearest_bound_distance price position
  = boundary_distance price (lower_bound position)
  \/ AgentSpec.nearest_bound_distance price position
     = boundary_distance price (upper_bound position).
Proof.
  intros Hl Hu.
  unfold AgentSpec.nearest_bound_distance, AgentSpec.nearest_bound,
    boundary_distance.
  cbn.
  apply Rltb_lt in Hl, Hu. rewrite Hl, Hu.
  destruct (Rleb _ _); [left | right]; reflexivity.
Qed.

Lemma pymin_exact (a b : R) : pymin a b = Rmin a b.
Proof.
  unfold pymin, Rmin. cbn. unfold Rltb.
  destruct (Rlt_dec b a), (Rle_dec a b); try reflexivity; lra.
Qed.

End ExactFacts.

(** Settle a comparison, or the sign under an absolute value, between
    numerals. *)
Ltac Rbool :=
  match goal with
  | |- context [Agent.Rltb ?a ?b] =>
      first [ replace (Agent.Rltb a b) with true
                by (symmetry; apply Rltb_lt; lra)
            | replace (Agent.Rltb a b) with false
                by (symmetry; apply Rltb_ge; lra) ]
  | |- context [Agent.Rleb ?a ?b] =>
      first [ replace (Agent.Rleb a b) with true
                by (symmetry; apply Rleb_le; lra)
            | replace (Agent.Rleb a b) with false
                by (symmetry; apply Rleb_gt; lra) ]
  end.

Ltac Rabs_sign :=
  match goal with
  | |- context [Rabs ?a] =>
      first [ rewrite (Rabs_pos_eq a) by lra
            | rewrite (Rabs_left1 a) by lra ]
  end.

(* ================================================================= *)
(** * The decision engine: properties *)
(* ================================================================= *)

Section Decisions.

Import Agent AgentSamples AgentSpec.

(** [lit] yields the double nearest to the decimal, as the Python reader
    does. *)
Example lit_binary64 :
  lit (num := float) 0.82 = 0x1.a3d70a3d70a3dp-1%float
  /\ lit (num := float) 1.22 = 0x1.3851eb851eb85p+0%float
  /\ lit (num := float) 0.205 = 0x1.a3d70a3d70a3dp-3%float
  /\ lit (num := float) 0.305 = 0x1.3851eb851eb85p-2%float.
Proof. vm_compute. repeat split. Qed.

(** Where the two new bounds are not apart in binary64: at the smallest
    positive double and at twice that, both products round to the same
    double; at infinity both are infinite. *)
Example new_bounds_at_smallest_double :
  (let price := 0x1p-1074%float in
   (price * lit 0.82)%num = price /\ (price * lit 1.22)%num = price)
  /\ (let price := 0x1p-1073%float in
      (price * lit 0.82)%num = price /\ (price * lit 1.22)%num = price)
  /\ (let price := infinity in
      (price * lit 0.82)%num = price /\ (price * lit 1.22)%num = price).
Proof. vm_compute. repeat split. Qed.

(** The cold-start scenario: price 0.18 inside the default range, no
    samples yet, is held with 12 predicted hours, 15 a day, 105 a week,
    against a swap cost of 20.004. *)
Example cold_start_scenario :
  exists d,
    fst (evaluate (fresh (num := float))
           (num_of_Z 1762000000) (num_of_Z 1762000001) (lit 0.18)
           PositionState_default (pool_at (lit 0.18))) = Returns d
    /\ action d = HOLD
    /\ message (reason d) = InRange (lit 12.0) (lit 15.0)
    /\ fee_projection d = num_of_Z 105
    /\ swap_cost d = lit 20.004.
Proof.
  eexists. split; [vm_compute; reflexivity |]. vm_compute. repeat split.
Qed.

(** The specification's scenario in binary64: price 0.25 against the
    default range [0.140, 0.220], capital 5000, fee rate 0.003. *)
Example default_scenario_binary64 :
  exists d,
    fst (evaluate (fresh (num := float))
           (num_of_Z 1762000000) (num_of_Z 1762000001) (lit 0.25)
           PositionState_default (pool_at (lit 0.25))) = Returns d
    /\ action d = REBALANCE
    /\ fee_projection d = num_of_Z 105
    /\ new_lower d = Some (lit 0.205) /\ new_upper d = Some (lit 0.305).
Proof.
  eexists. split; [vm_compute; reflexivity |]. vm_compute. repeat split.
Qed.

(** The pools of these scenarios are what [fetch_pact_pool_state] returns
    for their prices. *)
Lemma pool_at_fetched (num : Type) (ops : Num num) (price : num) :
  (price <? num_of_Z 0)%num = false ->
  fetch_pact_pool_state price = Returns (pool_at price).
Proof. intro H. unfold fetch_pact_pool_state. rewrite H. reflexivity. Qed.



(** The specification's scenario in exact arithmetic: price 0.25 against
    the default range [0.140, 0.220], capital 5000, fee rate 0.003. *)
Lemma default_scenario_exact :
  exists d,
    fst (evaluate (fresh (num := R))
           (IZR 1762000000) (IZR 1762000001) (lit 0.25)
           PositionState_default (pool_at (lit 0.25))) = Returns d
    /\ action d = REBALANCE
    /\ fee_projection d = 105%R
    /\ new_lower d = Some (lit 0.205) /\ new_upper d = Some (lit 0.305).
Proof.
  rewrite (evaluate_outside _ _ _ _ _ _ (lit 12.0)).
  - assert (H : (capital_usdc PositionState_default
                 * fee_rate (pool_at (lit 0.25))
                 * num_of_Z 7
                 >? estimate_swap_cost (capital_usdc PositionState_default)
                    * COST_BENEFIT_MULTIPLIER)%num = true).
    { apply Rltb_lt.
      unfold estimate_swap_cost, estimate_swap_cost_with,
        COST_BENEFIT_MULTIPLIER, lit.
      cbn. lra. }
    rewrite H. eexists. split; [reflexivity |].
    unfold lit. cbn. repeat split; try (f_equal; lra).
  - unfold cooldown_active. apply andb_false_iff. right.
    apply Rltb_ge. unfold lit. cbn. lra.
  - unfold in_range_of. apply andb_false_iff. right.
    apply Rleb_gt. unfold lit. cbn. lra.
  - apply Rltb_ge. rewrite pymin_exact.
    unfold boundary_distance, buffer_frac, BUFFER_ZONE_PCT, lit. cbn.
    repeat Rbool. repeat Rabs_sign.
    apply Rmin_glb; lra.
  - apply prediction_cold_start. cbn. lia.
Qed.

(** C5, as stated, fails: [evaluate] asks the volatility model for its
    prediction before it looks at the range, and the prediction squares
    with [** 2], which raises [OverflowError] beyond the range of [float].
    After nine samples, at price [2 ^ 700], the price is outside the range
    and the buffer and no cooldown is active, and [evaluate] raises: it
    emits neither REBALANCE nor SKIP. *)
Lemma out_of_range_prediction_overflows :
  fst (evaluate (after_swings (num := float))
         (num_of_Z 1762000000) (num_of_Z 1762000001) 0x1p+700%float
         PositionState_default (pool_at 0x1p+700%float))
  = Raised OverflowError
  /\ ~ out_of_range_decides (num := float).
Proof.
  split; [vm_compute; reflexivity |].
  intro H.
  destruct (H after_swings (num_of_Z 1762000000) (num_of_Z 1762000001)
              0x1p+700%float PositionState_default
              (pool_at 0x1p+700%float)) as (d & E & _);
    try (vm_compute; reflexivity).
  vm_compute in E. discriminate E.
Qed.

(** C5 (amended): with no cooldown active and the price outside
    [[lower_bound, upper_bound]] and beyond the buffer zone, [evaluate]
    raises what the prediction of line 250 raises, and when that prediction
    returns (as it does while fewer than ten samples are stored) it emits
    REBALANCE exactly when [projected_weekly = capital * fee_rate * 7]
    exceeds [swap_cost * COST_BENEFIT_MULTIPLIER], with
    [new_lower = price * 0.82] and [new_upper = price * 1.22], and emits
    SKIP otherwise.  At price 0.25 in the default scenario this yields
    0.205 and 0.305, both in binary64 and exactly. *)
Theorem out_of_range_rebalance :
  (forall (num : Type) (ops : Num num) (self : DecisionEngine num)
          (now stamp price : num) (position : PositionState num)
          (pool_state : PoolState num),
      cooldown_active self now = false ->
      in_range_of price position = false ->
      (pymin (boundary_distance price (lower_bound position))
             (boundary_distance price (upper_bound position))
       <? buffer_frac)%num = false ->
      let projected_weekly :=
        (capital_usdc position * fee_rate pool_state * num_of_Z 7)%num in
      let cost := estimate_swap_cost (capital_usdc position) in
      let prediction :=
        predict_hours_in_range (update (vol_model self) price) price
          (lower_bound position) (upper_bound position) in
      let r := evaluate self now stamp price position pool_state in
      (forall e, prediction = Raised e ->
         fst r = Raised e
         /\ last_rebalance_time (snd r) = last_rebalance_time self)
      /\ (forall hours, prediction = Returns hours ->
          exists d,
            fst r = Returns d
            /\ (action d = REBALANCE <->
                (projected_weekly >? cost * COST_BENEFIT_MULTIPLIER)%num
                = true)
            /\ (action d = REBALANCE ->
                new_lower d = Some (price * lit 0.82)%num
                /\ new_upper d = Some (price * lit 1.22)%num
                /\ last_rebalance_time (snd r) = stamp)
            /\ (action d <> REBALANCE ->
                action d = SKIP
                /\ new_lower d = None /\ new_upper d = None
                /\ last_rebalance_time (snd r) = last_rebalance_time self))
      /\ ((List.length (price_history (vol_model self)) < 9)%nat ->
          prediction = Returns (lit 12.0)))
  /\ (exists d,
        fst (evaluate (fresh (num := float))
               (num_of_Z 1762000000) (num_of_Z 1762000001) (lit 0.25)
               PositionState_default (pool_at (lit 0.25))) = Returns d
        /\ action d = REBALANCE
        /\ fee_projection d = num_of_Z 105
        /\ new_lower d = Some (lit 0.205) /\ new_upper d = Some (lit 0.305))
  /\ (exists d,
        fst (evaluate (fresh (num := R))
               (IZR 1762000000) (IZR 1762000001) (lit 0.25)
               PositionState_default (pool_at (lit 0.25))) = Returns d
        /\ action d = REBALANCE
        /\ fee_projection d = 105%R
        /\ new_lower d = Some (lit 0.205) /\ new_upper d = Some (lit 0.305)).
Proof.
  split; [| split].
  - intros num ops self now stamp price position pool_state Hc Hr Hb.
    cbn zeta. split; [| split].
    + intros e Hp.
      rewrite (evaluate_raising _ _ stamp _ _ pool_state e Hc); try exact Hp.
      * split; reflexivity.
      * rewrite Hr. exact Hb.
    + intros hours Hp.
      rewrite (evaluate_outside _ _ stamp _ _ pool_state hours Hc Hr Hb Hp).
      destruct (num_ltb (estimate_swap_cost (capital_usdc position)
                         * COST_BENEFIT_MULTIPLIER)%num _);
        eexists; (split; [reflexivity |]); cbn.
      * split; [split; reflexivity |]. split; [auto |].
        intro H. contradiction.
      * split; [split; discriminate |]. split; [discriminate | auto].
    + apply prediction_cold_start.
  - exact default_scenario_binary64.
  - exact default_scenario_exact.
Qed.

(** The specification's scenario, price 0.25 against the default range, run
    through the general statement in binary64. *)
Lemma out_of_range_rebalance_witness :
  let r := evaluate (fresh (num := float))
             (num_of_Z 1762000000) (num_of_Z 1762000001) (lit 0.25)
             PositionState_default (pool_at (lit 0.25)) in
  exists d,
    fst r = Returns d
    /\ action d = REBALANCE
    /\ new_lower d = Some (lit 0.205)
    /\ new_upper d = Some (lit 0.305)
    /\ last_rebalance_time (snd r) = num_of_Z 1762000001.
Proof.
  destruct (proj1 out_of_range_rebalance float F64 fresh
              (num_of_Z 1762000000) (num_of_Z 1762000001) (lit 0.25)
              PositionState_default (pool_at (lit 0.25)))
    as (_ & Hreturns & Hcold); try (vm_compute; reflexivity).
  destruct (Hreturns (lit 12.0)) as (d & E & Hiff & Hyes & _).
  { apply Hcold. cbn. lia. }
  assert (Ha : action d = REBALANCE).
  { apply Hiff. vm_compute. reflexivity. }
  destruct (Hyes Ha) as (Hl & Hu & Ht).
  cbn zeta. exists d. split; [exact E |]. split; [exact Ha |].
  split; [| split].
  - rewrite Hl. vm_compute. reflexivity.
  - rewrite Hu. vm_compute. reflexivity.
  - exact Ht.
Defined.

(** C3, as stated, fails: a price inside the range and 0.7% from the lower
    bound is within the buffer distance, no cooldown is active, and after
    nine swinging samples [evaluate] answers REBALANCE, not HOLD. *)
Lemma buffer_zone_inside_range :
  ~ buffer_zone_regardless (num := float).
Proof.
  intro H.
  destruct (H after_swings (num_of_Z 1762000000) (num_of_Z 1762000001)
              (lit 0.141) PositionState_default
              (pool_at (lit 0.141))) as (d & E & Ha & _);
    try (vm_compute; reflexivity).
  vm_compute in E. injection E as <-. discriminate Ha.
Qed.

(** C3 (amended): when no cooldown is active and the price is outside
    [[lower_bound, upper_bound]], [evaluate] returns HOLD with a
    buffer-zone reason whenever the smaller of the two relative boundary
    distances is below [BUFFER_ZONE_PCT / 100]; in exact arithmetic and for
    positive bounds, that is whenever
    [|price - nearest_bound| / nearest_bound < BUFFER_ZONE_PCT / 100].
    Inside the range the guard does not apply. *)
Theorem buffer_zone_holds_outside :
  (forall (num : Type) (ops : Num num) (self : DecisionEngine num)
          (now stamp price : num) (position : PositionState num)
          (pool_state : PoolState num),
      cooldown_active self now = false ->
      in_range_of price position = false ->
      let nearest :=
        pymin (boundary_distance price (lower_bound position))
              (boundary_distance price (upper_bound position)) in
      (nearest <? buffer_frac)%num = true ->
      let r := evaluate self now stamp price position pool_state in
      exists d,
        fst r = Returns d
        /\ action d = HOLD
        /\ message (reason d) = BufferZone (nearest * num_of_Z 100)%num
        /\ last_rebalance_time (snd r) = last_rebalance_time self)
  /\ (forall (self : DecisionEngine R) (now stamp price : R)
             (position : PositionState R) (pool_state : PoolState R),
      cooldown_active self now = false ->
      (0 < lower_bound position)%R -> (0 < upper_bound position)%R ->
      (price < lower_bound position \/ upper_bound position < price)%R ->
      (nearest_bound_distance price position < BUFFER_ZONE_PCT / 100)%R ->
      exists d,
        fst (evaluate self now stamp price position pool_state) = Returns d
        /\ action d = HOLD /\ buffer_zone_reason (reason d)).
Proof.
  split.
  - intros num ops self now stamp price position pool_state Hc Hr nearest Hb.
    rewrite (evaluate_buffered _ _ stamp _ _ pool_state Hc Hr Hb).
    eexists. cbn. repeat split.
  - intros self now stamp price position pool_state Hc Hl Hu Hout Hnear.
    assert (Hr : in_range_of price position = false).
    { unfold in_range_of. apply andb_false_iff.
      destruct Hout as [Ho | Ho]; [left | right]; apply Rleb_gt; exact Ho. }
    assert (Hb : (pymin (boundary_distance price (lower_bound position))
                        (boundary_distance price (upper_bound position))
                  <? buffer_frac)%num = true).
    { apply Rltb_lt. rewrite pymin_exact.
      assert (Hf : buffer_frac = (BUFFER_ZONE_PCT / 100)%R).
      { unfold buffer_frac, BUFFER_ZONE_PCT, lit. cbn. lra. }
      rewrite Hf.
      destruct (nearest_bound_distance_exact price position Hl Hu) as [E | E];
        rewrite E in Hnear.
      - eapply Rle_lt_trans; [apply Rmin_l | exact Hnear].
      - eapply Rle_lt_trans; [apply Rmin_r | exact Hnear]. }
    rewrite (evaluate_buffered _ _ stamp _ _ pool_state Hc Hr Hb).
    eexists. cbn. split; [reflexivity |]. split; [reflexivity |].
    eexists. reflexivity.
Qed.

(** Price 0.2255, 2.5% above the default upper bound, is held: in binary64
    by the guard as coded, exactly by the distance to the nearer bound. *)
Lemma buffer_zone_holds_outside_witness :
  (exists d,
     fst (evaluate (fresh (num := float))
            (num_of_Z 1762000000) (num_of_Z 1762000001) (lit 0.2255)
            PositionState_default (pool_at (lit 0.2255))) = Returns d
     /\ action d = HOLD /\ buffer_zone_reason (reason d))
  /\ (exists d,
        fst (evaluate (fresh (num := R))
               (IZR 1762000000) (IZR 1762000001) (lit 0.2255)
               PositionState_default (pool_at (lit 0.2255))) = Returns d
        /\ action d = HOLD /\ buffer_zone_reason (reason d)).
Proof.
  destruct buffer_zone_holds_outside as [generic exact]. split.
  - destruct (generic float F64 fresh
                (num_of_Z 1762000000) (num_of_Z 1762000001) (lit 0.2255)
                PositionState_default (pool_at (lit 0.2255)))
      as (d & E & Ha & Hm & _); try (vm_compute; reflexivity).
    exists d. split; [exact E |]. split; [exact Ha |]. eexists. exact Hm.
  - apply (exact fresh (IZR 1762000000) (IZR 1762000001) (lit 0.2255)
             PositionState_default (pool_at (lit 0.2255))).
    + unfold cooldown_active. apply andb_false_iff. right.
      apply Rltb_ge. unfold lit. cbn. lra.
    + unfold lit. cbn. lra.
    + unfold lit. cbn. lra.
    + right. unfold lit. cbn. lra.
    + unfold nearest_bound_distance, nearest_bound, BUFFER_ZONE_PCT, lit.
      cbn. repeat (Rabs_sign || Rbool). lra.
Defined.

(** C6, as stated, fails: every call starts with
    [self.vol_model.update(price)], so a fresh engine leaves its first
    [evaluate] with the price in its sample window. *)
Lemma evaluate_appends_sample :
  ~ evaluate_keeps_window (num := float).
Proof.
  intro H.
  destruct (H fresh (num_of_Z 1762000000) (num_of_Z 1762000001)
              (lit 0.18) PositionState_default
              (pool_at (lit 0.18))) as [Hv _].
  vm_compute in Hv. discriminate.
Qed.

(** C6 (amended): a call to [evaluate] changes two things in the engine and
    nothing else.  It always passes the price to the volatility model's
    [update], which appends it to the sample window, keeps [window] and
    drops only oldest samples; and it sets [last_rebalance_time] (to the
    clock reading) when the returned action is REBALANCE, and only then:
    not with another action, and not when the call raises. *)
Theorem evaluate_side_effects (num : Type) (ops : Num num)
    (self : DecisionEngine num) (now stamp price : num)
    (position : PositionState num) (pool_state : PoolState num) :
  let r := evaluate self now stamp price position pool_state in
  vol_model (snd r) = update (vol_model self) price
  /\ window (vol_model (snd r)) = window (vol_model self)
  /\ (exists dropped : nat,
        price_history (vol_model (snd r))
        = skipn dropped (price_history (vol_model self) ++ [price]))
  /\ (forall d, fst r = Returns d -> action d <> REBALANCE ->
      last_rebalance_time (snd r) = last_rebalance_time self)
  /\ (forall d, fst r = Returns d -> action d = REBALANCE ->
      last_rebalance_time (snd r) = stamp)
  /\ (forall e, fst r = Raised e ->
      last_rebalance_time (snd r) = last_rebalance_time self).
Proof.
  cbn zeta.
  assert (Hv : vol_model (snd (evaluate self now stamp price position
                                 pool_state))
               = update (vol_model self) price).
  { destruct (evaluate_engine self now stamp price position pool_state)
      as [(d & _ & _ & E) | [_ E]]; rewrite E; reflexivity. }
  split; [exact Hv |]. rewrite Hv.
  split; [| split; [| split; [| split]]].
  - unfold update. destruct (_ <? _)%Z; reflexivity.
  - unfold update. destruct (_ <? _)%Z; cbn.
    + unfold slice_from. eexists. reflexivity.
    + exists 0%nat. reflexivity.
  - intros d Ed Hn.
    destruct (evaluate_engine self now stamp price position pool_state)
      as [(d' & Ed' & Ha & _) | [_ E]]; [| rewrite E; reflexivity].
    rewrite Ed in Ed'. injection Ed' as <-. contradiction.
  - intros d Ed Ha.
    destruct (evaluate_engine self now stamp price position pool_state)
      as [(d' & _ & _ & E) | [Hn _]]; [rewrite E; reflexivity |].
    destruct (Hn d Ed Ha).
  - intros e Ee.
    destruct (evaluate_engine self now stamp price position pool_state)
      as [(d' & Ed' & _) | [_ E]]; [| rewrite E; reflexivity].
    rewrite Ee in Ed'. discriminate Ed'.
Qed.

(** A held cycle leaves the timestamp alone and the price in the window. *)
Lemma evaluate_side_effects_witness :
  let r := evaluate (fresh (num := float))
             (num_of_Z 1762000000) (num_of_Z 1762000001) (lit 0.18)
             PositionState_default (pool_at (lit 0.18)) in
  price_history (vol_model (snd r)) = [lit 0.18]
  /\ last_rebalance_time (snd r) = lit 0.0.
Proof.
  destruct (evaluate_side_effects float F64 fresh
              (num_of_Z 1762000000) (num_of_Z 1762000001) (lit 0.18)
              PositionState_default (pool_at (lit 0.18)))
    as (Hv & _ & _ & Hkeep & _).
  cbn zeta. split.
  - rewrite Hv. vm_compute. reflexivity.
  - destruct cold_start_scenario as (d & E & Ha & _).
    rewrite (Hkeep d E); [reflexivity | rewrite Ha; discriminate].
Defined.

(** C2, as stated, fails: the preemptive REBALANCE that [evaluate] emits
    inside the range carries neither ["new_lower"] nor ["new_upper"]. *)
Lemma preemptive_rebalance_without_bounds :
  ~ rebalance_iff_new_bounds (num := float).
Proof.
  intro H.
  edestruct (H after_swings (num_of_Z 1762000000) (num_of_Z 1762000001)
               (lit 0.141) PositionState_default (pool_at (lit 0.141)))
    as [Hyes _]; [vm_compute; reflexivity |].
  destruct Hyes as (lo & hi & Hl & _); [vm_compute; reflexivity |].
  vm_compute in Hl. discriminate.
Qed.

(** C2 (amended): every decision that [evaluate] returns with an action
    other than REBALANCE carries no new bounds; a REBALANCE returned for a
    price outside the range carries both, [new_lower = price * 0.82] and
    [new_upper = price * 1.22]; and for every REBALANCE the bounds the
    monitoring loop takes from the decision
    ([decision.get("new_lower", price * 0.82)] and its counterpart) are
    those two products.  They are strictly positive and satisfy
    [new_lower < new_upper] in binary64 for every finite price of at least
    [0x3p-1074] (three times the smallest positive double), whatever the
    C library's [pow] returns, and in exact arithmetic for every positive
    price. *)
Theorem rebalance_new_bounds :
  (forall (num : Type) (ops : Num num) (self : DecisionEngine num)
          (now stamp price : num) (position : PositionState num)
          (pool_state : PoolState num) (d : Decision num),
      fst (evaluate self now stamp price position pool_state) = Returns d ->
      (action d <> REBALANCE -> new_lower d = None /\ new_upper d = None)
      /\ (action d = REBALANCE -> in_range_of price position = false ->
          new_lower d = Some (price * lit 0.82)%num
          /\ new_upper d = Some (price * lit 1.22)%num)
      /\ (action d = REBALANCE ->
          bounds_for d price = (price * lit 0.82, price * lit 1.22)%num))
  /\ (forall (pow2 : float -> Raises float)
             (self : DecisionEngine float) (now stamp price : float)
             (position : PositionState float) (pool_state : PoolState float)
             (d : Decision float),
      fst (evaluate (ops := F64_with pow2) self now stamp price position
             pool_state) = Returns d ->
      action d = REBALANCE ->
      (0x3p-1074 <=? price)%float = true ->
      (price <? infinity)%float = true ->
      (0 <? fst (bounds_for d price))%float = true
      /\ (fst (bounds_for d price) <? snd (bounds_for d price))%float = true)
  /\ (forall (self : DecisionEngine R) (now stamp price : R)
             (position : PositionState R) (pool_state : PoolState R)
             (d : Decision R),
      fst (evaluate self now stamp price position pool_state) = Returns d ->
      action d = REBALANCE ->
      (0 < price)%R ->
      (0 < fst (bounds_for d price) < snd (bounds_for d price))%R).
Proof.
  split; [| split].
  - intros num ops self now stamp price position pool_state d E.
    exact (evaluate_new_bounds self now stamp price position pool_state d E).
  - intros pow2 self now stamp price position pool_state d E Ha Hlo Hhi.
    destruct (evaluate_new_bounds (ops := F64_with pow2) self now stamp
                price position pool_state d E) as (_ & _ & Hloop).
    change (bounds_for d price)
      with (bounds_for (ops := F64_with pow2) d price).
    rewrite (Hloop Ha). cbn [fst snd].
    exact (new_bounds_binary64 price Hlo Hhi).
  - intros self now stamp price position pool_state d E Ha Hp.
    destruct (evaluate_new_bounds self now stamp price position pool_state
                d E) as (_ & _ & Hloop).
    rewrite (Hloop Ha). cbn [fst snd]. unfold lit. cbn. lra.
Qed.

(** The scenario at price 0.25, in binary64 and exactly. *)
Lemma rebalance_new_bounds_witness :
  (exists d,
     fst (evaluate (fresh (num := float))
            (num_of_Z 1762000000) (num_of_Z 1762000001) (lit 0.25)
            PositionState_default (pool_at (lit 0.25))) = Returns d
     /\ new_lower d = Some (lit 0.205) /\ new_upper d = Some (lit 0.305)
     /\ (fst (bounds_for d (lit 0.25)) <? snd (bounds_for d (lit 0.25)))%num
        = true)
  /\ (exists d,
        fst (evaluate (fresh (num := R))
               (IZR 1762000000) (IZR 1762000001) (lit 0.25)
               PositionState_default (pool_at (lit 0.25))) = Returns d
        /\ (0 < fst (bounds_for d (lit 0.25))
              < snd (bounds_for d (lit 0.25)))%R).
Proof.
  destruct rebalance_new_bounds as (generic & binary & exact). split.
  - destruct default_scenario_binary64 as (d & E & Ha & _ & _).
    exists d. split; [exact E |].
    destruct (generic float F64 fresh
                (num_of_Z 1762000000) (num_of_Z 1762000001) (lit 0.25)
                PositionState_default (pool_at (lit 0.25)) d E)
      as (_ & Hout & _).
    destruct (Hout Ha) as [Hl Hu]; [vm_compute; reflexivity |].
    split; [rewrite Hl; vm_compute; reflexivity |].
    split; [rewrite Hu; vm_compute; reflexivity |].
    apply (binary float_pow2 fresh (num_of_Z 1762000000)
             (num_of_Z 1762000001) (lit 0.25) PositionState_default
             (pool_at (lit 0.25)) d E Ha);
      vm_compute; reflexivity.
  - destruct default_scenario_exact as (d & E & Ha & _).
    exists d. split; [exact E |].
    apply (exact fresh (IZR 1762000000) (IZR 1762000001) (lit 0.25)
             PositionState_default (pool_at (lit 0.25)) d E Ha).
    unfold lit. cbn. lra.
Defined.

(** C7: a live cycle whose decision is REBALANCE never gets as far as
    submitting.  [build_rebalance_group] raises at line 408, the [except]
    of the loop ends the cycle, and step 5 is not reached: no entry is
    logged, neither REBALANCE nor a SKIP marked as reverted, while the
    engine keeps the [last_rebalance_time] that [evaluate] set when it
    decided.  The builder was asked for the two products. *)
Theorem live_rebalance_leaves_no_entry (num : Type) (ops : Num num)
    (st : LoopState num) (c : Cycle num) (d : Decision num) :
  let price := current_price (pool_read c) in
  let r := evaluate (engine st) (clock_guard c) (clock_emit c) price
             (position_read c) (pool_read c) in
  fst r = Returns d ->
  action d = REBALANCE ->
  let out := monitoring_cycle false st c in
  entries (fst out) = entries st
  /\ engine (fst out) = snd r
  /\ last_rebalance_time (engine (fst out)) = clock_emit c
  /\ snd out = Some (price * lit 0.82, price * lit 1.22)%num.
Proof.
  intros price r E Ha out.
  assert (Ht : last_rebalance_time (snd r) = clock_emit c).
  { destruct (evaluate_engine (engine st) (clock_guard c) (clock_emit c)
                price (position_read c) (pool_read c))
      as [(d' & _ & _ & Es) | [Hn _]].
    - subst r. rewrite Es. reflexivity.
    - destruct (Hn d E Ha). }
  assert (Hb : bounds_for d price = (price * lit 0.82, price * lit 1.22)%num).
  { apply (evaluate_new_bounds (engine st) (clock_guard c) (clock_emit c)
             price (position_read c) (pool_read c) d E). exact Ha. }
  subst out. unfold monitoring_cycle.
  fold price. fold r. destruct r as [result engine'].
  cbn [fst snd] in *. subst result. rewrite Ha. cbn.
  rewrite Hb. repeat split. exact Ht.
Qed.

(** The scenario at price 0.25, live: the decision is REBALANCE, the log
    stays empty, and the cooldown runs from the decision. *)
Lemma live_rebalance_leaves_no_entry_witness :
  let st := {| engine := fresh (num := float); entries := [] |} in
  let out := monitoring_cycle false st (cycle_at (lit 0.25)) in
  entries (fst out) = []
  /\ last_rebalance_time (engine (fst out)) = num_of_Z 1762000001
  /\ snd out = Some (lit 0.205, lit 0.305).
Proof.
  destruct default_scenario_binary64 as (d & E & Ha & _).
  destruct (live_rebalance_leaves_no_entry float F64
              {| engine := fresh; entries := [] |}
              (cycle_at (lit 0.25)) d E Ha)
    as (He & _ & Ht & Hs).
  cbn zeta. split; [exact He |]. split; [exact Ht |].
  rewrite Hs. vm_compute. reflexivity.
Defined.

End Decisions.
(* ================================================================= *)
(** * The volatility model: the shortcut below the floor *)
(* ================================================================= *)

Section Volatility.

Import Agent AgentSamples AgentSpec.


End Volatility.

(* ================================================================= *)
(** * The vault contract: administration, traces and frames *)
(* ================================================================= *)

Section VaultMore.

Import AegisPosition VaultSamples VaultSpec VaultLedger.
Local Open Scope N_scope.

(** X1.  The three administrative methods are the creator's alone:
    [set_position], [authorize_agent] and [revoke_agent] each run to
    completion exactly when the sender is the creator, whatever the
    arguments and the state, and sent by anyone else, the authorised agent
    included, they leave the state as it was. *)
Theorem administration_is_creator_only (ctx : Context)
    (entry lower upper capital : UInt64) (agent : Account) (s : State) :
  (succeeds (set_position ctx entry lower upper capital s)
   <-> sender ctx = creator_address ctx)
  /\ (succeeds (authorize_agent ctx agent s)
      <-> sender ctx = creator_address ctx)
  /\ (succeeds (revoke_agent ctx s) <-> sender ctx = creator_address ctx)
  /\ (sender ctx <> creator_address ctx ->
      call (set_position ctx entry lower upper capital) s = s
      /\ call (authorize_agent ctx agent) s = s
      /\ call (revoke_agent ctx) s = s).
Proof.
  unfold succeeds, call, set_position, authorize_agent, revoke_agent.
  destruct (bytes_eqb (sender ctx) (creator_address ctx)) eqn:E; cbn.
  - apply bytes_eqb_eq in E.
    repeat split; auto; try discriminate; intros; contradiction.
  - apply bytes_eqb_neq in E.
    repeat split; auto; intros; try contradiction; try congruence.
Qed.

(** X2.  There is one agent at a time, and it is the one the creator
    named last.  After the creator's [authorize_agent(agent)] exactly the
    creator and [agent] pass the test of [trigger_rebalance] and
    [log_decision], so that a previously authorised address no longer does;
    after the creator's [revoke_agent] only the creator passes, and the
    calls of everybody else are rejected. *)
Theorem one_agent_at_a_time (creator_ctx ctx : Context)
    (agent : Account) (s : State) :
  sender creator_ctx = creator_address creator_ctx ->
  let authorized := call (authorize_agent creator_ctx agent) s in
  let revoked := call (revoke_agent creator_ctx) authorized in
  (creator_or_agent ctx authorized = true <->
   sender ctx = creator_address ctx \/ sender ctx = agent)
  /\ (creator_or_agent ctx revoked = true <->
      sender ctx = creator_address ctx)
  /\ (forall new_lower new_upper action,
        sender ctx <> creator_address ctx -> sender ctx <> agent ->
        trigger_rebalance ctx new_lower new_upper authorized = None
        /\ log_decision ctx action authorized = None)
  /\ (forall new_lower new_upper action,
        sender ctx <> creator_address ctx ->
        trigger_rebalance ctx new_lower new_upper revoked = None
        /\ log_decision ctx action revoked = None).
Proof.
  intros Hc authorized revoked.
  assert (Ha : authorized = set_agent agent 1 s).
  { subst authorized. unfold call, authorize_agent.
    apply bytes_eqb_eq in Hc. rewrite Hc. reflexivity. }
  assert (Hr : revoked = set_agent [] 0 authorized).
  { subst revoked. unfold call, revoke_agent.
    apply bytes_eqb_eq in Hc. rewrite Hc. reflexivity. }
  assert (H1 : creator_or_agent ctx authorized = true <->
               sender ctx = creator_address ctx \/ sender ctx = agent).
  { rewrite creator_or_agent_iff, Ha. unfold creator_or_agent_caller. cbn.
    intuition. }
  assert (H2 : creator_or_agent ctx revoked = true <->
               sender ctx = creator_address ctx).
  { rewrite creator_or_agent_iff, Hr. unfold creator_or_agent_caller. cbn.
    intuition; discriminate. }
  split; [exact H1 |]. split; [exact H2 |]. split.
  - intros new_lower new_upper action Hn Hn'.
    assert (E : creator_or_agent ctx authorized = false).
    { destruct (creator_or_agent ctx authorized); [| reflexivity].
      destruct (proj1 H1 eq_refl); contradiction. }
    unfold trigger_rebalance, log_decision. rewrite E. split; reflexivity.
  - intros new_lower new_upper action Hn.
    assert (E : creator_or_agent ctx revoked = false).
    { destruct (creator_or_agent ctx revoked); [| reflexivity].
      destruct Hn. apply H2. reflexivity. }
    unfold trigger_rebalance, log_decision. rewrite E. split; reflexivity.
Qed.

Lemma one_agent_at_a_time_witness :
  creator_or_agent as_agent
    (call (authorize_agent as_creator agent) initialize) = true
  /\ trigger_rebalance as_agent 150 240
       (call (authorize_agent as_creator stranger)
          (call (authorize_agent as_creator agent) initialize)) = None
  /\ log_decision as_agent 1
       (call (revoke_agent as_creator)
          (call (authorize_agent as_creator agent) initialize)) = None.
Proof.
  destruct (one_agent_at_a_time as_creator as_agent agent initialize eq_refl)
    as (Hin & _ & _ & Hrevoked).
  destruct (one_agent_at_a_time as_creator as_agent stranger
              (call (authorize_agent as_creator agent) initialize) eq_refl)
    as (_ & _ & Hreplaced & _).
  split; [| split].
  - apply Hin. right. reflexivity.
  - apply (Hreplaced 150 240 1); vm_compute; discriminate.
  - apply (Hrevoked 150 240 1); vm_compute; discriminate.
Defined.

Lemma at_most_deposited_refl (s : State) : at_most_deposited s s.
Proof. unfold at_most_deposited. repeat split; lia. Qed.

Lemma at_most_deposited_trans (a b c : State) :
  at_most_deposited a b -> at_most_deposited b c -> at_most_deposited a c.
Proof.
  unfold at_most_deposited. intros H1 H2.
  repeat split; try lia; intuition congruence.
Qed.

Lemma apply_without_creator (s : State) (tx : Transaction) :
  sender (fst tx) <> creator_address (fst tx) ->
  at_most_deposited s (apply s tx).
Proof.
  destruct tx as [ctx c]. cbn [fst snd]. intro H.
  apply bytes_eqb_neq in H. unfold apply, call. cbn [fst snd].
  destruct c; cbn [route].
  - unfold set_position. rewrite H. apply at_most_deposited_refl.
  - unfold authorize_agent. rewrite H. apply at_most_deposited_refl.
  - unfold revoke_agent. rewrite H. apply at_most_deposited_refl.
  - unfold trigger_rebalance.
    destruct (creator_or_agent ctx s); cbn; [| apply at_most_deposited_refl].
    destruct (u64_add (total_rebalances s) 1); cbn;
      [| apply at_most_deposited_refl].
    destruct (u64_add (total_decisions s) 1); cbn;
      [| apply at_most_deposited_refl].
    unfold at_most_deposited. cbn. repeat split; lia.
  - unfold deposit.
    destruct (u64_add (deposited_algo s) algo_amount) as [a |] eqn:Ea; cbn;
      [| apply at_most_deposited_refl].
    destruct (u64_add (deposited_usdc s) usdc_amount) as [u |] eqn:Eu; cbn;
      [| apply at_most_deposited_refl].
    destruct (u64_add (total_deposits s) 1); cbn;
      [| apply at_most_deposited_refl].
    apply u64_add_inv in Ea, Eu.
    unfold at_most_deposited. cbn. repeat split; lia.
  - unfold withdraw. rewrite H. apply at_most_deposited_refl.
  - unfold log_decision.
    destruct (creator_or_agent ctx s); cbn; [| apply at_most_deposited_refl].
    destruct (u64_add (total_decisions s) 1); cbn;
      [| apply at_most_deposited_refl].
    unfold at_most_deposited. cbn. repeat split; lia.
Qed.

(** X3.  Whatever sequence of calls is sent to the application by
    senders other than the creator, rejected ones included, the two
    balances never decrease, the withdrawal counter stays, the agent stays
    as authorised or not as it was, and the entry price, the capital and
    the opening time are untouched: such calls can only deposit, move the
    range and add to the decision record. *)
Theorem nothing_leaves_without_the_creator (creator : Account)
    (txs : list Transaction) (s : State) :
  of_application creator txs ->
  none_by creator txs ->
  let s' := replay txs s in
  deposited_algo s <= deposited_algo s'
  /\ deposited_usdc s <= deposited_usdc s'
  /\ total_withdrawals s' = total_withdrawals s
  /\ agent_address s' = agent_address s
  /\ agent_authorized s' = agent_authorized s
  /\ entry_price s' = entry_price s
  /\ capital_usdc s' = capital_usdc s
  /\ open_timestamp s' = open_timestamp s.
Proof.
  intros Happ Hnone. cbn zeta.
  change (at_most_deposited s (replay txs s)).
  revert s. induction txs as [| tx txs IH]; intro s.
  - apply at_most_deposited_refl.
  - inversion Happ as [| ? ? Hc Happ']. inversion Hnone as [| ? ? Hs Hnone'].
    subst. cbn [replay fold_left].
    apply at_most_deposited_trans with (apply s tx).
    + apply apply_without_creator. congruence.
    + apply (IH Happ' Hnone').
Qed.

Lemma nothing_leaves_without_the_creator_witness :
  let s' := replay [(as_agent, Withdraw 1000000 500000);
                    (as_agent, TriggerRebalance 150 240);
                    (as_stranger, Deposit 7 9);
                    (as_agent, AuthorizeAgent stranger);
                    (as_stranger, SetPosition 1 1 1 0)] funded in
  vault_state s' = (5000007, 2000009, 0)
  /\ get_position s' = (0, 150, 240, 0, 0, 1, 1762000040).
Proof.
  pose proof (nothing_leaves_without_the_creator creator
                [(as_agent, Withdraw 1000000 500000);
                 (as_agent, TriggerRebalance 150 240);
                 (as_stranger, Deposit 7 9);
                 (as_agent, AuthorizeAgent stranger);
                 (as_stranger, SetPosition 1 1 1 0)] funded) as H.
  assert (Hin : 5000000 <= 5000007) by (apply H;
    repeat constructor; vm_compute; discriminate).
  split; reflexivity.
Defined.

Lemma apply_consistent (s : State) (tx : Transaction) :
  consistent s -> consistent (apply s tx).
Proof.
  destruct tx as [ctx c]. unfold apply, call. cbn [fst snd].
  intros (Hrd & Hd & Ha & Hu & Hdep & Hw & Hagent).
  destruct c; cbn [route].
  - unfold set_position. destruct (bytes_eqb _ _); cbn;
      unfold consistent; cbn -[UInt64_max]; auto 10.
  - unfold authorize_agent. destruct (bytes_eqb _ _); cbn;
      unfold consistent; cbn -[UInt64_max]; auto 10.
  - unfold revoke_agent. destruct (bytes_eqb _ _); cbn;
      unfold consistent; cbn -[UInt64_max]; auto 10.
  - unfold trigger_rebalance.
    destruct (creator_or_agent ctx s); cbn; [| unfold consistent; auto 10].
    destruct (u64_add (total_rebalances s) 1) as [r |] eqn:Er; cbn;
      [| unfold consistent; auto 10].
    destruct (u64_add (total_decisions s) 1) as [d |] eqn:Ed; cbn;
      [| unfold consistent; auto 10].
    apply u64_add_inv in Er, Ed. unfold consistent. cbn -[UInt64_max].
    repeat split; try lia; auto.
  - unfold deposit.
    destruct (u64_add (deposited_algo s) algo_amount) as [a |] eqn:Ea; cbn;
      [| unfold consistent; auto 10].
    destruct (u64_add (deposited_usdc s) usdc_amount) as [u |] eqn:Eu; cbn;
      [| unfold consistent; auto 10].
    destruct (u64_add (total_deposits s) 1) as [d |] eqn:Ed; cbn;
      [| unfold consistent; auto 10].
    apply u64_add_inv in Ea, Eu, Ed. unfold consistent. cbn -[UInt64_max].
    repeat split; try lia; auto.
  - unfold withdraw.
    destruct (bytes_eqb _ _); cbn; [| unfold consistent; auto 10].
    destruct (algo_amount <=? deposited_algo s) eqn:La; cbn;
      [| unfold consistent; auto 10].
    destruct (usdc_amount <=? deposited_usdc s) eqn:Lu; cbn;
      [| unfold consistent; auto 10].
    apply N.leb_le in La, Lu.
    rewrite (u64_sub_some _ _ La), (u64_sub_some _ _ Lu). cbn.
    destruct (u64_add (total_withdrawals s) 1) as [w |] eqn:Ew; cbn;
      [| unfold consistent; auto 10].
    apply u64_add_inv in Ew. unfold consistent. cbn -[UInt64_max].
    repeat split; try lia; auto.
  - unfold log_decision.
    destruct (creator_or_agent ctx s); cbn; [| unfold consistent; auto 10].
    destruct (u64_add (total_decisions s) 1) as [d |] eqn:Ed; cbn;
      [| unfold consistent; auto 10].
    apply u64_add_inv in Ed. unfold consistent. cbn -[UInt64_max].
    repeat split; try lia; auto.
Qed.

(** X4.  From the zeroed state on, and from any consistent state, every
    sequence of calls keeps the state consistent: no more rebalances than
    decisions are counted, the five counters and balances stay within 64
    bits, and the agent flag is 1, or 0 with no address stored. *)
Theorem counters_stay_consistent (txs : list Transaction) :
  consistent (replay txs initialize)
  /\ (forall s, consistent s -> consistent (replay txs s)).
Proof.
  assert (H : forall s, consistent s -> consistent (replay txs s)).
  { induction txs as [| tx txs IH]; intros s Hs; [exact Hs |].
    cbn [replay fold_left]. apply IH, apply_consistent, Hs. }
  split; [| exact H].
  apply H. unfold consistent. cbn -[UInt64_max]. repeat split; try lia. auto.
Qed.

(** X5.  A deposit can always be taken back.  After a deposit that was
    accepted, the creator's withdrawal of the same two amounts is accepted
    as long as the withdrawal counter is not exhausted; it restores both
    balances and leaves the position alone, and the two counters each show
    one more. *)
Theorem withdraw_undoes_deposit (ctx creator_ctx : Context)
    (algo_amount usdc_amount : UInt64) (s deposited : State) :
  deposit ctx algo_amount usdc_amount s = Some deposited ->
  sender creator_ctx = creator_address creator_ctx ->
  total_withdrawals s < UInt64_max ->
  exists withdrawn,
    withdraw creator_ctx algo_amount usdc_amount deposited = Some withdrawn
    /\ deposited_algo withdrawn = deposited_algo s
    /\ deposited_usdc withdrawn = deposited_usdc s
    /\ total_deposits withdrawn = total_deposits s + 1
    /\ total_withdrawals withdrawn = total_withdrawals s + 1
    /\ get_position withdrawn = get_position s.
Proof.
  intros Hd Hc Hw. unfold deposit in Hd.
  destruct (u64_add (deposited_algo s) algo_amount) as [a |] eqn:Ea;
    [| discriminate].
  destruct (u64_add (deposited_usdc s) usdc_amount) as [u |] eqn:Eu;
    [| discriminate].
  destruct (u64_add (total_deposits s) 1) as [d |] eqn:Ed; [| discriminate].
  apply u64_add_inv in Ea, Eu, Ed.
  destruct Ea as [-> _], Eu as [-> _], Ed as [-> _].
  cbn in Hd. inversion Hd as [E]. clear Hd.
  rewrite (withdraw_passed creator_ctx algo_amount usdc_amount
             (set_vault (deposited_algo s + algo_amount)
                (deposited_usdc s + usdc_amount) (total_deposits s + 1)
                (total_withdrawals s) s) Hc)
    by (cbn; lia).
  cbn [total_withdrawals set_vault]. rewrite u64_add_some by lia. cbn.
  eexists. split; [reflexivity |]. cbn. repeat split; lia.
Qed.

Lemma withdraw_undoes_deposit_witness :
  exists withdrawn,
    withdraw as_creator 7 9 (call (deposit as_stranger 7 9) funded)
    = Some withdrawn
    /\ deposited_algo withdrawn = 5000000
    /\ deposited_usdc withdrawn = 2000000.
Proof.
  destruct (withdraw_undoes_deposit as_stranger as_creator 7 9 funded
              (call (deposit as_stranger 7 9) funded))
    as (w & Hw & Ha & Hu & _);
    [reflexivity | reflexivity | vm_compute; reflexivity |].
  exists w. rewrite Ha, Hu. repeat split. exact Hw.
Defined.

(** X6.  Each of the four methods that anyone or the agent may call
    writes only its own fields, accepted or not: [deposit] and [withdraw]
    leave the position, the agent and the decision record alone (and each
    the other's counter), [trigger_rebalance] leaves the vault, the agent,
    the entry price, the capital and the opening time alone, and
    [log_decision] leaves the position, the vault and the agent alone. *)
Theorem methods_keep_to_their_fields (ctx : Context) (a b : UInt64)
    (s : State) :
  let agent_of s := (agent_address s, agent_authorized s) in
  let vault_of s := (deposited_algo s, deposited_usdc s, total_deposits s,
                     total_withdrawals s) in
  let decisions_of s := (total_decisions s, last_decision_timestamp s,
                         last_decision_action s) in
  (let s' := call (deposit ctx a b) s in
   get_position s' = get_position s /\ agent_of s' = agent_of s
   /\ decisions_of s' = decisions_of s
   /\ total_withdrawals s' = total_withdrawals s)
  /\ (let s' := call (withdraw ctx a b) s in
      get_position s' = get_position s /\ agent_of s' = agent_of s
      /\ decisions_of s' = decisions_of s
      /\ total_deposits s' = total_deposits s)
  /\ (let s' := call (trigger_rebalance ctx a b) s in
      vault_of s' = vault_of s /\ agent_of s' = agent_of s
      /\ entry_price s' = entry_price s /\ capital_usdc s' = capital_usdc s
      /\ open_timestamp s' = open_timestamp s)
  /\ (let s' := call (log_decision ctx a) s in
      get_position s' = get_position s /\ vault_of s' = vault_of s
      /\ agent_of s' = agent_of s).
Proof.
  cbn zeta. unfold call, get_position.
  split; [| split; [| split]].
  - destruct (deposit ctx a b s) as [s' |] eqn:E; [| auto].
    unfold deposit, bind, ret in E.
    repeat match type of E with
           | context [match ?x with _ => _ end] => destruct x; try discriminate
           end.
    inversion E. cbn. auto.
  - destruct (withdraw ctx a b s) as [s' |] eqn:E; [| auto].
    unfold withdraw, bind, ret in E.
    repeat match type of E with
           | context [match ?x with _ => _ end] => destruct x; try discriminate
           end.
    inversion E. cbn. auto.
  - destruct (trigger_rebalance ctx a b s) as [s' |] eqn:E; [| auto 6].
    unfold trigger_rebalance, bind, ret in E.
    repeat match type of E with
           | context [match ?x with _ => _ end] => destruct x; try discriminate
           end.
    inversion E. cbn. auto 6.
  - destruct (log_decision ctx a s) as [s' |] eqn:E; [| auto].
    unfold log_decision, bind, ret in E.
    repeat match type of E with
           | context [match ?x with _ => _ end] => destruct x; try discriminate
           end.
    inversion E. cbn. auto.
Qed.

(** X7.  [log_decision] does not check the action code: sent by the
    creator or the authorised agent while the decision counter is not
    exhausted, it is accepted for every [uint64], not only for the four
    codes 0 to 3, stores the code and the time, counts one decision and
    leaves the rebalance counter alone. *)
Theorem log_decision_takes_any_code (ctx : Context) (action : UInt64)
    (s : State) :
  creator_or_agent_caller ctx s ->
  total_decisions s < UInt64_max ->
  exists s',
    log_decision ctx action s = Some s'
    /\ last_decision_action s' = action
    /\ total_decisions s' = total_decisions s + 1
    /\ last_decision_timestamp s' = latest_timestamp ctx
    /\ total_rebalances s' = total_rebalances s.
Proof.
  intros Hauth Hd. apply creator_or_agent_iff in Hauth.
  unfold log_decision. rewrite Hauth. cbn.
  rewrite u64_add_some by lia. cbn.
  eexists. split; [reflexivity |]. cbn. repeat split.
Qed.

Lemma log_decision_takes_any_code_witness :
  exists s',
    log_decision as_agent 99 funded = Some s'
    /\ last_decision_action s' = 99.
Proof.
  destruct (log_decision_takes_any_code as_agent 99 funded)
    as (s' & Hs & Ha & _).
  - right. split; reflexivity.
  - vm_compute. reflexivity.
  - exists s'. split; assumption.
Defined.

End VaultMore.

(* ================================================================= *)
(** * The sample window and the log slice *)
(* ================================================================= *)

Section Windows.

Import Agent AgentIO.

Lemma slice_from_last {A} (m : Z) (l : list A) :
  (1 <= m)%Z ->
  slice_from (- m) l = skipn (List.length l - Z.to_nat m) l.
Proof.
  intro Hm. unfold slice_from.
  replace (- m <? 0)%Z with true by (symmetry; apply Z.ltb_lt; lia).
  f_equal. lia.
Qed.

Lemma slice_from_all {A} (m : Z) (l : list A) :
  (Z.of_nat (List.length l) <= m)%Z -> slice_from (- m) l = l.
Proof.
  intro Hm. unfold slice_from.
  destruct (- m <? 0)%Z eqn:E.
  - replace (Z.to_nat _) with 0%nat by lia. reflexivity.
  - apply Z.ltb_ge in E. replace (Z.to_nat _) with 0%nat by lia. reflexivity.
Qed.

Lemma slice_from_length {A} (m : Z) (l : list A) :
  (1 <= m)%Z ->
  List.length (slice_from (- m) l) = Nat.min (Z.to_nat m) (List.length l).
Proof.
  intro Hm. rewrite slice_from_last by exact Hm.
  rewrite length_skipn. lia.
Qed.

Lemma slice_from_app {A} (m : Z) (l q : list A) :
  (1 <= m)%Z ->
  slice_from (- m) (slice_from (- m) l ++ q) = slice_from (- m) (l ++ q).
Proof.
  intro Hm. rewrite !slice_from_last by exact Hm.
  rewrite !skipn_app, !length_app, !length_skipn, skipn_skipn.
  f_equal; f_equal; lia.
Qed.

Context {num : Type} {ops : Num num}.

Lemma update_keeps_last (v : VolatilityModel num) (price : num) :
  (1 <= window v * 90)%Z ->
  price_history (update v price)
  = slice_from (- (window v * 90)) (price_history v ++ [price])
  /\ window (update v price) = window v.
Proof.
  intro Hm. unfold update.
  destruct (_ <? _)%Z eqn:E; cbn; split; try reflexivity.
  apply Z.ltb_ge in E. symmetry. apply slice_from_all. exact E.
Qed.

(** X8.  The sample window is first in, first out: with [window >= 1], whatever
    prices are fed, the model holds the last [window * 90] of the samples it
    had followed by the new ones, in arrival order, and never more than
    [window * 90] of them; [window] itself never changes. *)
Theorem window_is_fifo (v : VolatilityModel num) (prices : list num) :
  (1 <= window v)%Z ->
  prices <> [] ->
  let fed := feed v prices in
  price_history fed
  = slice_from (- (window v * 90)) (price_history v ++ prices)
  /\ window fed = window v
  /\ (Z.of_nat (List.length (price_history fed)) <= window v * 90)%Z.
Proof.
  intros Hw Hne. cbn zeta.
  assert (Hm : (1 <= window v * 90)%Z) by lia. clear Hw.
  revert v Hm Hne.
  induction prices as [| p ps IH]; intros v Hm Hne; [contradiction |].
  cbn [feed fold_left].
  destruct (update_keeps_last v p Hm) as [Hh Hwin].
  destruct ps as [| p' ps].
  - cbn [fold_left]. rewrite Hh, Hwin. repeat split.
    rewrite slice_from_length by exact Hm. lia.
  - assert (Hm' : (1 <= window (update v p) * 90)%Z) by (rewrite Hwin; lia).
    destruct (IH (update v p) Hm' ltac:(discriminate)) as (IHh & IHw & IHl).
    unfold feed in IHh, IHw, IHl.
    rewrite IHw, Hwin. rewrite Hwin in IHh, IHl.
    split; [| split; [reflexivity | exact IHl]].
    rewrite IHh, Hh, slice_from_app by exact Hm.
    rewrite <- app_assoc. reflexivity.
Qed.

(** X9.  Outside [window >= 1] the eviction in [update] does not bound the
    window: with [window = 0] the slice [[-0:]] is the whole list, so
    nothing is ever evicted; with a negative [window] every update leaves
    the history empty. *)
Theorem window_edge_cases (v : VolatilityModel num) (prices : list num) :
  (window v = 0%Z ->
   price_history (feed v prices) = price_history v ++ prices)
  /\ ((window v < 0)%Z -> prices <> [] ->
      (Z.of_nat (List.length (price_history v)) < - (window v * 90))%Z ->
      price_history (feed v prices) = []).
Proof.
  split.
  - revert v. induction prices as [| p ps IH]; intros v Hw.
    + cbn. rewrite app_nil_r. reflexivity.
    + cbn [feed fold_left].
      assert (E : update v p
                  = {| window := window v;
                       price_history := price_history v ++ [p] |}).
      { unfold update. replace (window v * 90)%Z with 0%Z by lia.
        replace (0 <? _)%Z with true
          by (symmetry; apply Z.ltb_lt; rewrite length_app; cbn; lia).
        f_equal. unfold slice_from. cbn [Z.opp Z.ltb Z.compare].
        replace (Z.to_nat _) with 0%nat by lia. reflexivity. }
      fold (feed (update v p) ps). rewrite IH by (rewrite E; exact Hw).
      rewrite E. cbn. rewrite <- app_assoc. reflexivity.
  - revert v. induction prices as [| p ps IH]; intros v Hw Hne Hl;
      [contradiction |].
    cbn [feed fold_left].
    assert (E : update v p = {| window := window v; price_history := [] |}).
    { unfold update.
      replace (_ <? _)%Z with true by (symmetry; apply Z.ltb_lt; lia).
      f_equal. unfold slice_from.
      replace (- (window v * 90) <? 0)%Z with false
        by (symmetry; apply Z.ltb_ge; lia).
      apply skipn_all2. rewrite length_app in *. cbn [List.length] in *. lia. }
    destruct ps as [| p' ps]; [rewrite E; reflexivity |].
    fold (feed (update v p) (p' :: ps)).
    apply IH; try rewrite E; cbn; try lia. discriminate.
Qed.

End Windows.

Section WindowsRun.

Import Agent AgentIO.

(** A model of one hour that is full: the oldest sample goes, the newest
    comes last. *)
Lemma window_is_fifo_witness :
  let full : VolatilityModel float :=
    {| window := 1; price_history := lit 0.17 :: repeat (lit 0.18) 89 |} in
  price_history (feed full [lit 0.19; lit 0.2])
  = repeat (lit 0.18) 88 ++ [lit 0.19; lit 0.2].
Proof.
  destruct (window_is_fifo (num := float)
              {| window := 1;
                 price_history := lit 0.17 :: repeat (lit 0.18) 89 |}
              [lit (num := float) 0.19; lit 0.2]) as (H & _).
  - cbn. lia.
  - discriminate.
  - cbn zeta. rewrite H. vm_compute. reflexivity.
Defined.

Lemma window_edge_cases_witness :
  price_history (feed {| window := 0; price_history := [lit 0.17] |}
                      [lit (num := float) 0.18; lit 0.19])
  = [lit 0.17; lit 0.18; lit 0.19]
  /\ price_history (feed {| window := -1; price_history := [] |}
                         [lit (num := float) 0.18; lit 0.19]) = [].
Proof.
  split.
  - apply (proj1 (window_edge_cases (num := float)
                    {| window := 0; price_history := [lit 0.17] |}
                    [lit (num := float) 0.18; lit 0.19])).
    reflexivity.
  - apply (proj2 (window_edge_cases (num := float)
                    {| window := -1; price_history := [] |}
                    [lit (num := float) 0.18; lit 0.19]));
      cbn; (lia || discriminate).
Defined.

End WindowsRun.

Section LogSlice.

Import Agent AgentIO.

(** X10.  [get_recent(n)] gives the last [n] entries in log order when
    [1 <= n <= len], and the whole log when [n >= len]; asking for the last
    0 entries gives the whole log too. *)
Theorem get_recent_slices {E} (entries : list E) (n : Z) :
  ((1 <= n)%Z ->
   get_recent entries n = skipn (List.length entries - Z.to_nat n) entries
   /\ List.length (get_recent entries n)
      = Nat.min (Z.to_nat n) (List.length entries))
  /\ ((Z.of_nat (List.length entries) <= n)%Z -> get_recent entries n = entries)
  /\ get_recent entries 0 = entries.
Proof.
  unfold get_recent. split; [| split].
  - intro Hn. split; [apply slice_from_last | apply slice_from_length];
      exact Hn.
  - apply slice_from_all.
  - unfold slice_from. cbn [Z.opp Z.ltb Z.compare].
    replace (Z.to_nat _) with 0%nat by lia. reflexivity.
Qed.

Lemma get_recent_slices_witness :
  get_recent [1; 2; 3; 4; 5]%Z 2 = [4; 5]%Z
  /\ get_recent [1; 2; 3]%Z 20 = [1; 2; 3]%Z.
Proof.
  split.
  - rewrite (proj1 (proj1 (get_recent_slices [1; 2; 3; 4; 5]%Z 2)
                      ltac:(lia))).
    reflexivity.
  - apply (proj1 (proj2 (get_recent_slices [1; 2; 3]%Z 20))). cbn. lia.
Defined.

End LogSlice.

(* ================================================================= *)
(** * The decision engine: the whole table *)
(* ================================================================= *)

Section Table.

Import Agent AgentIO.
Context {num : Type} {ops : Num num}.
Local Open Scope num_scope.

Variables (self : DecisionEngine num) (now stamp price : num).
Variables (position : PositionState num) (pool_state : PoolState num).

Let seen : DecisionEngine num :=
  {| vol_model := update (vol_model self) price;
     last_rebalance_time := last_rebalance_time self |}.

Let cost : num := estimate_swap_cost (capital_usdc position).

Let daily_fee : num :=
  capital_usdc position * fee_rate pool_state * lit 1.0.

Let weekly_fee : num := daily_fee * num_of_Z 7.

Let nearest : num :=
  pymin (boundary_distance price (lower_bound position))
        (boundary_distance price (upper_bound position)).

Let projected_weekly : num :=
  capital_usdc position * fee_rate pool_state * num_of_Z 7.

Let prediction : Raises num :=
  predict_hours_in_range (update (vol_model self) price) price
    (lower_bound position) (upper_bound position).

(** X11.  What a call comes to, from its inputs and the prediction of line
    250.  It raises exactly when neither guard fires and the prediction
    raises, and then raises the same exception; it returns exactly when a
    guard fires or the prediction returns.  Of a returned decision: SKIP
    means a running cooldown, or a price outside range and buffer whose
    projected weekly fees do not exceed the cost threshold; HOLD means no
    cooldown and either a price in the buffer zone outside the range, or a
    price inside the range with at least [MIN_HOURS_IN_RANGE] predicted;
    ALERT means no cooldown, a price inside the range, fewer hours
    predicted, and a net benefit that does not exceed the threshold;
    REBALANCE means no cooldown and a benefit above the threshold, net of
    the cost inside the range (with fewer hours predicted), gross outside
    range and buffer. *)
Theorem decision_table :
  let r := fst (evaluate self now stamp price position pool_state) in
  let cooling := cooldown_active self now in
  let inside := in_range_of price position in
  let buffered := negb inside && (nearest <? buffer_frac) in
  let soon := fun hours : num => hours <? MIN_HOURS_IN_RANGE in
  let pays_inside := weekly_fee - cost >? cost * COST_BENEFIT_MULTIPLIER in
  let pays_outside := projected_weekly >? cost * COST_BENEFIT_MULTIPLIER in
  (forall e, r = Raised e <->
     cooling = false /\ buffered = false /\ prediction = Raised e)
  /\ ((exists d, r = Returns d) <->
      cooling = true \/ buffered = true
      \/ exists hours, prediction = Returns hours)
  /\ (forall d, r = Returns d ->
      (action d = SKIP <->
       cooling = true
       \/ (inside = false /\ buffered = false /\ pays_outside = false))
      /\ (action d = HOLD <->
          cooling = false
          /\ (buffered = true
              \/ (inside = true
                  /\ exists hours,
                       prediction = Returns hours /\ soon hours = false)))
      /\ (action d = ALERT <->
          cooling = false /\ inside = true
          /\ (exists hours, prediction = Returns hours /\ soon hours = true)
          /\ pays_inside = false)
      /\ (action d = REBALANCE <->
          cooling = false
          /\ ((inside = true
               /\ (exists hours,
                     prediction = Returns hours /\ soon hours = true)
               /\ pays_inside = true)
              \/ (inside = false /\ buffered = false
                  /\ pays_outside = true)))).
Proof.
  cbn zeta.
  destruct (cooldown_active self now) eqn:Hc.
  { rewrite (evaluate_cooling _ _ stamp price position pool_state Hc).
    cbn [fst].
    split; [intro e; split; [discriminate | intros (F & _); discriminate] |].
    split; [split; [auto | intros _; eexists; reflexivity] |].
    intros d [= <-]. cbn [action].
    repeat split; intros; try discriminate; intuition discriminate. }
  destruct (in_range_of price position) eqn:Hr; cbn [negb andb].
  - (* inside the range *)
    destruct prediction as [hours | e] eqn:Hp.
    + rewrite (evaluate_in_range _ _ stamp _ _ pool_state hours Hc Hr Hp).
      fold cost daily_fee weekly_fee.
      assert (Hsoon : forall b,
                 (exists hours0 : num,
                    Returns hours = Returns hours0
                    /\ (hours0 <? MIN_HOURS_IN_RANGE) = b)
                 <-> (hours <? MIN_HOURS_IN_RANGE) = b).
      { intro b. split.
        - intros (hours0 & [= <-] & H). exact H.
        - intro H. exists hours. split; [reflexivity | exact H]. }
      split; [intro e; split;
              [destruct (hours <? _); [destruct (weekly_fee - cost >? _) |];
               intro F; cbn [fst] in F; discriminate F
              | intros (_ & _ & F); discriminate F] |].
      split; [split; [intros _; right; right; eexists; reflexivity
                     | intros _;
                       destruct (hours <? _);
                       [destruct (weekly_fee - cost >? _) |];
                       eexists; reflexivity] |].
      intros d Ed. rewrite !Hsoon.
      destruct (hours <? MIN_HOURS_IN_RANGE);
        [destruct (weekly_fee - cost >? cost * COST_BENEFIT_MULTIPLIER) |];
        cbn [fst] in Ed; injection Ed as <-; cbn [action];
        repeat split; intros; try discriminate; intuition discriminate.
    + rewrite (evaluate_raising _ _ stamp _ _ pool_state e Hc);
        [| rewrite Hr; reflexivity | exact Hp].
      cbn [fst].
      split; [intro e'; split;
              [intros [= <-]; auto | intros (_ & _ & [= <-]); reflexivity] |].
      split; [split; [intros (d & F); discriminate F
                     | intros [F | [F | (hours & F)]]; discriminate F] |].
      intros d F. discriminate F.
  - (* outside the range *)
    destruct (nearest <? buffer_frac) eqn:Hb.
    { rewrite (evaluate_buffered _ _ stamp _ _ pool_state Hc Hr Hb).
      cbn [fst].
      split; [intro e; split;
              [discriminate | intros (_ & F & _); discriminate] |].
      split; [split; [auto | intros _; eexists; reflexivity] |].
      intros d [= <-]. cbn [action].
      repeat split; intros; try discriminate; intuition discriminate. }
    destruct prediction as [hours | e] eqn:Hp.
    + rewrite (evaluate_outside _ _ stamp _ _ pool_state hours Hc Hr Hb Hp).
      fold cost projected_weekly.
      split; [intro e; split;
              [destruct (projected_weekly >? _); intro F; cbn [fst] in F;
               discriminate F
              | intros (_ & _ & F); discriminate F] |].
      split; [split; [intros _; right; right; eexists; reflexivity
                     | intros _; destruct (projected_weekly >? _);
                       eexists; reflexivity] |].
      intros d Ed.
      destruct (projected_weekly >? cost * COST_BENEFIT_MULTIPLIER);
        cbn [fst] in Ed; injection Ed as <-; cbn [action];
        repeat split; intros; try discriminate; intuition discriminate.
    + rewrite (evaluate_raising _ _ stamp _ _ pool_state e Hc);
        [| rewrite Hr; exact Hb | exact Hp].
      cbn [fst].
      split; [intro e'; split;
              [intros [= <-]; auto | intros (_ & _ & [= <-]); reflexivity] |].
      split; [split; [intros (d & F); discriminate F
                     | intros [F | [F | (hours & F)]]; discriminate F] |].
      intros d F. discriminate F.
Qed.

(** With fewer than ten samples after the update the prediction is the
    fixed 12 hours, so a price inside the range is held, provided 12 is not
    below [MIN_HOURS_IN_RANGE] in the arithmetic at hand. *)
Lemma evaluate_cold_start :
  (lit 12.0 <? MIN_HOURS_IN_RANGE) = false ->
  (List.length (price_history (vol_model self)) < 9)%nat ->
  cooldown_active self now = false ->
  in_range_of price position = true ->
  evaluate self now stamp price position pool_state =
  (Returns
     {| action := HOLD;
        reason := {| message := InRange (lit 12.0) daily_fee;
                     appended := EmptyString |};
        fee_projection := weekly_fee;
        swap_cost := cost;
        hours_in_range := lit 12.0;
        confidence := lit 0.9;
        new_lower := None; new_upper := None |}, seen).
Proof.
  intros H12 Hn Hc Hr.
  rewrite (evaluate_in_range _ _ stamp _ _ pool_state (lit 12.0) Hc Hr
             (prediction_cold_start self price position Hn)).
  rewrite H12. reflexivity.
Qed.

End Table.

Section ColdStart.

Import Agent AgentIO AgentSamples.

(** X12.  During its first nine calls an engine that is not cooling down holds
    every price inside the range, with the default prediction of 12 hours:
    the volatility model is not consulted before it has ten samples, and
    nothing is squared.  So it is in binary64, whatever the C library's
    [pow], and in exact arithmetic. *)
Theorem cold_start_holds :
  (forall (pow2 : float -> Raises float)
          (self : DecisionEngine float) (now stamp price : float)
          (position : PositionState float) (pool_state : PoolState float),
      (List.length (price_history (vol_model self)) < 9)%nat ->
      cooldown_active self now = false ->
      in_range_of price position = true ->
      let r := evaluate (ops := F64_with pow2) self now stamp price position
                 pool_state in
      exists d,
        fst r = Returns d
        /\ action d = HOLD
        /\ hours_in_range d = lit 12.0
        /\ last_rebalance_time (snd r) = last_rebalance_time self)
  /\ (forall (self : DecisionEngine R) (now stamp price : R)
             (position : PositionState R) (pool_state : PoolState R),
      (List.length (price_history (vol_model self)) < 9)%nat ->
      cooldown_active self now = false ->
      in_range_of price position = true ->
      let r := evaluate self now stamp price position pool_state in
      exists d,
        fst r = Returns d
        /\ action d = HOLD
        /\ hours_in_range d = lit 12.0
        /\ last_rebalance_time (snd r) = last_rebalance_time self).
Proof.
  split.
  - intros pow2 self now stamp price position pool_state Hn Hc Hr.
    rewrite (evaluate_cold_start (ops := F64_with pow2) self now stamp price
               position pool_state);
      try assumption; [| vm_compute; reflexivity].
    eexists. cbn. repeat split.
  - intros self now stamp price position pool_state Hn Hc Hr.
    rewrite (evaluate_cold_start self now stamp price position pool_state);
      try assumption.
    + eexists. cbn. repeat split.
    + apply Rltb_ge. unfold MIN_HOURS_IN_RANGE, lit. cbn. lra.
Qed.

Lemma cold_start_holds_witness :
  exists d,
    fst (evaluate (fresh (num := float))
           (num_of_Z 1762000000) (num_of_Z 1762000001) (lit 0.18)
           PositionState_default (pool_at (lit 0.18))) = Returns d
    /\ action d = HOLD.
Proof.
  destruct (proj1 cold_start_holds float_pow2 fresh (num_of_Z 1762000000)
              (num_of_Z 1762000001) (lit 0.18) PositionState_default
              (pool_at (lit 0.18))) as (d & E & Ha & _);
    [cbn; lia | vm_compute; reflexivity | vm_compute; reflexivity |].
  exists d. split; [exact E | exact Ha].
Defined.

(** A position of one dollar inside the range, after nine swinging samples:
    the boundary is near, the benefit too small. *)
Lemma decision_table_witness :
  let poor : PositionState float :=
    {| entry_price := lit 0.172; lower_bound := lit 0.140;
       upper_bound := lit 0.220; capital_usdc := lit 1.0;
       total_rebalances := 0; open_timestamp := 0 |} in
  exists d,
    fst (evaluate after_swings
           (num_of_Z 1762000000) (num_of_Z 1762000001) (lit 0.141)
           poor (pool_at (lit 0.141))) = Returns d
    /\ action d = ALERT.
Proof.
  intro poor.
  assert (E : exists d,
             fst (evaluate after_swings
                    (num_of_Z 1762000000) (num_of_Z 1762000001) (lit 0.141)
                    poor (pool_at (lit 0.141))) = Returns d)
    by (eexists; vm_compute; reflexivity).
  destruct E as (d & E). exists d. split; [exact E |].
  destruct (decision_table (num := float) after_swings
              (num_of_Z 1762000000) (num_of_Z 1762000001) (lit 0.141)
              poor (pool_at (lit 0.141))) as (_ & _ & rows).
  destruct (rows d E) as (_ & _ & alert & _).
  apply alert. vm_compute.
  split; [reflexivity |]. split; [reflexivity |].
  split; [eexists; split; reflexivity | reflexivity].
Defined.

End ColdStart.

(* ================================================================= *)
(** * The monitoring loop *)
(* ================================================================= *)

Section Loop.

Import Agent AgentIO.
Context {num : Type} {ops : Num num}.
Local Open Scope num_scope.

Lemma cooldown_active_by_time (e e' : DecisionEngine num) (now : num) :
  last_rebalance_time e = last_rebalance_time e' ->
  cooldown_active e now = cooldown_active e' now.
Proof. intro H. unfold cooldown_active. rewrite H. reflexivity. Qed.

(** The loop body with the builder's answer put in: a live REBALANCE cycle
    ends at the builder. *)
Lemma monitoring_cycle_unfold (dry_run : bool) (st : LoopState num)
    (c : Cycle num) :
  monitoring_cycle dry_run st c =
  let price := current_price (pool_read c) in
  let engine' := snd (decided st c) in
  match fst (decided st c) with
  | Raised _ => ({| engine := engine'; entries := entries st |}, None)
  | Returns decision =>
      if Action_eqb (action decision) REBALANCE && negb dry_run then
        ({| engine := engine'; entries := entries st |},
         Some (bounds_for decision price))
      else
        ({| engine := engine';
            entries := log (entries st) (clock_log c) decision price None |},
         None)
  end.
Proof.
  unfold monitoring_cycle, decided.
  destruct (evaluate _ _ _ _ _ _) as [[decision | e] engine']; reflexivity.
Qed.

Lemma Action_eqb_eq (a b : Action) : Action_eqb a b = true <-> a = b.
Proof. destruct a, b; cbn; split; intro H; congruence. Qed.

(** X13.  One cycle and the log.  The engine is left as [evaluate] left it,
    whatever happens next.  When [evaluate] raises, nothing is logged and
    no group is asked for.  When it returns REBALANCE in a live cycle, the
    builder is asked for [price * 0.82] and [price * 1.22], and nothing is
    logged, because the builder raises.  In every other case the decision
    is logged as returned, with the pool's price, the clock's integer time
    and no execution id, and no group is asked for.  So a cycle adds at
    most one entry, never one with an execution id, and in live mode never
    one that says REBALANCE. *)
Theorem one_cycle_one_entry (dry_run : bool) (st : LoopState num)
    (c : Cycle num) :
  let price := current_price (pool_read c) in
  let result := fst (decided st c) in
  let after := fst (monitoring_cycle dry_run st c) in
  let asked := snd (monitoring_cycle dry_run st c) in
  engine after = snd (decided st c)
  /\ (forall e, result = Raised e ->
      entries after = entries st /\ asked = None)
  /\ (forall d, result = Returns d ->
      (action d = REBALANCE -> dry_run = false ->
       entries after = entries st
       /\ asked = Some (price * lit 0.82, price * lit 1.22))
      /\ (action d <> REBALANCE \/ dry_run = true ->
          entries after
          = entries st ++ [ {| log_timestamp := num_int (clock_log c);
                               log_price := price;
                               log_action := action d;
                               log_reason := reason d;
                               log_tx_id := None |} ]
          /\ asked = None))
  /\ (exists new,
        entries after = entries st ++ new
        /\ (List.length new <= 1)%nat
        /\ Forall (fun e => log_tx_id e = None
                            /\ appended (log_reason e) = EmptyString
                            /\ (dry_run = false -> log_action e <> REBALANCE))
                  new).
Proof.
  cbn zeta. rewrite monitoring_cycle_unfold. cbn zeta.
  pose proof (evaluate_new_bounds (engine st) (clock_guard c) (clock_emit c)
                (current_price (pool_read c)) (position_read c)
                (pool_read c)) as Hb.
  pose proof (evaluate_reason_plain (engine st) (clock_guard c)
                (clock_emit c) (current_price (pool_read c))
                (position_read c) (pool_read c)) as Hplain.
  fold (decided st c) in Hb, Hplain.
  destruct (fst (decided st c)) as [d | e].
  2: { cbn [fst snd engine entries].
       split; [reflexivity |]. split; [auto |].
       split; [intros d F; discriminate F |].
       exists []. rewrite app_nil_r. repeat split; [cbn; lia | constructor]. }
  specialize (Hb d eq_refl) as (_ & _ & Hb).
  specialize (Hplain d eq_refl).
  pose proof (Action_eqb_eq (action d) REBALANCE) as Ea.
  destruct (Action_eqb (action d) REBALANCE); destruct dry_run;
    cbn [negb andb fst snd engine entries].
  - (* dry run, REBALANCE *)
    split; [reflexivity |]. split; [intros e F; discriminate F |].
    split.
    + intros d' [= <-]. split; [intros _ F; discriminate F |].
      intros _. split; reflexivity.
    + eexists. split; [reflexivity |]. split; [cbn; lia |].
      repeat constructor; [exact Hplain | intro F; discriminate F].
  - (* live, REBALANCE *)
    split; [reflexivity |]. split; [intros e F; discriminate F |].
    split.
    + intros d' [= <-]. split.
      * intros _ _. split; [reflexivity |]. rewrite Hb; [reflexivity |].
        apply Ea. reflexivity.
      * intros [N | F]; [| discriminate F].
        exfalso. apply N, Ea. reflexivity.
    + exists []. rewrite app_nil_r. repeat split; [cbn; lia | constructor].
  - (* dry run, another action *)
    assert (Hn : action d <> REBALANCE)
      by (intro F; apply Ea in F; discriminate F).
    split; [reflexivity |]. split; [intros e F; discriminate F |].
    split.
    + intros d' [= <-]. split; [intro F; contradiction |].
      intros _. split; reflexivity.
    + eexists. split; [reflexivity |]. split; [cbn; lia |].
      repeat constructor; [exact Hplain | intro F; discriminate F].
  - (* live, another action *)
    assert (Hn : action d <> REBALANCE)
      by (intro F; apply Ea in F; discriminate F).
    split; [reflexivity |]. split; [intros e F; discriminate F |].
    split.
    + intros d' [= <-]. split; [intro F; contradiction |].
      intros _. split; reflexivity.
    + eexists. split; [reflexivity |]. split; [cbn; lia |].
      repeat constructor; [exact Hplain | intros _; exact Hn].
Qed.

Lemma monitoring_run_step (dry_run : bool) (st : LoopState num)
    (asked : list (num * num)) (c : Cycle num) (cycles : list (Cycle num)) :
  fold_left (monitoring_step dry_run) (c :: cycles) (st, asked)
  = fold_left (monitoring_step dry_run) cycles
      (fst (monitoring_cycle dry_run st c),
       asked ++ match snd (monitoring_cycle dry_run st c) with
                | Some b => [b]
                | None => []
                end).
Proof.
  cbn [fold_left monitoring_step].
  destruct (monitoring_cycle dry_run st c). reflexivity.
Qed.

(** What the loop adds to the log and asks of the builder while a
    property [P] of the loop state holds that every cycle keeps, when every
    cycle logs an entry. *)
Lemma monitoring_run_invariant (dry_run : bool)
    (P : LoopState num -> Prop) (Q : LogEntry num -> Prop)
    (cycles : list (Cycle num)) :
  (forall st c, P st -> In c cycles ->
     P (fst (monitoring_cycle dry_run st c))
     /\ snd (monitoring_cycle dry_run st c) = None
     /\ exists e, entries (fst (monitoring_cycle dry_run st c))
                  = entries st ++ [e] /\ Q e) ->
  forall st asked, P st ->
    let out := fold_left (monitoring_step dry_run) cycles (st, asked) in
    P (fst out)
    /\ snd out = asked
    /\ exists new, entries (fst out) = entries st ++ new
                   /\ List.length new = List.length cycles
                   /\ Forall Q new.
Proof.
  induction cycles as [| c cycles IH]; intros Hstep st asked HP.
  - cbn. split; [exact HP |]. split; [reflexivity |].
    exists []. rewrite app_nil_r. repeat split. constructor.
  - rewrite monitoring_run_step.
    destruct (Hstep st c HP (or_introl eq_refl)) as (HP' & Hnone & e & He & HQ).
    rewrite Hnone, app_nil_r.
    destruct (IH (fun st c HP Hin => Hstep st c HP (or_intror Hin))
                (fst (monitoring_cycle dry_run st c)) asked HP')
      as (HP'' & Hasked & new & Hnew & Hlen & HQs).
    split; [exact HP'' |]. split; [exact Hasked |].
    exists (e :: new). rewrite Hnew, He, <- app_assoc. cbn.
    repeat split; [lia | constructor; assumption].
Qed.

(** The same when a cycle may log nothing. *)
Lemma monitoring_run_at_most (dry_run : bool) (Q : LogEntry num -> Prop)
    (cycles : list (Cycle num)) :
  (forall st c,
     snd (monitoring_cycle dry_run st c) = None
     /\ exists new, entries (fst (monitoring_cycle dry_run st c))
                    = entries st ++ new
                    /\ (List.length new <= 1)%nat /\ Forall Q new) ->
  forall st asked,
    let out := fold_left (monitoring_step dry_run) cycles (st, asked) in
    snd out = asked
    /\ exists new, entries (fst out) = entries st ++ new
                   /\ (List.length new <= List.length cycles)%nat
                   /\ Forall Q new.
Proof.
  intro Hstep. induction cycles as [| c cycles IH]; intros st asked.
  - cbn. split; [reflexivity |].
    exists []. rewrite app_nil_r. repeat split; [cbn; lia | constructor].
  - rewrite monitoring_run_step.
    destruct (Hstep st c) as (Hnone & one & He & Hl & HQ).
    rewrite Hnone, app_nil_r.
    destruct (IH (fst (monitoring_cycle dry_run st c)) asked)
      as (Hasked & new & Hnew & Hlen & HQs).
    split; [exact Hasked |].
    exists (one ++ new). rewrite Hnew, He, <- app_assoc.
    split; [reflexivity |]. rewrite length_app. cbn [List.length].
    split; [lia | apply Forall_app; split; assumption].
Qed.

(** The window after a call holds at most one sample more. *)
Lemma update_length (v : VolatilityModel num) (price : num) :
  (List.length (price_history (update v price))
   <= S (List.length (price_history v)))%nat.
Proof.
  unfold update. destruct (_ <? _)%Z; cbn [price_history].
  - unfold slice_from. rewrite length_skipn, length_app. cbn. lia.
  - rewrite length_app. cbn. lia.
Qed.

(** What the engine's window is after a cycle, and that the cycle's
    [evaluate] returns while the window is short. *)
Lemma decided_window (st : LoopState num) (c : Cycle num) :
  vol_model (snd (decided st c))
  = update (vol_model (engine st)) (current_price (pool_read c)).
Proof.
  unfold decided.
  destruct (evaluate_engine (engine st) (clock_guard c) (clock_emit c)
              (current_price (pool_read c)) (position_read c) (pool_read c))
    as [(d & _ & _ & E) | [_ E]]; rewrite E; reflexivity.
Qed.

Lemma decided_cold_start (st : LoopState num) (c : Cycle num) :
  (List.length (price_history (vol_model (engine st))) < 9)%nat ->
  exists d, fst (decided st c) = Returns d.
Proof.
  intro Hn. unfold decided.
  destruct (evaluate_outcome (engine st) (clock_guard c) (clock_emit c)
              (current_price (pool_read c)) (position_read c) (pool_read c))
    as [(e & _ & _ & _ & Hp) | [(d & E & _) | (d & E & _)]].
  - rewrite (prediction_cold_start _ _ _ Hn) in Hp. discriminate Hp.
  - exists d. cbn zeta in E. rewrite E. reflexivity.
  - exists d. cbn zeta in E. rewrite E. reflexivity.
Qed.

(** One dry cycle: no group, at most one entry, as [evaluate] worded it. *)
Lemma one_cycle_entries (st : LoopState num) (c : Cycle num) :
  snd (monitoring_cycle true st c) = None
  /\ exists new,
       entries (fst (monitoring_cycle true st c)) = entries st ++ new
       /\ (List.length new <= 1)%nat
       /\ Forall (fun e => log_tx_id e = None
                           /\ appended (log_reason e) = EmptyString) new.
Proof.
  rewrite monitoring_cycle_unfold. cbn zeta.
  pose proof (evaluate_reason_plain (engine st) (clock_guard c)
                (clock_emit c) (current_price (pool_read c))
                (position_read c) (pool_read c)) as Hplain.
  fold (decided st c) in Hplain.
  destruct (fst (decided st c)) as [d | e].
  - rewrite andb_false_r. cbn [fst snd entries]. split; [reflexivity |].
    eexists. split; [reflexivity |]. split; [cbn; lia |].
    repeat constructor. exact (Hplain d eq_refl).
  - cbn [fst snd entries]. split; [reflexivity |].
    exists []. rewrite app_nil_r. repeat split; [cbn; lia | constructor].
Qed.

(** A dry run that starts with a short window logs every cycle. *)
Lemma monitoring_run_cold_start (cycles : list (Cycle num)) :
  forall (st : LoopState num) (asked : list (num * num)),
    (List.length (price_history (vol_model (engine st)))
     + List.length cycles <= 9)%nat ->
    exists new,
      entries (fst (fold_left (monitoring_step true) cycles (st, asked)))
      = entries st ++ new
      /\ List.length new = List.length cycles.
Proof.
  induction cycles as [| c cycles IH]; intros st asked Hn.
  - exists []. cbn. rewrite app_nil_r. split; reflexivity.
  - cbn [List.length] in Hn. rewrite monitoring_run_step.
    destruct (decided_cold_start st c) as (d & Ed); [lia |].
    assert (Hst : engine (fst (monitoring_cycle true st c))
                  = snd (decided st c)
                  /\ entries (fst (monitoring_cycle true st c))
                     = log (entries st) (clock_log c) d
                         (current_price (pool_read c)) None).
    { rewrite monitoring_cycle_unfold. cbn zeta. rewrite Ed, andb_false_r.
      split; reflexivity. }
    destruct Hst as [Hengine Hentries].
    destruct (IH (fst (monitoring_cycle true st c))
                (asked ++ match snd (monitoring_cycle true st c) with
                          | Some b => [b]
                          | None => []
                          end)) as (new & Hnew & Hlen).
    { rewrite Hengine, decided_window.
      pose proof (update_length (vol_model (engine st))
                    (current_price (pool_read c))). lia. }
    rewrite Hnew, Hentries. unfold log. rewrite <- app_assoc.
    eexists. split; [reflexivity |]. cbn. lia.
Qed.

(** X14.  In dry-run mode the loop never asks for a transaction group.  A
    cycle whose [evaluate] returns logs the decision as returned, a
    REBALANCE included, with no execution id and nothing appended to the
    reason; a cycle whose [evaluate] raises logs nothing; either way the
    engine is left as [evaluate] left it, so that a dry REBALANCE starts
    the cooldown all the same.  Over a run the log grows by at most one
    entry per cycle, and by exactly one per cycle in a run that ends with
    at most nine samples in the window (the prediction is the fixed 12
    hours until the tenth). *)
Theorem dry_run_never_submits (st : LoopState num)
    (cycles : list (Cycle num)) (c : Cycle num) :
  (let out := monitoring_run true st cycles in
   snd out = []
   /\ exists new,
        entries (fst out) = entries st ++ new
        /\ (List.length new <= List.length cycles)%nat
        /\ ((List.length (price_history (vol_model (engine st)))
             + List.length cycles <= 9)%nat ->
            List.length new = List.length cycles)
        /\ Forall (fun e => log_tx_id e = None
                            /\ appended (log_reason e) = EmptyString) new)
  /\ (let after := fst (monitoring_cycle true st c) in
      engine after = snd (decided st c)
      /\ (forall e, fst (decided st c) = Raised e ->
          entries after = entries st)
      /\ (forall d, fst (decided st c) = Returns d ->
          entries after
          = log (entries st) (clock_log c) d (current_price (pool_read c))
              None
          /\ (action d = REBALANCE ->
              last_rebalance_time (engine after) = clock_emit c))).
Proof.
  split.
  - cbn zeta. unfold monitoring_run.
    destruct (monitoring_run_at_most true
                (fun e => log_tx_id e = None
                          /\ appended (log_reason e) = EmptyString)
                cycles one_cycle_entries st [])
      as (Hasked & new & Hnew & Hlen & HQ).
    split; [exact Hasked |]. exists new. split; [exact Hnew |].
    split; [exact Hlen |]. split; [| exact HQ].
    intro Hn.
    destruct (monitoring_run_cold_start cycles st [] Hn)
      as (new' & Hnew' & Hlen').
    rewrite Hnew in Hnew'. apply app_inv_head in Hnew'. subst new'.
    exact Hlen'.
  - cbn zeta. rewrite monitoring_cycle_unfold. cbn zeta.
    split; [destruct (fst (decided st c)); [rewrite andb_false_r |];
            reflexivity |].
    split.
    + intros e E. rewrite E. reflexivity.
    + intros d E.
      destruct (evaluate_engine (engine st) (clock_guard c) (clock_emit c)
                  (current_price (pool_read c)) (position_read c)
                  (pool_read c)) as [(d' & E' & _ & Es) | [Hn _]].
      * fold (decided st c) in E', Es. rewrite E in E'. injection E' as <-.
        rewrite E, andb_false_r. cbn [fst engine entries].
        split; [reflexivity |]. intros _. rewrite Es. reflexivity.
      * fold (decided st c) in Hn.
        rewrite E, andb_false_r. cbn [fst engine entries].
        split; [reflexivity |]. intro Ha. destruct (Hn d E Ha).
Qed.

(** X15.  While the cooldown guard fires the loop does nothing but log: every
    cycle is logged as SKIP with the cooldown reason and no execution id,
    no group is asked for, and the timestamp stays put. *)
Theorem cooldown_holds_the_loop (dry_run : bool) (st : LoopState num)
    (cycles : list (Cycle num)) :
  Forall (fun c => cooldown_active (engine st) (clock_guard c) = true)
         cycles ->
  let out := monitoring_run dry_run st cycles in
  snd out = []
  /\ last_rebalance_time (engine (fst out))
     = last_rebalance_time (engine st)
  /\ exists new,
       entries (fst out) = entries st ++ new
       /\ List.length new = List.length cycles
       /\ Forall (fun e => log_action e = SKIP /\ log_tx_id e = None
                           /\ exists remaining,
                                message (log_reason e) = Cooldown remaining)
                 new.
Proof.
  intro Hall. cbn zeta. unfold monitoring_run.
  rewrite Forall_forall in Hall.
  destruct (monitoring_run_invariant dry_run
              (fun st' => last_rebalance_time (engine st')
                          = last_rebalance_time (engine st))
              (fun e => log_action e = SKIP /\ log_tx_id e = None
                        /\ exists remaining,
                             message (log_reason e) = Cooldown remaining)
              cycles) with (st := st) (asked := @nil (num * num))
    as (Ht & Ha & Hnew);
    [| reflexivity | split; [exact Ha | split; [exact Ht | exact Hnew]]].
  intros st0 c0 Ht Hin.
  assert (Hc : cooldown_active (engine st0) (clock_guard c0) = true).
  { rewrite (cooldown_active_by_time _ (engine st) _ Ht). apply Hall, Hin. }
  rewrite monitoring_cycle_unfold. cbn zeta. unfold decided.
  rewrite (evaluate_cooling _ _ (clock_emit c0)
             (current_price (pool_read c0)) (position_read c0)
             (pool_read c0) Hc).
  cbn. split; [exact Ht |]. split; [reflexivity |].
  eexists. split; [reflexivity |]. cbn.
  split; [reflexivity |]. split; [reflexivity |]. eexists. reflexivity.
Qed.

End Loop.

Section LoopRuns.

Import Agent AgentIO AgentSamples LoopSamples.

(** Two polls, 40 and 80 seconds after a rebalance, far out of range. *)
Lemma cooldown_holds_the_loop_witness :
  let st : LoopState float :=
    {| engine := rebalanced_at 1762000000; entries := [] |} in
  let out := monitoring_run false st
               (polling 1762000040 [lit 0.25; lit 0.26]) in
  snd out = [] /\ List.length (entries (fst out)) = 2%nat.
Proof.
  cbn zeta.
  destruct (cooldown_holds_the_loop (num := float) false
              {| engine := rebalanced_at 1762000000; entries := [] |}
              (polling 1762000040 [lit 0.25; lit 0.26]))
    as (Ha & _ & new & Hn & Hl & _).
  - repeat constructor.
  - split; [exact Ha |]. rewrite Hn. cbn [entries app]. exact Hl.
Defined.

End LoopRuns.

(* ================================================================= *)
(** * The TEAL deployment: properties *)
(* ================================================================= *)

Section TealProgram.

Import AegisPosition VaultLedger Teal.
Local Open Scope N_scope.

Lemma exec_run (op : Op) (rest : list Op) (tx : Txn) (stack : list Value)
    (g : Globals) :
  exec (op :: rest) None tx stack g
  = match step tx op stack g with
    | Next stack' g' => exec rest None tx stack' g'
    | Jump target stack' g' => exec rest (Some target) tx stack' g'
    | Halt approved g' => if approved then Some g' else None
    | Panic => None
    end.
Proof. reflexivity. Qed.

Lemma exec_seek (op : Op) (rest : list Op) (target : string) (tx : Txn)
    (stack : list Value) (g : Globals) :
  exec (op :: rest) (Some target) tx stack g
  = match op with
    | label name =>
        if String.eqb name target then exec rest None tx stack g
        else exec rest (Some target) tx stack g
    | _ => exec rest (Some target) tx stack g
    end.
Proof. reflexivity. Qed.

Ltac teal_simpl :=
  cbn -[exec method_selector bytes_eqb uint_of_bytes u64_add u64_sub
        UInt64_max called].

Ltac teal_run :=
  teal_simpl;
  repeat (first [rewrite exec_run | rewrite exec_seek]; teal_simpl).

(** Split on whatever the run is waiting for. *)
Ltac teal_case :=
  match goal with
  | |- context [nth_error ?l _] => is_var l; destruct l
  | |- context [match ?l with [] => _ | _ :: _ => _ end] =>
      is_var l; destruct l
  | |- context [bytes_eqb ?a ?b] => destruct (bytes_eqb a b) eqn:?
  | |- context [uint_of_bytes ?a] => destruct (uint_of_bytes a) eqn:?
  | |- context [u64_add ?a ?b] => destruct (u64_add a b) eqn:?
  | |- context [N.leb ?a ?b] => is_var a; destruct (N.leb a b) eqn:?
  | |- context [N.eqb ?a ?b] => is_var a; destruct (N.eqb a b) eqn:?
  | |- context [Nat.leb ?a ?b] => destruct (Nat.leb a b) eqn:?
  end.

Ltac teal_known :=
  repeat match goal with
         | H : ?t = _ |- context [?t] => rewrite H
         end.

Ltac teal_route :=
  repeat (teal_run; try unfold u64_sub;
          repeat (progress teal_known; teal_run; try unfold u64_sub);
          try reflexivity; teal_case).

Lemma approval_on_store (tx : Txn) (s : State) :
  app_id tx <> 0 ->
  approve APPROVAL_TEAL tx (store s) = option_map store (routed tx s).
Proof.
  destruct tx as [[sender creator now] id args completion], s.
  cbn [app_id]. intro Hid. destruct id as [| id]; [congruence |].
  unfold approve, routed, APPROVAL_TEAL. cbn [app_args caller].
  unfold set_position, authorize_agent, revoke_agent, trigger_rebalance,
    deposit, withdraw, log_decision, creator_or_agent.
  destruct args as [| selector args]; [teal_run; reflexivity |].
  unfold called.
  teal_run.
  destruct (bytes_eqb selector (method_selector "initialize()void"));
    [solve [teal_route] |].
  teal_run.
  destruct (bytes_eqb selector (method_selector "set_position(uint64,uint64,uint64,uint64)void"));
    [solve [teal_route] |].
  teal_run.
  destruct (bytes_eqb selector (method_selector "authorize_agent(account)void"));
    [solve [teal_route] |].
  teal_run.
  destruct (bytes_eqb selector (method_selector "revoke_agent()void"));
    [solve [teal_route] |].
  teal_run.
  destruct (bytes_eqb selector (method_selector "trigger_rebalance(uint64,uint64)void"));
    [solve [teal_route] |].
  teal_run.
  destruct (bytes_eqb selector (method_selector "deposit(uint64,uint64)void"));
    [solve [teal_route] |].
  teal_run.
  destruct (bytes_eqb selector (method_selector "withdraw(uint64,uint64)void"));
    [solve [teal_route] |].
  teal_run.
  destruct (bytes_eqb selector (method_selector "log_decision(uint64)void"));
    [solve [teal_route] |].
  teal_run. reflexivity.
Qed.

(** A first argument that is none of the eight selectors: the program
    falls through to [int 1; return], whatever the state. *)
Lemma approval_unrouted (tx : Txn) (g : Globals) (selector : Bytes)
    (args : list Bytes) :
  app_id tx <> 0 ->
  app_args tx = selector :: args ->
  Forall (fun signature => called selector signature = false) signatures ->
  exec APPROVAL_TEAL None tx [] g = Some g.
Proof.
  destruct tx as [ctx id all completion]. cbn [app_id app_args].
  intros Hid -> Hnone. destruct id as [| id]; [congruence |].
  unfold signatures in Hnone.
  repeat match goal with
         | H : Forall _ (_ :: _) |- _ => inversion_clear H
         end.
  unfold called in *. unfold APPROVAL_TEAL.
  teal_run.
  repeat (teal_known; teal_run). reflexivity.
Qed.

(** Without arguments the program fails at its first
    [txna ApplicationArgs 0], on creation as on a call. *)
Lemma approval_no_arguments (tx : Txn) (g : Globals) :
  app_args tx = [] -> exec APPROVAL_TEAL None tx [] g = None.
Proof.
  destruct tx as [ctx id all completion]. cbn [app_args]. intros ->.
  unfold APPROVAL_TEAL. destruct id as [| id]; teal_run; reflexivity.
Qed.

(** Creation runs [initialize] and nothing else. *)
Lemma approval_on_creation (ctx : Context) (selector : Bytes)
    (args : list Bytes) (completion : OnComplete) :
  approve APPROVAL_TEAL
    {| caller := ctx; app_id := 0; app_args := selector :: args;
       on_completion := completion |} []
  = if called selector "initialize()void" then Some (store initialize)
    else None.
Proof.
  unfold approve, APPROVAL_TEAL, called. teal_run.
  destruct (bytes_eqb selector (method_selector "initialize()void"));
    teal_run; reflexivity.
Qed.

End TealProgram.

Section TealEncoding.

Import AegisPosition VaultLedger Teal.
Local Open Scope N_scope.

Lemma be_bytes_length (width : nat) (n : N) :
  List.length (Hashlib.be_bytes width n) = width.
Proof.
  revert n. induction width as [| width IH]; intro n; [reflexivity |].
  cbn [Hashlib.be_bytes]. rewrite length_app, IH. cbn. lia.
Qed.

Lemma be_bytes_small (width : nat) (n : N) :
  Forall (fun b => b < 256) (Hashlib.be_bytes width n).
Proof.
  revert n. induction width as [| width IH]; intro n; [constructor |].
  cbn [Hashlib.be_bytes]. apply Forall_app. split; [apply IH |].
  constructor; [| constructor]. apply N.mod_lt. discriminate.
Qed.

Lemma be_word_app (l : list N) (b : N) :
  Hashlib.be_word (l ++ [b]) = Hashlib.be_word l * 256 + b.
Proof. unfold Hashlib.be_word. rewrite fold_left_app. reflexivity. Qed.

Lemma be_word_be_bytes (width : nat) (n : N) :
  Hashlib.be_word (Hashlib.be_bytes width n) = n mod 256 ^ N.of_nat width.
Proof.
  revert n. induction width as [| width IH]; intro n.
  - cbn. rewrite N.mod_1_r. reflexivity.
  - cbn [Hashlib.be_bytes]. rewrite be_word_app, IH.
    rewrite Nat2N.inj_succ, N.pow_succ_r'.
    rewrite N.Div0.mod_mul_r. lia.
Qed.

Lemma to_byte_to_N (l : list N) :
  Forall (fun b => b < 256) l ->
  map Byte.to_N (map Hashlib.to_byte l) = l.
Proof.
  induction 1 as [| b l Hb _ IH]; [reflexivity |].
  cbn [map]. rewrite IH. f_equal. unfold Hashlib.to_byte.
  destruct (Byte.of_N b) as [x |] eqn:E.
  - apply Byte.to_of_N. exact E.
  - apply Byte.of_N_None_iff in E. lia.
Qed.

(** [btoi] reads back what [encode_uint64] packs. *)
Lemma uint_of_bytes_encode (n : N) (bytes : Bytes) :
  encode_uint64 n = Some bytes -> uint_of_bytes bytes = Some n.
Proof.
  unfold encode_uint64. destruct (n <? 2 ^ 64) eqn:E; [| discriminate].
  apply N.ltb_lt in E.
  generalize (be_bytes_length 8 n) (be_bytes_small 8 n)
    (be_word_be_bytes 8 n).
  generalize (Hashlib.be_bytes 8 n) as l.
  intros l Hlen Hsmall Hword [= <-]. unfold uint_of_bytes.
  rewrite length_map, Hlen. cbn [Nat.leb].
  rewrite (to_byte_to_N l Hsmall), Hword. f_equal.
  apply N.mod_small. exact E.
Qed.

End TealEncoding.

Section TealCalls.

Import AegisPosition VaultLedger Teal.
Local Open Scope N_scope.

(** Evaluate the comparisons between selectors. *)
Ltac selectors :=
  unfold called;
  repeat match goal with
         | |- context [bytes_eqb (method_selector ?a) (method_selector ?b)] =>
             let v := eval vm_compute in
                        (bytes_eqb (method_selector a) (method_selector b)) in
             replace (bytes_eqb (method_selector a) (method_selector b))
               with v by (vm_compute; reflexivity)
         end.

Ltac decoded :=
  repeat match goal with
         | H : context [encode_uint64 ?n] |- _ =>
             let E := fresh "E" in
             destruct (encode_uint64 n) eqn:E; [| discriminate H];
             apply uint_of_bytes_encode in E
         end.

Lemma fits_agent (agent : Bytes) :
  (List.length agent <= 115)%nat ->
  fits (key "agent_address") (Slice agent) = true.
Proof.
  intro H. unfold fits. apply andb_true_iff. split; [reflexivity |].
  apply Nat.leb_le. cbn [key list_byte_of_string List.length]. 
  change (List.length (key "agent_address")) with 13%nat. lia.
Qed.

Lemma routed_call (ctx : Context) (id : N) (c : Call) (args : list Bytes)
    (s : State) :
  arguments c = Some args ->
  (forall agent, c = AuthorizeAgent agent -> (List.length agent <= 115)%nat) ->
  routed (no_op ctx id (method_selector (signature c) :: args)) s
  = route ctx c s.
Proof.
  intros Hargs Hagent. unfold routed, no_op. cbn [app_args caller].
  destruct c; cbn [signature route arguments encode_all] in *; selectors;
    decoded; injection Hargs as <-; cbn [nth_error];
    repeat match goal with
           | H : uint_of_bytes _ = Some _ |- _ => rewrite H; clear H
           end;
    cbn [bind]; try reflexivity.
  rewrite fits_agent by (apply Hagent; reflexivity). reflexivity.
Qed.

(** X18.  On calls built the way [main] builds them (the selector, then each
    [uint64] packed by [encode_uint64], an agent as its address), the TEAL
    program is the contract: on the stored form of any state it approves
    exactly the calls the method of [AegisPosition] accepts, and leaves the
    stored form of the state that method leaves. *)
Theorem approval_program_refines_contract (ctx : Context) (id : N)
    (c : Call) (args : list Bytes) (s : State) :
  id <> 0 ->
  arguments c = Some args ->
  (forall agent, c = AuthorizeAgent agent -> List.length agent = 32%nat) ->
  approve APPROVAL_TEAL
    (no_op ctx id (method_selector (signature c) :: args)) (store s)
  = option_map store (route ctx c s).
Proof.
  intros Hid Hargs Hagent.
  rewrite approval_on_store by exact Hid.
  rewrite (routed_call ctx id c args s Hargs); [reflexivity |].
  intros agent E. rewrite (Hagent agent E). lia.
Qed.

Lemma approval_program_refines_contract_witness :
  approve APPROVAL_TEAL
    (no_op VaultSamples.as_agent 755777633
       [ method_selector "withdraw(uint64,uint64)void";
         [Byte.x00; Byte.x00; Byte.x00; Byte.x00;
          Byte.x00; Byte.x00; Byte.x00; Byte.x01];
         [Byte.x00; Byte.x00; Byte.x00; Byte.x00;
          Byte.x00; Byte.x00; Byte.x00; Byte.x00] ])
    (store VaultSamples.funded)
  = None.
Proof.
  apply (approval_program_refines_contract VaultSamples.as_agent 755777633
           (Withdraw 1 0) _ VaultSamples.funded);
    [discriminate | reflexivity | discriminate].
Defined.

Lemma called_initialize : called SEL_INITIALIZE "initialize()void" = true.
Proof. vm_compute. reflexivity. Qed.

(** X19.  [initialize()] is not reserved to the creation: sent to the deployed
    application by anyone, with whatever further arguments, it is approved
    and zeroes the whole state, deposits and agent included. *)
Theorem initialize_can_be_replayed (tx : Txn) (s : State)
    (args : list Bytes) :
  app_id tx <> 0 ->
  app_args tx = SEL_INITIALIZE :: args ->
  approve APPROVAL_TEAL tx (store s) = Some (store initialize).
Proof.
  intros Hid Hargs. rewrite approval_on_store by exact Hid.
  unfold routed. rewrite Hargs, called_initialize. reflexivity.
Qed.

Lemma initialize_can_be_replayed_witness :
  approve APPROVAL_TEAL
    (no_op VaultSamples.as_stranger 755777633 [SEL_INITIALIZE])
    (store VaultSamples.funded)
  = Some (store initialize).
Proof.
  apply (initialize_can_be_replayed _ _ []); [discriminate | reflexivity].
Defined.

(** X20.  The program looks neither at who sends a call it does not route nor at
    what the call completes with.  A call to the deployed application whose
    first argument is none of the eight selectors is approved with the
    state untouched, so that sent with [DeleteApplication] it removes the
    application and sent with [UpdateApplication] it replaces the
    program. *)
Theorem unrouted_calls_are_approved (tx : Txn) (g : Globals)
    (selector : Bytes) (args : list Bytes) :
  app_id tx <> 0 ->
  app_args tx = selector :: args ->
  Forall (fun signature => called selector signature = false) signatures ->
  within_schema g = true ->
  app_call tx {| approval_program := APPROVAL_TEAL; global_state := g |}
  = match on_completion tx with
    | NoOp => Kept {| approval_program := APPROVAL_TEAL; global_state := g |}
    | UpdateApplication program =>
        Kept {| approval_program := program; global_state := g |}
    | DeleteApplication => Deleted
    end.
Proof.
  intros Hid Hargs Hnone Hschema. unfold app_call, approve.
  cbn [approval_program global_state].
  rewrite (approval_unrouted tx g selector args Hid Hargs Hnone), Hschema.
  reflexivity.
Qed.

Lemma unrouted_calls_are_approved_witness :
  app_call
    {| caller := VaultSamples.as_stranger; app_id := 755777633;
       app_args := [ method_selector
                       "get_position()(uint64,uint64,uint64,uint64,uint64,uint64,uint64)" ];
       on_completion := DeleteApplication |}
    {| approval_program := APPROVAL_TEAL;
       global_state := store VaultSamples.funded |}
  = Deleted.
Proof.
  apply (unrouted_calls_are_approved
           {| caller := VaultSamples.as_stranger; app_id := 755777633;
              app_args := [ method_selector
                       "get_position()(uint64,uint64,uint64,uint64,uint64,uint64,uint64)" ];
              on_completion := DeleteApplication |}
           (store VaultSamples.funded)
           (method_selector
              "get_position()(uint64,uint64,uint64,uint64,uint64,uint64,uint64)")
           []);
    [discriminate | reflexivity
     | repeat constructor; vm_compute; reflexivity | reflexivity].
Defined.

(** X21.  What the program turns down for its arguments: a call or a creation
    without any; a creation whose first argument is not the selector of
    [initialize()]; and a call to one of the five methods that take a
    [uint64] whose first number is missing or longer than eight bytes. *)
Theorem malformed_calls_are_rejected (tx : Txn) (g : Globals) (s : State)
    (selector : Bytes) (args : list Bytes) :
  (app_args tx = [] -> approve APPROVAL_TEAL tx g = None)
  /\ (app_id tx = 0 -> app_args tx = selector :: args ->
      called selector "initialize()void" = false ->
      approve APPROVAL_TEAL tx [] = None)
  /\ (app_id tx <> 0 -> app_args tx = selector :: args ->
      In selector
         (map method_selector
            ([ "set_position(uint64,uint64,uint64,uint64)void";
               "trigger_rebalance(uint64,uint64)void";
               "deposit(uint64,uint64)void";
               "withdraw(uint64,uint64)void";
               "log_decision(uint64)void" ])%string) ->
      match args with
      | [] => True
      | number :: _ => (8 < List.length number)%nat
      end ->
      approve APPROVAL_TEAL tx (store s) = None).
Proof.
  split; [| split].
  - intro Hargs. unfold approve.
    rewrite (approval_no_arguments tx g Hargs). reflexivity.
  - destruct tx as [ctx id all completion]. cbn [app_id app_args].
    intros -> -> Hsel. rewrite approval_on_creation, Hsel. reflexivity.
  - intros Hid Hargs Hin Hbad. rewrite approval_on_store by exact Hid.
    unfold routed. rewrite Hargs. cbn [map In] in Hin.
    destruct args as [| number rest].
    + destruct Hin as [<- | [<- | [<- | [<- | [<- | []]]]]]; selectors;
        reflexivity.
    + assert (Hnone : uint_of_bytes number = None).
      { unfold uint_of_bytes.
        replace (List.length number <=? 8)%nat with false; [reflexivity |].
        symmetry. apply Nat.leb_gt. exact Hbad. }
      destruct Hin as [<- | [<- | [<- | [<- | [<- | []]]]]]; selectors;
        cbn [nth_error]; rewrite Hnone; reflexivity.
Qed.

Lemma malformed_calls_are_rejected_witness :
  approve APPROVAL_TEAL
    (no_op VaultSamples.as_creator 755777633
       [ method_selector "deposit(uint64,uint64)void" ])
    (store VaultSamples.funded)
  = None.
Proof.
  apply (proj2 (proj2 (malformed_calls_are_rejected
                         (no_op VaultSamples.as_creator 755777633
                            [ method_selector "deposit(uint64,uint64)void" ])
                         [] VaultSamples.funded
                         (method_selector "deposit(uint64,uint64)void")
                         [])));
    [discriminate | reflexivity | | exact I].
  cbn [map In]. right. right. left. reflexivity.
Defined.

Lemma routed_consistent (tx : Txn) (s s' : State) :
  consistent s -> routed tx s = Some s' -> consistent s'.
Proof.
  intros Hs. unfold routed.
  assert (Hroute : forall c, route (caller tx) c s = Some s' ->
                             consistent s').
  { intros c Hc. pose proof (apply_consistent s (caller tx, c) Hs) as H.
    unfold apply, call in H. cbn [fst snd] in H. rewrite Hc in H. exact H. }
  assert (Hinit : consistent initialize).
  { unfold consistent. cbn -[UInt64_max]. repeat split; try lia. auto. }
  destruct (app_args tx) as [| selector args]; [discriminate |].
  repeat match goal with
         | |- context [if called ?a ?b then _ else _] =>
             destruct (called a b)
         end.
  all: repeat (cbn [bind];
               match goal with
               | |- context [nth_error ?l ?i] => destruct (nth_error l i)
               | |- context [uint_of_bytes ?b] => destruct (uint_of_bytes b)
               | |- context [fits ?k ?v] => destruct (fits k v)
               end).
  all: cbn [bind]; intro H.
  all: match goal with
       | H : None = Some _ |- _ => discriminate H
       | H : Some _ = Some _ |- _ => injection H as <-; assumption
       | H : set_position _ ?a ?b ?c ?d _ = _ |- _ =>
           exact (Hroute (SetPosition a b c d) H)
       | H : authorize_agent _ ?a _ = _ |- _ =>
           exact (Hroute (AuthorizeAgent a) H)
       | H : revoke_agent _ _ = _ |- _ => exact (Hroute RevokeAgent H)
       | H : trigger_rebalance _ ?a ?b _ = _ |- _ =>
           exact (Hroute (TriggerRebalance a b) H)
       | H : deposit _ ?a ?b _ = _ |- _ => exact (Hroute (Deposit a b) H)
       | H : withdraw _ ?a ?b _ = _ |- _ => exact (Hroute (Withdraw a b) H)
       | H : log_decision _ ?a _ = _ |- _ =>
           exact (Hroute (LogDecision a) H)
       end.
Qed.

(** The create transaction of [main] leaves the zeroed state. *)
Lemma app_create_initialize (deployer : Account) (timestamp : UInt64) :
  app_create APPROVAL_TEAL deployer timestamp [SEL_INITIALIZE]
  = Some {| approval_program := APPROVAL_TEAL;
            global_state := store initialize |}.
Proof.
  unfold app_create. rewrite approval_on_creation, called_initialize.
  reflexivity.
Qed.

Lemma fold_left_cons {A B : Type} (f : A -> B -> A) (x : B) (l : list B)
    (a : A) :
  fold_left f (x :: l) a = fold_left f l (f a x).
Proof. reflexivity. Qed.

Lemma after_calls_cons (tx : Txn) (txs : list Txn) (g : Globals) :
  after_calls (tx :: txs) g = after_calls txs (after_call g tx).
Proof. unfold after_calls. apply fold_left_cons. Qed.

Lemma after_call_store (tx : Txn) (s : State) :
  app_id tx <> 0 ->
  after_call (store s) tx
  = match routed tx s with
    | Some s' => store s'
    | None => store s
    end.
Proof.
  intro Hid. unfold after_call. rewrite approval_on_store by exact Hid.
  destruct (routed tx s); reflexivity.
Qed.

Lemma after_calls_store (txs : list Txn) :
  Forall (fun tx => app_id tx <> 0) txs ->
  forall s, consistent s ->
            exists s', after_calls txs (store s) = store s' /\ consistent s'.
Proof.
  induction 1 as [| tx txs Hid _ IH]; intros s Hs.
  - exists s. split; [reflexivity | exact Hs].
  - rewrite after_calls_cons, after_call_store by exact Hid.
    destruct (routed tx s) as [s1 |] eqn:E.
    + apply IH. apply (routed_consistent tx s s1 Hs E).
    + apply IH. exact Hs.
Qed.

(** X22.  The create transaction of [main] leaves the zeroed state, and
    whatever is then sent to the application, by whomever, its global state
    stays the stored form of a state of the contract with consistent
    counters: the sixteen keys, each with its type, no more.  (The calls
    are those made while the program is still [APPROVAL_TEAL].) *)
Theorem teal_state_is_a_contract_state (deployer : Account)
    (timestamp : UInt64) (txs : list Txn) :
  Forall (fun tx => app_id tx <> 0) txs ->
  app_create APPROVAL_TEAL deployer timestamp [SEL_INITIALIZE]
  = Some {| approval_program := APPROVAL_TEAL;
            global_state := store initialize |}
  /\ exists s, after_calls txs (store initialize) = store s /\ consistent s.
Proof.
  intro Hids. split; [apply app_create_initialize |].
  apply (after_calls_store txs Hids).
  unfold consistent. cbn -[UInt64_max]. repeat split; try lia. auto.
Qed.

Lemma teal_state_is_a_contract_state_witness :
  exists s,
    after_calls
      [ no_op VaultSamples.as_stranger 755777633
          [ SEL_DEPOSIT;
            [Byte.x00; Byte.x00; Byte.x00; Byte.x00;
             Byte.x00; Byte.x00; Byte.x00; Byte.x07];
            [Byte.x09] ] ]
      (store initialize) = store s
    /\ consistent s.
Proof.
  apply (teal_state_is_a_contract_state VaultSamples.creator 1762000000).
  repeat constructor. discriminate.
Defined.

End TealCalls.

(* ================================================================= *)
(** * The two deployments, as the agent and the API read them *)
(* ================================================================= *)

Section Deployments.

Import Agent AgentIO.
Context {num : Type} {ops : Num num}.
Local Open Scope num_scope.

(** X23.  The agent reads the same position from the application whichever
    program was deployed, the contract compiled or the TEAL of
    deploy_teal.py: the six keys it looks for have the same names.  The
    API does not: it looks for [last_rebalance_timestamp] and
    [last_decision_timestamp], which the TEAL program keeps under
    [last_rebalance_ts] and [last_decision_ts], so that on a TEAL
    deployment [GET /api/position] reports both as 0 whatever has happened;
    its other fields agree. *)
Theorem deployments_differ_in_two_timestamps (APP_ID : Z)
    (s : AegisPosition.State) :
  let compiled := Some (chain_view s) in
  let teal := Some (Teal.algod_view (Teal.store s)) in
  read_position_state teal = read_position_state compiled
  /\ exists r : Backend.PositionResponse num,
       Backend.get_position APP_ID compiled = Some r
       /\ Backend.last_rebalance_timestamp r
          = Z.of_N (AegisPosition.last_rebalance_timestamp s)
       /\ Backend.last_decision_timestamp r
          = Z.of_N (AegisPosition.last_decision_timestamp s)
       /\ Backend.entry_price r = entry_price (read_position_state compiled)
       /\ Backend.lower_bound r = lower_bound (read_position_state compiled)
       /\ Backend.upper_bound r = upper_bound (read_position_state compiled)
       /\ Backend.agent_authorized r
          = (AegisPosition.agent_authorized s =? 1)%N
       /\ Backend.get_position APP_ID teal
          = Some {| Backend.entry_price := Backend.entry_price r;
                    Backend.lower_bound := Backend.lower_bound r;
                    Backend.upper_bound := Backend.upper_bound r;
                    Backend.capital_usdc := Backend.capital_usdc r;
                    Backend.open_timestamp := Backend.open_timestamp r;
                    Backend.total_rebalances := Backend.total_rebalances r;
                    Backend.last_rebalance_timestamp := 0;
                    Backend.deposited_algo := Backend.deposited_algo r;
                    Backend.deposited_usdc := Backend.deposited_usdc r;
                    Backend.total_deposits := Backend.total_deposits r;
                    Backend.total_withdrawals := Backend.total_withdrawals r;
                    Backend.agent_authorized := Backend.agent_authorized r;
                    Backend.total_decisions := Backend.total_decisions r;
                    Backend.last_decision_timestamp := 0;
                    Backend.last_decision_action :=
                      Backend.last_decision_action r;
                    Backend.app_id := APP_ID |}.
Proof.
  destruct s. cbn zeta. split; [reflexivity |].
  eexists. split; [reflexivity |]. cbn.
  repeat split.
  destruct agent_authorized as [| [p | p |]]; reflexivity.
Qed.

End Deployments.

(* ================================================================= *)
(** * The decision log of the API *)
(* ================================================================= *)

Section DecisionLog.

Import Agent AgentIO Backend.
Context {num : Type} {ops : Num num}.

(** [a] is not older than [b]. *)
Let newer (a b : DecisionEntry num) : Prop :=
  (timestamp b <= timestamp a)%Z.

Lemma insert_desc_In (e x : DecisionEntry num) (l : list (DecisionEntry num)) :
  In x (insert_desc e l) <-> x = e \/ In x l.
Proof.
  induction l as [| y l IH]; cbn [insert_desc].
  - cbn. intuition.
  - destruct (timestamp y <? timestamp e)%Z; cbn [In]; [intuition |].
    rewrite IH. intuition.
Qed.

Lemma insert_desc_length (e : DecisionEntry num)
    (l : list (DecisionEntry num)) :
  List.length (insert_desc e l) = S (List.length l).
Proof.
  induction l as [| y l IH]; cbn [insert_desc]; [reflexivity |].
  destruct (timestamp y <? timestamp e)%Z; cbn [List.length]; [reflexivity |].
  rewrite IH. reflexivity.
Qed.

Lemma insert_desc_sorted (e : DecisionEntry num)
    (l : list (DecisionEntry num)) :
  StronglySorted newer l -> StronglySorted newer (insert_desc e l).
Proof.
  induction 1 as [| y l Hs IH Hy]; cbn [insert_desc].
  - repeat constructor.
  - destruct (timestamp y <? timestamp e)%Z eqn:E.
    + apply Z.ltb_lt in E. constructor; [constructor; assumption |].
      constructor; [unfold newer; lia |].
      apply Forall_forall. intros x Hx.
      rewrite Forall_forall in Hy. specialize (Hy x Hx).
      unfold newer in *. lia.
    + apply Z.ltb_ge in E. constructor; [exact IH |].
      apply Forall_forall. intros x Hx. apply insert_desc_In in Hx.
      destruct Hx as [-> | Hx]; [exact E |].
      rewrite Forall_forall in Hy. exact (Hy x Hx).
Qed.

Lemma sort_desc_from (l sorted : list (DecisionEntry num)) :
  StronglySorted newer sorted ->
  let out := fold_left (fun sorted e => insert_desc e sorted) l sorted in
  StronglySorted newer out
  /\ List.length out = (List.length l + List.length sorted)%nat
  /\ forall x, In x out <-> In x l \/ In x sorted.
Proof.
  revert sorted. induction l as [| e l IH]; intros sorted Hs; cbn zeta.
  - cbn. split; [exact Hs |]. split; [reflexivity |]. intuition.
  - cbn [fold_left].
    destruct (IH (insert_desc e sorted) (insert_desc_sorted e sorted Hs))
      as (H1 & H2 & H3).
    split; [exact H1 |]. split.
    + rewrite H2, insert_desc_length. cbn. lia.
    + intro x. rewrite H3, insert_desc_In. cbn [In]. intuition.
Qed.

Lemma sorted_firstn (n : nat) (l : list (DecisionEntry num)) :
  StronglySorted newer l -> StronglySorted newer (firstn n l).
Proof.
  intro Hs. revert n. induction Hs as [| y l Hs IH Hy]; intro n.
  - rewrite firstn_nil. constructor.
  - destruct n as [| n]; [constructor |]. cbn [firstn].
    constructor; [apply IH |].
    apply Forall_forall. intros x Hx.
    rewrite Forall_forall in Hy. apply Hy.
    rewrite <- (firstn_skipn n l). apply in_or_app. left. exact Hx.
Qed.

Lemma sorted_app (a b : list (DecisionEntry num)) :
  StronglySorted newer (a ++ b) ->
  forall x y, In x a -> In y b -> newer x y.
Proof.
  induction a as [| z a IH]; intros Hs x y Hx Hy; [contradiction |].
  cbn [app] in Hs. apply StronglySorted_inv in Hs. destruct Hs as [Hs Hz].
  destruct Hx as [<- | Hx].
  - rewrite Forall_forall in Hz. apply Hz, in_or_app. right. exact Hy.
  - exact (IH Hs x y Hx Hy).
Qed.

(** X24.  What [GET /api/decision-log] shows of the list it has put together:
    its fifty newest entries, newest first.  Every entry shown is one of
    the list, and an entry of the list that is not shown is not newer than
    any that is. *)
Theorem decision_log_shows_the_newest_fifty
    (agent_decisions : list (Row num)) (supabase : option (list (Row num)))
    (global_state : option (list StateEntry))
    (shown : list (DecisionEntry num)) :
  get_decision_log agent_decisions supabase global_state = Some shown ->
  exists combined,
    combined_log agent_decisions supabase global_state = Some combined
    /\ List.length shown = Nat.min 50 (List.length combined)
    /\ StronglySorted (fun a b => (timestamp b <= timestamp a)%Z) shown
    /\ (forall e, In e shown -> In e combined)
    /\ (forall e, In e combined ->
        In e shown
        \/ forall x, In x shown -> (timestamp e <= timestamp x)%Z).
Proof.
  unfold get_decision_log.
  destruct (combined_log agent_decisions supabase global_state)
    as [combined |]; [| discriminate].
  intro Hshown.
  assert (E : shown = firstn 50 (sort_desc combined)) by congruence.
  clear Hshown. subst shown. exists combined. split; [reflexivity |].
  pose proof (sort_desc_from combined [] (SSorted_nil _)) as H.
  cbn zeta in H.
  change (fold_left _ combined []) with (sort_desc combined) in H.
  destruct H as (Hs & Hl & Hin'). rewrite Nat.add_0_r in Hl.
  assert (Hin : forall x, In x (sort_desc combined) <-> In x combined).
  { intro x. rewrite Hin'. cbn [In]. intuition. }
  clear Hin'.
  split; [rewrite length_firstn, Hl; reflexivity |].
  split; [apply sorted_firstn; exact Hs |].
  split.
  - intros e He. apply Hin.
    rewrite <- (firstn_skipn 50 (sort_desc combined)).
    apply in_or_app. left. exact He.
  - intros e He.
    assert (Hsorted : In e (sort_desc combined))
      by (apply Hin; exact He).
    rewrite <- (firstn_skipn 50 (sort_desc combined)) in Hsorted, Hs.
    apply in_app_or in Hsorted. destruct Hsorted as [H | H];
      [left; exact H | right].
    intros x Hx. exact (sorted_app _ _ Hs x e Hx H).
Qed.

(** X25.  The on-chain record needs the compiled contract.  On a TEAL
    deployment the endpoint adds nothing to the rows of the log file and
    of Supabase, as when the chain cannot be read: the key it looks the
    last decision's time up under is not one the TEAL program writes.  On
    the compiled contract it adds the record of the last decision, with
    the action's name if the code is 0 to 3, whenever a decision has been
    logged at a time after 0 that no row carries. *)
Theorem on_chain_record_needs_the_compiled_contract
    (agent_decisions : list (Row num)) (supabase : option (list (Row num)))
    (s : AegisPosition.State) :
  exists rows,
    combined_log agent_decisions supabase None = Some rows
    /\ combined_log agent_decisions supabase
         (Some (Teal.algod_view (Teal.store s))) = Some rows
    /\ let last_ts := Z.of_N (AegisPosition.last_decision_timestamp s) in
       combined_log agent_decisions supabase (Some (chain_view s))
       = Some (if (0 <? last_ts)%Z && negb (seen last_ts rows)
               then rows
                    ++ [on_chain_record last_ts
                          (Int (Z.of_N
                                  (AegisPosition.last_decision_action s)))]
               else rows).
Proof.
  eexists. split; [reflexivity |]. destruct s. split.
  - unfold combined_log. cbn -[add_rows map seen]. reflexivity.
  - cbn zeta. unfold combined_log. cbn -[add_rows map seen Z.ltb].
    destruct (_ && _); reflexivity.
Qed.

End DecisionLog.

Section DecisionLogRuns.

Import Agent AgentIO Backend.
Local Open Scope string_scope.

(** Two rows of the log file, the older one first, and nothing else. *)
Lemma decision_log_shows_the_newest_fifty_witness :
  let hold : Row float :=
    {| row_timestamp := 1762000000; row_action := "HOLD";
       row_price := lit 0.18; row_reason := "In range";
       row_tx_id := None |} in
  let rebalance : Row float :=
    {| row_timestamp := 1762000040; row_action := "REBALANCE";
       row_price := lit 0.25; row_reason := "Out of range";
       row_tx_id := Some "TXID" |} in
  exists combined,
    combined_log [hold; rebalance] None None = Some combined
    /\ List.length [of_row rebalance; of_row hold]
       = Nat.min 50 (List.length combined)
    /\ StronglySorted (fun a b => (timestamp b <= timestamp a)%Z)
         [of_row rebalance; of_row hold]
    /\ (forall e, In e [of_row rebalance; of_row hold] -> In e combined)
    /\ (forall e, In e combined ->
        In e [of_row rebalance; of_row hold]
        \/ forall x, In x [of_row rebalance; of_row hold] ->
                     (timestamp e <= timestamp x)%Z).
Proof.
  cbn zeta.
  apply (decision_log_shows_the_newest_fifty (num := float)).
  reflexivity.
Defined.

End DecisionLogRuns.

